(** * EA MCP servers: memory, journal and prompt library

    A shallow embedding of the three request handlers of
    [mcps/ea-memory/server.py], [mcps/ea-journal/server.py] and
    [mcps/ea-prompts/server.py], and the properties of their
    specification proved (or refuted) over it.

    Layout: the Python runtime pieces the servers rely on ([Py]), the three
    servers ([Memory], [Journal], [Prompts]), then the theorems. *)

From Stdlib Require Import ZArith String Ascii List Bool Lia.
From Stdlib Require Import Sorting.Sorted Sorting.Permutation.
From Stdlib Require Import DecimalString DecimalZ DecimalPos.
From stdpp Require Import base option list gmap strings sorting.

Local Open Scope string_scope.
Local Open Scope list_scope.
Local Open Scope Z_scope.

(* ===================================================================== *)
(** * Python runtime model                                                *)
(* ===================================================================== *)

Module Py.

(** ** Exceptions and outcomes

    The exception classes that the modelled code can raise.  None of them is
    a subclass of another ([JSONDecodeError] and [UnicodeDecodeError] are
    both subclasses of [ValueError], which nothing here raises or catches),
    so an [except] clause matches an exception exactly when it lists its
    class.  [IOError] is Python 3's alias of [OSError]. *)

Inductive exception : Type :=
| OSError
| JSONDecodeError
| UnicodeDecodeError
| TypeError
| IndexError.

Definition IOError : exception := OSError.

Definition exception_eqb (a b : exception) : bool :=
  match a, b with
  | OSError, OSError
  | JSONDecodeError, JSONDecodeError
  | UnicodeDecodeError, UnicodeDecodeError
  | TypeError, TypeError
  | IndexError, IndexError => true
  | _, _ => false
  end.

Inductive outcome (A : Type) : Type :=
| Return (a : A)
| Raise (e : exception).
Arguments Return {A} a.
Arguments Raise {A} e.

#[global] Instance outcome_ret : MRet outcome := @Return.
#[global] Instance outcome_bind : MBind outcome := fun A B k m =>
  match m with
  | Return a => k a
  | Raise e => Raise e
  end.

(** [try: body  except classes: handler]. *)
Definition try_except {A} (body : outcome A) (classes : list exception)
    (handler : outcome A) : outcome A :=
  match body with
  | Return a => Return a
  | Raise e => if existsb (exception_eqb e) classes then handler else Raise e
  end.

(** ** Files

    A path either does not exist ([None]) or exists with some content.  The
    content is classified by what [Path.read_text(encoding="utf-8")]
    followed by [json.loads] does with it:
    - [Unreadable]: the read fails with an [OSError] (permissions, a
      directory in place of the file, an I/O error);
    - [Undecodable]: the bytes are not valid UTF-8, so [read_text] raises
      [UnicodeDecodeError];
    - [Malformed]: the text is not JSON, [json.loads] raises
      [JSONDecodeError];
    - [Document d]: the text is the JSON document [d], taken at the type the
      handlers index it with.
    A file whose JSON has another shape (an entry without one of its keys,
    a field of another type) is not represented: on such a file the
    handlers raise [KeyError], [TypeError] or [AttributeError] where they
    index the value.  What is proved of a [Document] is proved of the
    documents of the data model.
    [write_text] is modelled as always succeeding and replacing the
    content. *)

Inductive content (D : Type) : Type :=
| Unreadable
| Undecodable
| Malformed
| Document (d : D).
Arguments Unreadable {D}.
Arguments Undecodable {D}.
Arguments Malformed {D}.
Arguments Document {D} d.

Abbreviation file D := (option (content D)).

Definition path_exists {D} (f : file D) : bool :=
  match f with Some _ => true | None => false end.

(** [json.loads(path.read_text(encoding="utf-8"))] *)
Definition read_json {D} (f : file D) : outcome D :=
  match f with
  | None => Raise OSError
  | Some Unreadable => Raise OSError
  | Some Undecodable => Raise UnicodeDecodeError
  | Some Malformed => Raise JSONDecodeError
  | Some (Document d) => Return d
  end.

(** [path.write_text(json.dumps(d, indent=2), encoding="utf-8")] *)
Definition write_json {D} (d : D) : file D := Some (Document d).

(** ** Strings

    [str] is modelled by [string]; case conversion and whitespace cover the
    ASCII range. *)

Definition is_upper (c : ascii) : bool :=
  let n := N_of_ascii c in ((65 <=? n) && (n <=? 90))%N.
Definition is_lower (c : ascii) : bool :=
  let n := N_of_ascii c in ((97 <=? n) && (n <=? 122))%N.

Definition lower_char (c : ascii) : ascii :=
  if is_upper c then ascii_of_N (N_of_ascii c + 32) else c.
Definition upper_char (c : ascii) : ascii :=
  if is_lower c then ascii_of_N (N_of_ascii c - 32) else c.

Fixpoint str_map (f : ascii -> ascii) (s : string) : string :=
  match s with
  | EmptyString => EmptyString
  | String c s => String (f c) (str_map f s)
  end.

(** [s.lower()], [s.upper()] *)
Definition lower (s : string) : string := str_map lower_char s.
Definition upper (s : string) : string := str_map upper_char s.

(** the characters [str.strip()] removes *)
Definition is_space (c : ascii) : bool :=
  let n := N_of_ascii c in
  (((9 <=? n) && (n <=? 13)) || ((28 <=? n) && (n <=? 32)))%N.

Fixpoint lstrip (s : string) : string :=
  match s with
  | EmptyString => EmptyString
  | String c s' => if is_space c then lstrip s' else s
  end.

Fixpoint rstrip (s : string) : string :=
  match s with
  | EmptyString => EmptyString
  | String c s' =>
      match rstrip s' with
      | EmptyString => if is_space c then EmptyString else String c EmptyString
      | r => String c r
      end
  end.

(** [s.strip()] *)
Definition strip (s : string) : string := lstrip (rstrip s).

(** [s.split(sep)] for a one-character separator *)
Fixpoint split (sep : ascii) (s : string) : list string :=
  match s with
  | EmptyString => [EmptyString]
  | String c s' =>
      if Ascii.eqb c sep then EmptyString :: split sep s'
      else match split sep s' with
           | [] => [String c EmptyString]
           | w :: ws => String c w :: ws
           end
  end.

(** [sub in s] *)
Fixpoint str_in (sub s : string) : bool :=
  String.prefix sub s ||
  match s with
  | EmptyString => false
  | String _ s' => str_in sub s'
  end.

(** [s[:n]] for [n >= 0] *)
Definition str_take (n : nat) (s : string) : string := String.substring 0 n s.

(** [s.replace(a, b)] for one-character [a] and [b] *)
Definition replace_char (a b : ascii) (s : string) : string :=
  str_map (fun c => if Ascii.eqb c a then b else c) s.

(** [sep.join(l)] *)
Definition join (sep : string) (l : list string) : string := String.concat sep l.

(** truth value of a string: [bool(s)] *)
Definition truthy (s : string) : bool := negb (String.eqb s "").

(** [len(s)] *)
Definition len (s : string) : Z := Z.of_nat (String.length s).

(** ** Integers as text *)

(** [str(n)] *)
Definition str (n : Z) : string := NilZero.string_of_int (Z.to_int n).

Fixpoint zeros (n : nat) : string :=
  match n with O => EmptyString | S n => String "0" (zeros n) end.

(** [s.zfill]-style padding on the left up to width [w] *)
Definition zfill (w : nat) (s : string) : string :=
  zeros (w - String.length s) +:+ s.

(** [f"{n:0wd}"]: sign first, then zeros up to the total width [w] *)
Definition format_0d (w : nat) (n : Z) : string :=
  if n <? 0 then "-" +:+ zfill (w - 1) (str (- n)) else zfill w (str n).

(** ** Lists *)

(** [l[start:stop]]; [None] stands for an omitted bound.  Negative bounds
    count from the end, and every bound is clamped to [0 .. len(l)]. *)
Definition clamp_index (n : Z) (i : Z) : Z :=
  if i <? 0 then Z.max 0 (i + n) else Z.min i n.

Definition slice {A} (start stop : option Z) (l : list A) : list A :=
  let n := Z.of_nat (length l) in
  let lo := match start with Some i => clamp_index n i | None => 0 end in
  let hi := match stop with Some j => clamp_index n j | None => n end in
  take (Z.to_nat (hi - lo)) (drop (Z.to_nat lo) l).

(** [l.sort(key=key, reverse=reverse)].  Python's sort is stable, also with
    [reverse=True], and compares keys with [<] only; a stable sort has one
    possible result, computed here by insertion from the right. *)
Section Sort.
Context {A K : Type}.
Variable lt : K -> K -> bool.
Variable key : A -> K.
Variable reverse : bool.

(** [y], already placed, stays in front of the earlier element [x] *)
Definition stays_before (y x : A) : bool :=
  if reverse then lt (key x) (key y) else lt (key y) (key x).

Fixpoint sort_insert (x : A) (l : list A) : list A :=
  match l with
  | [] => [x]
  | y :: l' => if stays_before y x then y :: sort_insert x l' else x :: l
  end.

Fixpoint sort (l : list A) : list A :=
  match l with
  | [] => []
  | x :: l' => sort_insert x (sort l')
  end.

(** What the result of a sort is measured by: [a] comes strictly before
    [b] in the order asked for; [a] may stand in front of [b]; [a] and [b]
    have keys that compare equal. *)
Definition precedes (a b : A) : bool := stays_before a b.

Definition in_order (a b : A) : Prop := precedes b a = false.

Definition same_rank (a b : A) : bool :=
  negb (precedes a b) && negb (precedes b a).
End Sort.

(** [any(p(x) for x in l)] *)
Definition any {A} (p : A -> bool) (l : list A) : bool := existsb p l.

(** [x in l] for strings *)
Definition str_mem (x : string) (l : list string) : bool :=
  existsb (String.eqb x) l.

(** tuple comparison [(a1, b1) < (a2, b2)] for an integer and a string *)
Definition pair_lt (p q : Z * string) : bool :=
  (p.1 <? q.1) || ((p.1 =? q.1) && String.ltb p.2 q.2).

(** ** Text building *)

Definition nl : string := String "010"%char EmptyString.

(** the lines of a triple-quoted f-string, joined by newlines *)
Definition lines (l : list string) : string := join nl l.

(** [s or default] for strings *)
Definition str_or (s default : string) : string :=
  if truthy s then s else default.

(** ** datetime

    An aware UTC [datetime]: the proleptic Gregorian ordinal of its date
    (1 is 0001-01-01) and the time of day.  [ord2ymd] is the standard
    library's conversion of an ordinal to year, month and day. *)

Record datetime : Type := {
  ordinal : Z;
  hour : Z;
  minute : Z;
  second : Z;
  microsecond : Z
}.

Definition DI400Y : Z := 146097.
Definition DI100Y : Z := 36524.
Definition DI4Y : Z := 1461.

Definition DAYS_IN_MONTH (month : Z) : Z :=
  match month with
  | 1 => 31 | 2 => 28 | 3 => 31 | 4 => 30 | 5 => 31 | 6 => 30
  | 7 => 31 | 8 => 31 | 9 => 30 | 10 => 31 | 11 => 30 | 12 => 31
  | _ => -1
  end.

Definition DAYS_BEFORE_MONTH (month : Z) : Z :=
  match month with
  | 1 => 0 | 2 => 31 | 3 => 59 | 4 => 90 | 5 => 120 | 6 => 151
  | 7 => 181 | 8 => 212 | 9 => 243 | 10 => 273 | 11 => 304 | 12 => 334
  | _ => -1
  end.

Definition ord2ymd (n : Z) : Z * Z * Z :=
  let n := n - 1 in
  let n400 := n / DI400Y in let n := n mod DI400Y in
  let year := n400 * 400 + 1 in
  let n100 := n / DI100Y in let n := n mod DI100Y in
  let n4 := n / DI4Y in let n := n mod DI4Y in
  let n1 := n / 365 in let n := n mod 365 in
  let year := year + n100 * 100 + n4 * 4 + n1 in
  if (n1 =? 4) || (n100 =? 4) then (year - 1, 12, 31)
  else
    let leapyear := (n1 =? 3) && (negb (n4 =? 24) || (n100 =? 3)) in
    let month := Z.shiftr (n + 50) 5 in
    let preceding :=
      DAYS_BEFORE_MONTH month + (if (2 <? month) && leapyear then 1 else 0) in
    let '(month, preceding) :=
      if n <? preceding
      then (month - 1,
            preceding - (DAYS_IN_MONTH (month - 1)
                         + (if (month - 1 =? 2) && leapyear then 1 else 0)))
      else (month, preceding) in
    (year, month, n - preceding + 1).

(** [d.strftime('%Y-%m-%d')], for years of four digits *)
Definition strftime_Ymd (d : datetime) : string :=
  let '(y, m, dd) := ord2ymd (ordinal d) in
  format_0d 4 y +:+ "-" +:+ format_0d 2 m +:+ "-" +:+ format_0d 2 dd.

(** [d.strftime('%H%M%S')] *)
Definition strftime_HMS (d : datetime) : string :=
  format_0d 2 (hour d) +:+ format_0d 2 (minute d) +:+ format_0d 2 (second d).

(** [d.strftime('%H:%M')] *)
Definition strftime_HM (d : datetime) : string :=
  format_0d 2 (hour d) +:+ ":" +:+ format_0d 2 (minute d).

(** [d.isoformat()] of an aware UTC datetime: the microseconds are printed
    only when they are not zero *)
Definition isoformat (d : datetime) : string :=
  strftime_Ymd d +:+ "T" +:+ format_0d 2 (hour d) +:+ ":"
  +:+ format_0d 2 (minute d) +:+ ":" +:+ format_0d 2 (second d)
  +:+ (if microsecond d =? 0 then "" else "." +:+ format_0d 6 (microsecond d))
  +:+ "+00:00".

(** [d - timedelta(days=i)] *)
Definition minus_days (d : datetime) (i : Z) : datetime :=
  {| ordinal := ordinal d - i; hour := hour d; minute := minute d;
     second := second d; microsecond := microsecond d |}.

(** ** More of [str] and [datetime] *)

(** [s.title()]: a letter after a letter is lowered, a letter after anything
    else is raised *)
Fixpoint title_from (previous_is_cased : bool) (s : string) : string :=
  match s with
  | EmptyString => EmptyString
  | String c s' =>
      let cased := is_upper c || is_lower c in
      String (if cased
              then if previous_is_cased then lower_char c else upper_char c
              else c)
        (title_from cased s')
  end.

Definition title (s : string) : string := title_from false s.

(** [d.weekday()]: Monday is 0 *)
Definition weekday (d : datetime) : Z := (ordinal d + 6) mod 7.

Definition day_name (weekday : Z) : string :=
  match weekday with
  | 0 => "Monday" | 1 => "Tuesday" | 2 => "Wednesday" | 3 => "Thursday"
  | 4 => "Friday" | 5 => "Saturday" | _ => "Sunday"
  end.

Definition month_name (month : Z) : string :=
  match month with
  | 1 => "January" | 2 => "February" | 3 => "March" | 4 => "April"
  | 5 => "May" | 6 => "June" | 7 => "July" | 8 => "August"
  | 9 => "September" | 10 => "October" | 11 => "November" | _ => "December"
  end.

(** [d.strftime('%A, %B %d, %Y')], with the names of the C locale *)
Definition strftime_long (d : datetime) : string :=
  let '(y, m, dd) := ord2ymd (ordinal d) in
  day_name (weekday d) +:+ ", " +:+ month_name m +:+ " " +:+ format_0d 2 dd
  +:+ ", " +:+ format_0d 4 y.

(** ** Dictionaries with string keys

    A [dict] keeps its keys in insertion order; assigning to a key that is
    present keeps its place. *)

Abbreviation dict V := (list (string * V)).

Fixpoint dict_get {V} (key : string) (d : dict V) : option V :=
  match d with
  | [] => None
  | (k, v) :: d' => if String.eqb k key then Some v else dict_get key d'
  end.

(** [d[key] = value] *)
Fixpoint dict_set {V} (key : string) (value : V) (d : dict V) : dict V :=
  match d with
  | [] => [(key, value)]
  | (k, v) :: d' =>
      if String.eqb k key then (k, value) :: d'
      else (k, v) :: dict_set key value d'
  end.

(** [d.get(key, default)] *)
Definition dict_get_default {V} (key : string) (default : V) (d : dict V) : V :=
  match dict_get key d with Some v => v | None => default end.

(** ** [str.format] with keyword arguments

    The replacement fields covered are plain names, [{name}]; [{{] and [}}]
    stand for the braces.  A field with a conversion, a format spec, an
    attribute or an index is answered with [Unsupported]. *)

Inductive format_result : Type :=
| Formatted (s : string)
| FormatKeyError (name : string)
| FormatIndexError
| FormatValueError
| Unsupported.

Definition format_prepend (s : string) (r : format_result) : format_result :=
  match r with
  | Formatted t => Formatted (s +:+ t)
  | _ => r
  end.

Inductive format_state : Type :=
| InText
| AfterOpen
| InField (name : string)
| AfterClose.

Definition is_digit (c : ascii) : bool :=
  let n := N_of_ascii c in ((48 <=? n) && (n <=? 57))%N.

Fixpoint all_digits (s : string) : bool :=
  match s with
  | EmptyString => true
  | String c s' => is_digit c && all_digits s'
  end.

(** the characters that start what a plain field name cannot hold *)
Definition field_special (c : ascii) : bool :=
  existsb (Ascii.eqb c) ["{"; "!"; ":"; "."; "["]%char.

Definition format_field (kwargs : dict string) (name : string)
    (rest : format_result) : format_result :=
  if all_digits name then FormatIndexError
  else match dict_get name kwargs with
       | Some value => format_prepend value rest
       | None => FormatKeyError name
       end.

Fixpoint format_from (kwargs : dict string) (state : format_state)
    (template : string) : format_result :=
  match template, state with
  | EmptyString, InText => Formatted EmptyString
  | EmptyString, _ => FormatValueError
  | String c s, InText =>
      if Ascii.eqb c "{" then format_from kwargs AfterOpen s
      else if Ascii.eqb c "}" then format_from kwargs AfterClose s
      else format_prepend (String c EmptyString) (format_from kwargs InText s)
  | String c s, AfterOpen =>
      if Ascii.eqb c "{"
      then format_prepend "{" (format_from kwargs InText s)
      else if Ascii.eqb c "}" then FormatIndexError
      else if field_special c then Unsupported
      else format_from kwargs (InField (String c EmptyString)) s
  | String c s, InField name =>
      if Ascii.eqb c "}"
      then format_field kwargs name (format_from kwargs InText s)
      else if field_special c then Unsupported
      else format_from kwargs (InField (name +:+ String c EmptyString)) s
  | String c s, AfterClose =>
      if Ascii.eqb c "}"
      then format_prepend "}" (format_from kwargs InText s)
      else FormatValueError
  end.

(** [template.format(name=value, ...)] *)
Definition format (kwargs : dict string) (template : string) : format_result :=
  format_from kwargs InText template.

End Py.

(* ===================================================================== *)
(** * ea-memory: [mcps/ea-memory/server.py]                               *)
(* ===================================================================== *)

Module Memory.
Import Py.

(** ** Input models (validated by the framework before a handler runs) *)

Module RememberInput.
Record t : Type := {
  content : string;
  tags : option string;
  importance : option Z
}.
End RememberInput.

Module RecallInput.
Record t : Type := {
  query : string;
  tags : option string;
  limit : option Z
}.
End RecallInput.

Module ListInput.
Record t : Type := {
  tags : option string;
  limit : option Z;
  offset : option Z
}.
End ListInput.

Module ForgetInput.
Record t : Type := {
  memory_id : string;
  confirm : bool
}.
End ForgetInput.

(** ** Stored data: one memory, and the document of [memories.json] *)

Module Mem.
Record t : Type := {
  id : string;
  content : string;
  tags : list string;
  importance : Z;
  created_at : string
}.
End Mem.

Module Store.
Record t : Type := {
  memories : list Mem.t;
  next_id : Z
}.
End Store.

(** ** Storage *)

Definition empty_store : Store.t := {| Store.memories := []; Store.next_id := 1 |}.

Definition load_memories (storage : file Store.t) : outcome Store.t :=
  if path_exists storage then
    try_except (read_json storage) [JSONDecodeError; IOError]
      (Return empty_store)
  else Return empty_store.

Definition save_memories (data : Store.t) : file Store.t := write_json data.

(** returns the id and the document with its counter advanced *)
Definition generate_id (data : Store.t) : string * Store.t :=
  let mem_id := "mem_" +:+ format_0d 4 (Store.next_id data) in
  (mem_id,
   {| Store.memories := Store.memories data;
      Store.next_id := Store.next_id data + 1 |}).

Definition parse_tags (tags_str : option string) : list string :=
  match tags_str with
  | None => []
  | Some s =>
      if negb (truthy s) then []
      else map (fun t => lower (strip t))
             (List.filter (fun t => truthy (strip t)) (split "," s))
  end.

(** ** ea_remember *)

(** the memory built by a call, and the document it is appended to *)
Definition new_memory (now : datetime) (params : RememberInput.t)
    (data : Store.t) : Mem.t * Store.t :=
  let tag_list := parse_tags (RememberInput.tags params) in
  let importance :=
    match RememberInput.importance params with
    | Some i => if i =? 0 then 50 else i
    | None => 50
    end in
  let '(mem_id, data) := generate_id data in
  let memory :=
    {| Mem.id := mem_id;
       Mem.content := RememberInput.content params;
       Mem.tags := tag_list;
       Mem.importance := importance;
       Mem.created_at := isoformat now |} in
  (memory,
   {| Store.memories := Store.memories data ++ [memory];
      Store.next_id := Store.next_id data |}).

Definition remembered (memory : Mem.t) : string :=
  let tag_display :=
    match Mem.tags memory with [] => "none" | l => join ", " l end in
  lines [ "Remembered: " +:+ Mem.id memory;
          "Tags: " +:+ tag_display;
          "Importance: " +:+ str (Mem.importance memory) +:+ "/100";
          "Created: " +:+ str_take 10 (Mem.created_at memory) ].

Definition ea_remember (now : datetime) (params : RememberInput.t)
    (storage : file Store.t) : outcome string * file Store.t :=
  match load_memories storage with
  | Raise e => (Raise e, storage)
  | Return data =>
      let '(memory, data) := new_memory now params data in
      (Return (remembered memory), save_memories data)
  end.

(** ** ea_recall *)

(** the tag filter shared by recall and list *)
Definition tags_match (filter_tags : list string) (mem : Mem.t) : bool :=
  match filter_tags with
  | [] => true
  | _ => any (fun t => str_mem t (Mem.tags mem)) filter_tags
  end.

Definition recall_match (query_lower : string) (filter_tags : list string)
    (mem : Mem.t) : bool :=
  str_in query_lower (lower (Mem.content mem)) && tags_match filter_tags mem.

Definition recall_key (m : Mem.t) : Z * string :=
  (- Mem.importance m, Mem.created_at m).

(** the matches, sorted, before truncation *)
Definition recall_sorted (params : RecallInput.t) (memories : list Mem.t)
    : list Mem.t :=
  let filter_tags := parse_tags (RecallInput.tags params) in
  let query_lower := lower (RecallInput.query params) in
  let results := List.filter (recall_match query_lower filter_tags) memories in
  sort pair_lt recall_key false results.

(** [results[:params.limit]] *)
Definition recall_results (params : RecallInput.t) (memories : list Mem.t)
    : list Mem.t :=
  slice None (RecallInput.limit params) (recall_sorted params memories).

Definition recall_block (mem : Mem.t) : string :=
  let tags_str := str_or (join ", " (Mem.tags mem)) "none" in
  lines [ "## [" +:+ Mem.id mem +:+ "] Importance: "
            +:+ str (Mem.importance mem) +:+ "/100";
          "**Tags:** " +:+ tags_str;
          "**Created:** " +:+ str_take 10 (Mem.created_at mem);
          "";
          Mem.content mem;
          "";
          "---" ].

Definition recall_report (total_matches : Z) (results : list Mem.t) : string :=
  let shown := Z.of_nat (length results) in
  join nl
    ([ "# Found " +:+ str total_matches +:+ " memories (showing "
         +:+ str shown +:+ ")" +:+ nl ]
     ++ map recall_block results
     ++ (if shown <? total_matches
         then [ nl +:+ "*" +:+ str (total_matches - shown)
                  +:+ " more results available. Increase limit to see more.*" ]
         else [])).

Definition ea_recall (params : RecallInput.t) (storage : file Store.t)
    : outcome string :=
  data ← load_memories storage;
  let memories := Store.memories data in
  match memories with
  | [] => Return "No memories stored yet. Use ea_remember to store your first memory."
  | _ =>
      let total_matches := Z.of_nat (length (recall_sorted params memories)) in
      let results := recall_results params memories in
      match results with
      | [] => Return ("No memories found matching: " +:+ RecallInput.query params)
      | _ => Return (recall_report total_matches results)
      end
  end.

(** ** ea_list *)

(** the tag-filtered memories, newest first, before pagination *)
Definition list_sorted (params : ListInput.t) (memories : list Mem.t)
    : list Mem.t :=
  let filter_tags := parse_tags (ListInput.tags params) in
  let results := List.filter (tags_match filter_tags) memories in
  sort String.ltb Mem.created_at true results.

(** [results[params.offset:params.offset + params.limit]]; adding [None]
    raises [TypeError] *)
Definition list_page (params : ListInput.t) (memories : list Mem.t)
    : outcome (list Mem.t) :=
  match ListInput.offset params, ListInput.limit params with
  | Some offset, Some limit =>
      Return (slice (Some offset) (Some (offset + limit))
                (list_sorted params memories))
  | _, _ => Raise TypeError
  end.

Definition list_row (mem : Mem.t) : string :=
  let preview :=
    replace_char "|" "/" (replace_char "010" " " (str_take 50 (Mem.content mem))) in
  let preview :=
    if 50 <? len (Mem.content mem) then preview +:+ "..." else preview in
  let tags_str := str_or (join ", " (take 3 (Mem.tags mem))) "-" in
  "| " +:+ Mem.id mem +:+ " | " +:+ preview +:+ " | " +:+ tags_str +:+ " | "
  +:+ str (Mem.importance mem) +:+ " | " +:+ str_take 10 (Mem.created_at mem)
  +:+ " |".

Definition list_report (offset total_matches : Z) (paginated : list Mem.t)
    : string :=
  let shown := Z.of_nat (length paginated) in
  let has_more := offset + shown <? total_matches in
  let next_offset := offset + shown in
  join nl
    ([ "# Memories (" +:+ str shown +:+ " of " +:+ str total_matches +:+ ")" +:+ nl;
       "| ID | Preview | Tags | Importance | Created |";
       "|-----|---------|------|------------|---------|" ]
     ++ map list_row paginated
     ++ [ "" ]
     ++ (if has_more
         then [ "*More results available. Use offset=" +:+ str next_offset
                  +:+ " to see next page.*" ]
         else [])
     ++ [ "**Total:** " +:+ str total_matches +:+ " | **Showing:** "
            +:+ str (offset + 1) +:+ "-" +:+ str (offset + shown) ]).

(** [f"{params.tags}"] *)
Definition show_tags (tags : option string) : string :=
  match tags with Some s => s | None => "None" end.

Definition ea_list (params : ListInput.t) (storage : file Store.t)
    : outcome string :=
  data ← load_memories storage;
  let memories := Store.memories data in
  match memories with
  | [] => Return "No memories stored yet. Use ea_remember to store your first memory."
  | _ =>
      let total_matches := Z.of_nat (length (list_sorted params memories)) in
      paginated ← list_page params memories;
      match paginated with
      | [] =>
          match ListInput.offset params with
          | Some offset =>
              if 0 <? offset
              then Return ("No more memories. Total: " +:+ str total_matches)
              else Return ("No memories found with tags: "
                           +:+ show_tags (ListInput.tags params))
          | None => Raise TypeError
          end
      | _ =>
          match ListInput.offset params with
          | Some offset => Return (list_report offset total_matches paginated)
          | None => Raise TypeError
          end
      end
  end.

(** ** ea_forget *)

Definition has_id (memory_id : string) (mem : Mem.t) : Prop :=
  Mem.id mem = memory_id.

#[global] Instance has_id_dec memory_id mem : Decision (has_id memory_id mem).
Proof. unfold has_id. apply _. Defined.

Definition forgotten (memory_id : string) (removed : Mem.t) : string :=
  let preview := str_take 100 (Mem.content removed) in
  let preview :=
    if 100 <? len (Mem.content removed) then preview +:+ "..." else preview in
  "Deleted: " +:+ memory_id +:+ nl +:+ "Content was: " +:+ preview.

Definition ea_forget (params : ForgetInput.t) (storage : file Store.t)
    : outcome string * file Store.t :=
  if negb (ForgetInput.confirm params) then
    (Return "Set confirm=True to delete. This action cannot be undone.", storage)
  else
    match load_memories storage with
    | Raise e => (Raise e, storage)
    | Return data =>
        (* the first index [i] whose memory has the id, if any *)
        match list_find (has_id (ForgetInput.memory_id params))
                (Store.memories data) with
        | Some (i, removed) =>
            let data :=
              {| Store.memories := delete i (Store.memories data);
                 Store.next_id := Store.next_id data |} in
            (Return (forgotten (ForgetInput.memory_id params) removed),
             save_memories data)
        | None =>
            (Return ("Memory not found: " +:+ ForgetInput.memory_id params
                     +:+ ". Use ea_list to see available memory IDs."),
             storage)
        end
    end.

End Memory.

(* ===================================================================== *)
(** * ea-journal: [mcps/ea-journal/server.py]                             *)
(* ===================================================================== *)

Module Journal.
Import Py.

Inductive EntryType : Type :=
| WORK | DECISION | BLOCKER | NOTE | WIN | LEARNING.

Definition value (t : EntryType) : string :=
  match t with
  | WORK => "work"
  | DECISION => "decision"
  | BLOCKER => "blocker"
  | NOTE => "note"
  | WIN => "win"
  | LEARNING => "learning"
  end.

(** ** Input models (validated by the framework before a handler runs) *)

Module LogInput.
Record t : Type := {
  content : string;
  entry_type : EntryType;
  project : option string
}.
End LogInput.

Module ReviewInput.
Record t : Type := {
  date : option string;
  days : option Z;
  entry_type : option EntryType
}.
End ReviewInput.

(** ** Stored data: one entry; a day's file holds a list of them *)

Module Entry.
Record t : Type := {
  id : string;
  content : string;
  type : string;
  project : option string;
  timestamp : string
}.
End Entry.

(** The storage directory: file name to content; a name that is not bound
    is a file that does not exist. *)
Abbreviation storage := (gmap string (content (list Entry.t))).

(** an entry stamped with its ["_date"], the date of the file it is from *)
Abbreviation stamped := (string * Entry.t)%type.

Section Handlers.
(** [hash] on strings, which the interpreter salts per process. *)
Variable hash : string -> Z.
(** [datetime.strptime(s, "%Y-%m-%d")] on the strings that the [date]
    validator of [ReviewInput] lets through. *)
Variable strptime_Ymd : string -> datetime.

(** ** Storage *)

Definition get_journal_file (date : datetime) : string :=
  strftime_Ymd date +:+ ".json".

Definition load_journal (date : datetime) (dir : storage)
    : outcome (list Entry.t) :=
  let journal_file := dir !! get_journal_file date in
  if path_exists journal_file then
    try_except (read_json journal_file) [JSONDecodeError; IOError] (Return [])
  else Return [].

Definition save_journal (date : datetime) (entries : list Entry.t)
    (dir : storage) : storage :=
  <[get_journal_file date := Document entries]> dir.

Definition parse_date (date_str : string) : datetime :=
  strptime_Ymd date_str.

(** [entry["timestamp"].split("T")[1]] raises [IndexError] when the
    timestamp has no ["T"]. *)
Definition format_entry (entry : Entry.t) (show_date : bool)
    : outcome string :=
  match split "T" (Entry.timestamp entry) with
  | _ :: part :: _ =>
      let time_str := str_take 5 part in
      let date_prefix :=
        if show_date then str_take 10 (Entry.timestamp entry) +:+ " " else "" in
      let project_str :=
        match Entry.project entry with
        | Some p => if truthy p then " [" +:+ p +:+ "]" else ""
        | None => ""
        end in
      Return (lines [ "**[" +:+ date_prefix +:+ time_str +:+ "] "
                        +:+ upper (Entry.type entry) +:+ project_str +:+ "**";
                      Entry.content entry;
                      "" ])
  | _ => Raise IndexError
  end.

(** ** ea_log *)

Definition new_entry (now : datetime) (params : LogInput.t) : Entry.t :=
  {| Entry.id :=
       "entry_" +:+ strftime_HMS now +:+ "_"
       +:+ format_0d 4 (hash (LogInput.content params) mod 10000);
     Entry.content := LogInput.content params;
     Entry.type := value (LogInput.entry_type params);
     Entry.project := LogInput.project params;
     Entry.timestamp := isoformat now |}.

Definition logged (now : datetime) (params : LogInput.t) : string :=
  let project_line :=
    match LogInput.project params with
    | Some p => if truthy p then "Project: " +:+ p +:+ nl else ""
    | None => ""
    end in
  let preview :=
    str_take 100 (LogInput.content params)
    +:+ (if 100 <? len (LogInput.content params) then "..." else "") in
  "Logged " +:+ upper (value (LogInput.entry_type params)) +:+ " at "
  +:+ strftime_HM now +:+ nl +:+ project_line +:+ "Entry: " +:+ preview.

Definition ea_log (now : datetime) (params : LogInput.t) (dir : storage)
    : outcome string * storage :=
  let entry := new_entry now params in
  match load_journal now dir with
  | Raise e => (Raise e, dir)
  | Return entries =>
      let entries := entries ++ [entry] in
      (Return (logged now params), save_journal now entries dir)
  end.

(** ** ea_review *)

(** [range(n)] *)
Definition range (n : Z) : list Z := seqZ 0 n.

(** [params.days] when it is truthy *)
Definition days_given (params : ReviewInput.t) : option Z :=
  match ReviewInput.days params with
  | Some days => if days =? 0 then None else Some days
  | None => None
  end.

Definition review_dates (now : datetime) (params : ReviewInput.t)
    : list datetime :=
  match days_given params with
  | Some days => map (fun i => minus_days now i) (range days)
  | None =>
      match ReviewInput.date params with
      | Some date => if truthy date then [parse_date date] else [now]
      | None => [now]
      end
  end.

Fixpoint collect (dates : list datetime) (dir : storage)
    : outcome (list stamped) :=
  match dates with
  | [] => Return []
  | d :: dates =>
      entries ← load_journal d dir;
      rest ← collect dates dir;
      Return (map (fun entry => (strftime_Ymd d, entry)) entries ++ rest)
  end.

Definition type_filter (entry_type : option EntryType)
    (all_entries : list stamped) : list stamped :=
  match entry_type with
  | Some t => List.filter (fun e => String.eqb (Entry.type e.2) (value t)) all_entries
  | None => all_entries
  end.

(** [all_entries.sort(key=lambda e: e["timestamp"], reverse=True)] *)
Definition review_sorted (all_entries : list stamped) : list stamped :=
  sort String.ltb (fun e : stamped => Entry.timestamp e.2) true all_entries.

(** the loop that writes a date header at each change of ["_date"] *)
Fixpoint review_body (current_date : option string)
    (all_entries : list stamped) : outcome (list string) :=
  match all_entries with
  | [] => Return []
  | (entry_date, entry) :: rest =>
      let header :=
        if bool_decide (Some entry_date = current_date) then []
        else [ nl +:+ "## " +:+ entry_date +:+ nl ] in
      text ← format_entry entry false;
      out ← review_body (Some entry_date) rest;
      Return (header ++ text :: out)
  end.

Definition first_date (now : datetime) (params : ReviewInput.t) : string :=
  match review_dates now params with
  | d :: _ => strftime_Ymd d
  | [] => ""
  end.

Definition ea_review (now : datetime) (params : ReviewInput.t)
    (dir : storage) : outcome string :=
  let dates := review_dates now params in
  all_entries ← collect dates dir;
  match all_entries with
  | [] =>
      match days_given params with
      | Some days =>
          Return ("No journal entries in the last " +:+ str days +:+ " days.")
      | None =>
          Return ("No journal entries for " +:+ first_date now params +:+ ".")
      end
  | _ =>
      let all_entries := type_filter (ReviewInput.entry_type params) all_entries in
      match ReviewInput.entry_type params, all_entries with
      | Some t, [] => Return ("No " +:+ value t +:+ " entries found.")
      | _, _ =>
          let all_entries := review_sorted all_entries in
          let title :=
            match days_given params with
            | Some days => "# Journal - Last " +:+ str days +:+ " Days" +:+ nl
            | None => "# Journal - " +:+ first_date now params +:+ nl
            end in
          body ← review_body None all_entries;
          Return (join nl
                    ([ title;
                       "**Total entries:** "
                         +:+ str (Z.of_nat (length all_entries)) +:+ nl;
                       "---" +:+ nl ] ++ body))
      end
  end.

End Handlers.

(** ** ea_today *)

Module TodayInput.
Record t : Type := {
  entry_type : option EntryType
}.
End TodayInput.

(** [[e.value for e in EntryType]] *)
Definition entry_type_values : list string :=
  map value [WORK; DECISION; BLOCKER; NOTE; WIN; LEARNING].

(** [[e for e in entries if e["type"] == entry_type.value]] *)
Definition of_type (entry_type : EntryType) (entries : list Entry.t)
    : list Entry.t :=
  List.filter (fun e => String.eqb (Entry.type e) (value entry_type)) entries.

(** the loop that files each entry under its type *)
Definition group_by_type (entries : list Entry.t) : dict (list Entry.t) :=
  fold_left
    (fun by_type entry =>
       let t := Entry.type entry in
       dict_set t (dict_get_default t [] by_type ++ [entry]) by_type)
    entries [].

Fixpoint format_entries (entries : list Entry.t) : outcome (list string) :=
  match entries with
  | [] => Return []
  | entry :: entries =>
      text ← format_entry entry false;
      texts ← format_entries entries;
      Return (text :: texts)
  end.

(** the sections of the report, one per type that has entries, in the
    order of [EntryType] *)
Fixpoint today_sections (types : list string) (by_type : dict (list Entry.t))
    : outcome (list string) :=
  match types with
  | [] => Return []
  | entry_t :: types =>
      match dict_get entry_t by_type with
      | Some entries =>
          texts ← format_entries entries;
          rest ← today_sections types by_type;
          Return (("## " +:+ title entry_t +:+ "s" +:+ nl) :: texts ++ rest)
      | None => today_sections types by_type
      end
  end.

(** [sorted(by_type.items())]: the keys of a dictionary differ, so the
    pairs are ordered by their keys *)
Definition sorted_items {V} (d : dict V) : dict V :=
  sort String.ltb (fun kv : string * V => kv.1) false d.

Definition today_counts (by_type : dict (list Entry.t)) : string :=
  join ", "
    (map (fun kv : string * list Entry.t =>
            str (Z.of_nat (length kv.2)) +:+ " " +:+ kv.1
            +:+ (if 1 <? Z.of_nat (length kv.2) then "s" else ""))
       (sorted_items by_type)).

(** the report: the heading, the summary line, a rule and the sections *)
Definition today_report (now : datetime) (by_type : dict (list Entry.t))
    (sections : list string) : string :=
  join nl
    ([ "# Journal - " +:+ strftime_long now +:+ nl;
       "**Summary:** " +:+ today_counts by_type;
       nl +:+ "---" +:+ nl ]
     ++ sections).

Definition ea_today (now : datetime) (params : TodayInput.t) (dir : storage)
    : outcome string :=
  entries ← load_journal now dir;
  match entries with
  | [] =>
      Return ("No journal entries for today (" +:+ strftime_Ymd now
              +:+ "). Use ea_log to add your first entry!")
  | _ =>
      let entries :=
        match TodayInput.entry_type params with
        | Some t => of_type t entries
        | None => entries
        end in
      match TodayInput.entry_type params, entries with
      | Some t, [] => Return ("No " +:+ value t +:+ " entries for today.")
      | _, _ =>
          let by_type := group_by_type entries in
          sections ← today_sections entry_type_values by_type;
          Return (today_report now by_type sections)
      end
  end.

(** ** ea_summary *)

Module SummaryInput.
Record t : Type := {
  days : Z
}.
End SummaryInput.

(** the loop over the days: the number of days with entries and all their
    entries, today's first *)
Fixpoint summary_collect (dates : list datetime) (dir : storage)
    : outcome (Z * list Entry.t) :=
  match dates with
  | [] => Return (0, [])
  | d :: dates =>
      entries ← load_journal d dir;
      '(active, more) ← summary_collect dates dir;
      Return ((match entries with [] => 0 | _ => 1 end) + active,
              entries ++ more)
  end.

(** [counts[key(x)] = counts.get(key(x), 0) + 1] for each [x] *)
Definition count_by {A} (key : A -> string) (l : list A) : dict Z :=
  fold_left
    (fun counts x =>
       dict_set (key x) (dict_get_default (key x) 0 counts + 1) counts)
    l [].

(** [entry.get("project") or "General"] *)
Definition project_of (entry : Entry.t) : string :=
  match Entry.project entry with
  | Some p => if truthy p then p else "General"
  | None => "General"
  end.

Definition summary_types (by_type : dict Z) : list string :=
  flat_map
    (fun entry_t =>
       match dict_get entry_t by_type with
       | Some count =>
           [ "- **" +:+ title entry_t +:+ "s:** " +:+ str count ]
       | None => []
       end)
    entry_type_values.

(** [len(by_project) > 1 or list(by_project.keys())[0] != "General"] *)
Definition shows_projects (by_project : dict Z) : outcome bool :=
  match by_project with
  | [] => Raise IndexError
  | [(project, _)] => Return (negb (String.eqb project "General"))
  | _ => Return true
  end.

Definition summary_projects (by_project : dict Z) : list string :=
  (nl +:+ "## Projects" +:+ nl)
  :: map (fun pc : string * Z =>
            "- **" +:+ pc.1 +:+ ":** " +:+ str pc.2 +:+ " entries")
       (sort Z.ltb (fun pc : string * Z => - pc.2) false by_project).

(** a highlights section: up to five previews of the entries of one type *)
Definition summary_highlights (heading type : string)
    (all_entries : list Entry.t) : list string :=
  match List.filter (fun e => String.eqb (Entry.type e) type) all_entries with
  | [] => []
  | found =>
      (nl +:+ "## " +:+ heading +:+ nl)
      :: map (fun entry => "- " +:+ str_take 100 (Entry.content entry))
           (slice None (Some 5) found)
  end.

Definition ea_summary (now : datetime) (params : SummaryInput.t)
    (dir : storage) : outcome string :=
  let days := SummaryInput.days params in
  '(dates_with_entries, all_entries) ←
    summary_collect (map (minus_days now) (range days)) dir;
  match all_entries with
  | [] =>
      Return ("No journal entries in the last " +:+ str days
              +:+ " days. Start journaling with ea_log!")
  | _ =>
      let by_type := count_by Entry.type all_entries in
      let by_project := count_by project_of all_entries in
      let start_date := strftime_Ymd (minus_days now (days - 1)) in
      let end_date := strftime_Ymd now in
      with_projects ← shows_projects by_project;
      Return (join nl
                ([ "# Work Summary - Last " +:+ str days +:+ " Days" +:+ nl;
                   "**Period:** " +:+ start_date +:+ " to " +:+ end_date;
                   "**Active days:** " +:+ str dates_with_entries +:+ " of "
                     +:+ str days;
                   "**Total entries:** "
                     +:+ str (Z.of_nat (length all_entries));
                   "";
                   "## Entry Types" +:+ nl ]
                 ++ summary_types by_type
                 ++ (if with_projects : bool
                     then summary_projects by_project else [])
                 ++ summary_highlights "Wins" "win" all_entries
                 ++ summary_highlights "Blockers" "blocker" all_entries
                 ++ summary_highlights "Learnings" "learning" all_entries))
  end.

End Journal.

(* ===================================================================== *)
(** * ea-prompts: [mcps/ea-prompts/server.py]                             *)
(* ===================================================================== *)

Module Prompts.
Import Py.

Module Argument.
Record t : Type := {
  name : string;
  description : string;
  required : bool
}.
End Argument.

Module Prompt.
Record t : Type := {
  name : string;
  description : string;
  template : string;
  arguments : list Argument.t;
  builtin : bool;
  created_at : option string
}.
End Prompt.

(** ** Built-in prompts *)

Definition code_argument (description : string) : Argument.t :=
  {| Argument.name := "code"; Argument.description := description;
     Argument.required := true |}.

Definition builtin_code_review : Prompt.t :=
  {| Prompt.name := "code-review";
     Prompt.description := "Review code for issues, bugs, and improvements";
     Prompt.template := lines [
       "Review the following code for:";
       "1. Potential bugs or errors";
       "2. Security vulnerabilities";
       "3. Performance issues";
       "4. Code style and readability";
       "5. Suggested improvements";
       "";
       "Code to review:";
       "{code}";
       "";
       "Provide specific, actionable feedback." ];
     Prompt.arguments := [ code_argument "The code to review" ];
     Prompt.builtin := true;
     Prompt.created_at := None |}.

Definition builtin_explain_code : Prompt.t :=
  {| Prompt.name := "explain-code";
     Prompt.description := "Explain what code does in plain English";
     Prompt.template := lines [
       "Explain the following code in plain English, suitable for a beginner:";
       "";
       "1. What does this code do overall?";
       "2. Break down each major section";
       "3. Explain any complex or unusual patterns";
       "4. Mention any potential issues or edge cases";
       "";
       "Code to explain:";
       "{code}" ];
     Prompt.arguments := [ code_argument "The code to explain" ];
     Prompt.builtin := true;
     Prompt.created_at := None |}.

Definition builtin_write_tests : Prompt.t :=
  {| Prompt.name := "write-tests";
     Prompt.description := "Generate test cases for code";
     Prompt.template := lines [
       "Generate comprehensive test cases for the following code:";
       "";
       "1. Unit tests for each function/method";
       "2. Edge cases and boundary conditions";
       "3. Error handling scenarios";
       "4. Integration points (if applicable)";
       "";
       "Use appropriate testing framework based on the language.";
       "";
       "Code to test:";
       "{code}" ];
     Prompt.arguments := [ code_argument "The code to test" ];
     Prompt.builtin := true;
     Prompt.created_at := None |}.

Definition builtin_refactor : Prompt.t :=
  {| Prompt.name := "refactor";
     Prompt.description := "Suggest refactoring improvements";
     Prompt.template := lines [
       "Analyze this code for refactoring opportunities:";
       "";
       "1. DRY (Don't Repeat Yourself) violations";
       "2. Functions that are too long";
       "3. Poor naming";
       "4. Missing abstractions";
       "5. Simplification opportunities";
       "";
       "Provide the refactored version with explanations.";
       "";
       "Code to refactor:";
       "{code}" ];
     Prompt.arguments := [ code_argument "The code to refactor" ];
     Prompt.builtin := true;
     Prompt.created_at := None |}.

Definition builtin_debug : Prompt.t :=
  {| Prompt.name := "debug";
     Prompt.description := "Help debug an error or issue";
     Prompt.template := lines [
       "Help debug this issue:";
       "";
       "Error/Problem:";
       "{error}";
       "";
       "Relevant code:";
       "{code}";
       "";
       "Steps to reproduce (if known):";
       "{steps}";
       "";
       "Analyze and suggest:";
       "1. Likely cause of the issue";
       "2. How to fix it";
       "3. How to prevent similar issues" ];
     Prompt.arguments := [
       {| Argument.name := "error";
          Argument.description := "The error message or problem description";
          Argument.required := true |};
       {| Argument.name := "code";
          Argument.description := "The relevant code";
          Argument.required := true |};
       {| Argument.name := "steps";
          Argument.description := "Steps to reproduce (optional)";
          Argument.required := false |} ];
     Prompt.builtin := true;
     Prompt.created_at := None |}.

Definition BUILTIN_PROMPTS : gmap string Prompt.t :=
  list_to_map [
    ("code-review", builtin_code_review);
    ("explain-code", builtin_explain_code);
    ("write-tests", builtin_write_tests);
    ("refactor", builtin_refactor);
    ("debug", builtin_debug) ].

(** [name in d] for a dictionary *)
Definition dict_mem {V} (name : string) (d : gmap string V) : bool :=
  bool_decide (is_Some (d !! name)).

(** ** Input models (validated by the framework before a handler runs) *)

Module AddPromptInput.
Record t : Type := {
  name : string;
  description : string;
  template : string;
  arguments : option string
}.
End AddPromptInput.

Module RemovePromptInput.
Record t : Type := {
  name : string;
  confirm : bool
}.
End RemovePromptInput.

(** ** Storage: the document of [custom_prompts.json] *)

Abbreviation custom_prompts := (gmap string Prompt.t).

Definition load_custom_prompts (storage : file custom_prompts)
    : outcome custom_prompts :=
  if path_exists storage then
    try_except (read_json storage) [JSONDecodeError; IOError] (Return ∅)
  else Return ∅.

Definition save_custom_prompts (prompts : custom_prompts)
    : file custom_prompts :=
  write_json prompts.

(** ** ea_add_prompt *)

Definition parse_arguments (arguments : option string) : list Argument.t :=
  match arguments with
  | None => []
  | Some s =>
      if negb (truthy s) then []
      else
        map (fun arg =>
               {| Argument.name := arg;
                  Argument.description := "Value for " +:+ arg;
                  Argument.required := true |})
          (List.filter truthy (map strip (split "," s)))
  end.

Definition new_prompt (now : datetime) (params : AddPromptInput.t)
    : Prompt.t :=
  {| Prompt.name := AddPromptInput.name params;
     Prompt.description := AddPromptInput.description params;
     Prompt.template := AddPromptInput.template params;
     Prompt.arguments := parse_arguments (AddPromptInput.arguments params);
     Prompt.builtin := false;
     Prompt.created_at := Some (isoformat now) |}.

Definition prompt_added (params : AddPromptInput.t) : string :=
  let arg_list := parse_arguments (AddPromptInput.arguments params) in
  let args_display :=
    match arg_list with
    | [] => "none"
    | _ => join ", " (map Argument.name arg_list)
    end in
  lines [ "Custom prompt added: " +:+ AddPromptInput.name params;
          "Description: " +:+ AddPromptInput.description params;
          "Arguments: " +:+ args_display;
          "";
          "Use with: /prompt " +:+ AddPromptInput.name params ].

Definition ea_add_prompt (now : datetime) (params : AddPromptInput.t)
    (storage : file custom_prompts) : outcome string * file custom_prompts :=
  if dict_mem (AddPromptInput.name params) BUILTIN_PROMPTS then
    (Return ("Error: '" +:+ AddPromptInput.name params
             +:+ "' is a built-in prompt and cannot be overwritten."),
     storage)
  else
    let prompt := new_prompt now params in
    match load_custom_prompts storage with
    | Raise e => (Raise e, storage)
    | Return custom =>
        let custom := <[AddPromptInput.name params := prompt]> custom in
        (Return (prompt_added params), save_custom_prompts custom)
    end.

(** ** ea_remove_prompt *)

Definition ea_remove_prompt (params : RemovePromptInput.t)
    (storage : file custom_prompts) : outcome string * file custom_prompts :=
  if negb (RemovePromptInput.confirm params) then
    (Return "Set confirm=True to delete. This cannot be undone.", storage)
  else if dict_mem (RemovePromptInput.name params) BUILTIN_PROMPTS then
    (Return ("Error: '" +:+ RemovePromptInput.name params
             +:+ "' is a built-in prompt and cannot be removed."),
     storage)
  else
    match load_custom_prompts storage with
    | Raise e => (Raise e, storage)
    | Return custom =>
        if negb (dict_mem (RemovePromptInput.name params) custom) then
          (Return ("Custom prompt not found: " +:+ RemovePromptInput.name params
                   +:+ ". Use ea_list_prompts to see available prompts."),
           storage)
        else
          let custom := delete (RemovePromptInput.name params) custom in
          (Return ("Removed custom prompt: " +:+ RemovePromptInput.name params),
           save_custom_prompts custom)
    end.

(** ** Prompt renderers (registered with [mcp.prompt]) *)

Definition code_review (code : string) : format_result :=
  format [("code", code)] (Prompt.template builtin_code_review).

Definition explain_code (code : string) : format_result :=
  format [("code", code)] (Prompt.template builtin_explain_code).

Definition write_tests (code : string) : format_result :=
  format [("code", code)] (Prompt.template builtin_write_tests).

Definition refactor (code : string) : format_result :=
  format [("code", code)] (Prompt.template builtin_refactor).

(** [steps] defaults to ["Not provided"] *)
Definition debug (error code : string) (steps : option string)
    : format_result :=
  format [("error", error); ("code", code);
          ("steps", match steps with Some s => s | None => "Not provided" end)]
    (Prompt.template builtin_debug).

(** ** The [name] validator of [AddPromptInput]

    [re.match(r'^[a-z][a-z0-9-]*$', v)]: a lowercase letter, then lowercase
    letters, digits and hyphens up to the end of the string, where [$] also
    matches in front of a newline that ends the string. *)

Inductive validation : Type :=
| Valid (v : string)
| Invalid (message : string).

Definition name_char (c : ascii) : bool :=
  is_lower c || is_digit c || Ascii.eqb c "-".

Fixpoint name_rest (s : string) : bool :=
  match s with
  | EmptyString => true
  | String c s' =>
      if name_char c then name_rest s'
      else Ascii.eqb c "010" && String.eqb s' EmptyString
  end.

Definition name_matches (v : string) : bool :=
  match v with
  | EmptyString => false
  | String c s => is_lower c && name_rest s
  end.

Definition validate_name (v : string) : validation :=
  if name_matches v then Valid v
  else Invalid "Name must be lowercase letters, numbers, and hyphens only, starting with a letter".

(** ** get_all_prompts and ea_list_prompts *)

Module ListPromptsInput.
Record t : Type := {
  include_templates : bool
}.
End ListPromptsInput.

(** [dict(BUILTIN_PROMPTS)] updated with the custom prompts: a custom
    binding replaces a built-in one of the same name *)
Definition get_all_prompts (storage : file custom_prompts)
    : outcome custom_prompts :=
  custom ← load_custom_prompts storage;
  Return (custom ∪ BUILTIN_PROMPTS).

(** [sorted(prompts.items())]: the names differ, so the pairs are ordered
    by name *)
Definition sorted_prompts (prompts : gmap string Prompt.t)
    : list (string * Prompt.t) :=
  sort String.ltb (fun np : string * Prompt.t => np.1) false
    (map_to_list prompts).

(** the lines of one prompt in the listing *)
Definition prompt_lines (include_templates : bool) (np : string * Prompt.t)
    : list string :=
  let args := join ", " (map Argument.name (Prompt.arguments np.2)) in
  [ "### " +:+ np.1;
    "**Description:** " +:+ Prompt.description np.2;
    "**Arguments:** " +:+ str_or args "none" ]
  ++ (if include_templates
      then [ nl +:+ "```" +:+ nl +:+ Prompt.template np.2 +:+ nl +:+ "```" ]
      else [])
  ++ [ "" ].

Definition ea_list_prompts (params : ListPromptsInput.t)
    (storage : file custom_prompts) : outcome string :=
  all_prompts ← get_all_prompts storage;
  if bool_decide (all_prompts = ∅) then Return "No prompts available."
  else
    let include_templates := ListPromptsInput.include_templates params in
    let builtin_part :=
      flat_map (prompt_lines include_templates)
        (List.filter (fun np : string * Prompt.t => Prompt.builtin np.2)
           (sorted_prompts all_prompts)) in
    custom ← load_custom_prompts storage;
    let custom_part :=
      if bool_decide (custom = ∅) then []
      else ("## Custom Prompts" +:+ nl)
           :: flat_map (prompt_lines include_templates) (sorted_prompts custom) in
    Return (join nl
              ([ "# Available Prompts" +:+ nl; "## Built-in Prompts" +:+ nl ]
               ++ builtin_part ++ custom_part
               ++ [ "**Total:** " +:+ str (Z.of_nat (size BUILTIN_PROMPTS))
                      +:+ " built-in, " +:+ str (Z.of_nat (size custom))
                      +:+ " custom" ])).

End Prompts.

(* ===================================================================== *)
(** * Vocabulary of the properties                                        *)
(* ===================================================================== *)

Module MemorySpec.
Import Py Memory.

(** [a] may be listed before [b]: higher importance first, and among
    equal importance the earlier creation timestamp first. *)
Definition recall_order (a b : Mem.t) : Prop :=
  Mem.importance b < Mem.importance a \/
  (Mem.importance a = Mem.importance b /\
   String.leb (Mem.created_at a) (Mem.created_at b) = true).

(** same importance and same creation timestamp *)
Definition recall_tie (i : Z) (ts : string) (m : Mem.t) : bool :=
  (Mem.importance m =? i) && String.eqb (Mem.created_at m) ts.

(** The scenario of the specification: importances 90, 50, 90 created in
    that order, and a query that matches all three. *)
Module RecallScenario.

Definition mem (id : string) (importance : Z) (created_at : string) : Mem.t :=
  {| Mem.id := id; Mem.content := "note on X"; Mem.tags := ["a"];
     Mem.importance := importance; Mem.created_at := created_at |}.

Definition data : Store.t :=
  {| Store.memories :=
       [ mem "mem_0001" 90 "2024-01-01T09:00:00+00:00";
         mem "mem_0002" 50 "2024-01-01T09:00:01.000250+00:00";
         mem "mem_0003" 90 "2024-01-02T08:30:00+00:00" ];
     Store.next_id := 4 |}.

Definition params (limit : Z) : RecallInput.t :=
  {| RecallInput.query := "x"; RecallInput.tags := None;
     RecallInput.limit := Some limit |}.
End RecallScenario.

(** the id that [generate_id] makes of the counter value [n] *)
Definition mem_id (n : Z) : string := "mem_" +:+ format_0d 4 n.

(** the numeric suffix of a memory id: the digits after ["mem_"], read as a
    decimal integer (leading zeros allowed) *)
Definition id_number (id : string) : option Z :=
  if String.prefix "mem_" id
  then option_map Z.of_int
         (NilZero.int_of_string (String.substring 4 (String.length id - 4) id))
  else None.

(** every stored id has a numeric suffix, and it is below the counter *)
Definition ids_below_counter (data : Store.t) : Prop :=
  Forall (fun m => exists k, id_number (Mem.id m) = Some k /\ k < Store.next_id data)
    (Store.memories data).

(** the calls that write to the store *)
Inductive call : Type :=
| Remember (now : datetime) (params : RememberInput.t)
| Forget (params : ForgetInput.t).

Definition step (c : call) (storage : file Store.t)
    : outcome string * file Store.t :=
  match c with
  | Remember now params => ea_remember now params storage
  | Forget params => ea_forget params storage
  end.

(** the store after a sequence of calls *)
Fixpoint run (calls : list call) (storage : file Store.t) : file Store.t :=
  match calls with
  | [] => storage
  | c :: calls => run calls (step c storage).2
  end.

(** the ids of the memories that the [Remember] calls of a sequence create,
    in call order *)
Fixpoint assigned_ids (calls : list call) (storage : file Store.t)
    : list string :=
  match calls with
  | [] => []
  | c :: calls =>
      match c, load_memories storage with
      | Remember now params, Return data =>
          [Mem.id (new_memory now params data).1]
      | _, _ => []
      end ++ assigned_ids calls (step c storage).2
  end.

Definition is_remember (c : call) : bool :=
  match c with Remember _ _ => true | Forget _ => false end.


(** [a] may be listed before [b]: the newer creation timestamp first *)
Definition list_order (a b : Mem.t) : Prop :=
  String.leb (Mem.created_at b) (Mem.created_at a) = true.

(** same creation timestamp *)
Definition list_tie (ts : string) (m : Mem.t) : bool :=
  String.eqb (Mem.created_at m) ts.

(** a list call with a tag filter, a limit and an offset *)
Definition list_call (tags : option string) (limit offset : Z) : ListInput.t :=
  {| ListInput.tags := tags; ListInput.limit := Some limit;
     ListInput.offset := Some offset |}.

(** A client that pages through the list: it calls with the fixed tag filter
    and limit from [offset] on, advances the offset by the number of items
    of each page, and stops at the first empty page.  The pages, in order;
    [None] when [fuel] calls were not enough or a call raised. *)
Fixpoint pages (fuel : nat) (tags : option string) (limit offset : Z)
    (memories : list Mem.t) : option (list (list Mem.t)) :=
  match fuel with
  | O => None
  | S fuel =>
      match list_page (list_call tags limit offset) memories with
      | Return [] => Some []
      | Return page =>
          option_map (cons page)
            (pages fuel tags limit (offset + Z.of_nat (length page)) memories)
      | Raise _ => None
      end
  end.

End MemorySpec.

Module JournalSpec.
Import Py Journal.

(** *** Logging *)

(** the storage after a sequence of log calls, each at its own time *)
Fixpoint run_logs (hash : string -> Z) (calls : list (datetime * LogInput.t))
    (dir : storage) : storage :=
  match calls with
  | [] => dir
  | (now, params) :: calls => run_logs hash calls (ea_log hash now params dir).2
  end.

(** *** Reviewing *)

(** the [n] consecutive days that end with the day of [now], latest first *)
Definition window (now : datetime) (n : Z) : list datetime :=
  map (minus_days now) (seqZ 0 n).

(** the day's file can be loaded: a read of it does not raise *)
Definition loads (dir : storage) (d : datetime) : Prop :=
  exists entries, load_journal d dir = Return entries.

(** the entries of a day, as a read sees them *)
Definition entries_of (dir : storage) (d : datetime) : list Entry.t :=
  match load_journal d dir with
  | Return entries => entries
  | Raise _ => []
  end.

(** all entries of the files of [dates], each with the date of its file *)
Definition union (dir : storage) (dates : list datetime) : list stamped :=
  flat_map (fun d => map (fun entry => (strftime_Ymd d, entry)) (entries_of dir d))
    dates.

(** [a] may be shown before [b]: the newer timestamp first *)
Definition review_order (a b : stamped) : Prop :=
  String.leb (Entry.timestamp b.2) (Entry.timestamp a.2) = true.

(** same timestamp *)
Definition review_tie (ts : string) (e : stamped) : bool :=
  String.eqb (Entry.timestamp e.2) ts.

(** The data model's invariant on a stamped entry: the date in its
    timestamp is the date of its file, and the timestamp has a time part
    after a ["T"]. *)
Definition dated (e : stamped) : Prop :=
  str_take 10 (Entry.timestamp e.2) = e.1 /\
  exists text, format_entry e.2 false = Return text.

(** the text of an entry in a review *)
Definition entry_text (entry : Entry.t) : string :=
  match format_entry entry false with
  | Return text => text
  | Raise _ => ""
  end.

(** runs of neighbouring entries with the same date, each under its date *)
Fixpoint groups (l : list stamped) : list (string * list Entry.t) :=
  match l with
  | [] => []
  | (d, entry) :: rest =>
      match groups rest with
      | (d', entries) :: gs =>
          if String.eqb d d' then (d, entry :: entries) :: gs
          else (d, [entry]) :: (d', entries) :: gs
      | [] => [(d, [entry])]
      end
  end.

(** a date header followed by the texts of its entries *)
Definition group_lines (g : string * list Entry.t) : list string :=
  (nl +:+ "## " +:+ g.1 +:+ nl) :: map entry_text g.2.

(** the lines that the review loop writes, when the last header written
    was that of [current_date] *)
Definition body_lines (current_date : option string) (l : list stamped)
    : list string :=
  match groups l with
  | [] => []
  | g :: gs =>
      (if bool_decide (Some g.1 = current_date) then map entry_text g.2
       else group_lines g) ++ flat_map group_lines gs
  end.

(** What log calls make of the storage: every file is a document, each of
    its entries has the date of the file in its timestamp, and its
    timestamp has a time part. *)
Definition well_dated (dir : storage) : Prop :=
  forall name c, dir !! name = Some c ->
    exists entries,
      c = Document entries /\
      Forall (fun entry =>
                str_take 10 (Entry.timestamp entry) +:+ ".json" = name /\
                exists text, format_entry entry false = Return text)
        entries.

(** [date1] is a later date than [date2] *)
Definition later (date1 date2 : string) : Prop := String.ltb date2 date1 = true.

(** the same call with another [date] parameter *)
Definition with_date (date : option string) (params : ReviewInput.t)
    : ReviewInput.t :=
  {| ReviewInput.date := date;
     ReviewInput.days := ReviewInput.days params;
     ReviewInput.entry_type := ReviewInput.entry_type params |}.

(** The scenario of the specification: entries logged on 2024-01-01,
    2024-01-02 and 2024-01-03, reviewed on 2024-01-03. *)
Module Scenario.
Definition hash (s : string) : Z := Z.of_nat (String.length s) * 7919.

Definition strptime_Ymd (s : string) : datetime :=
  {| ordinal := 738886; hour := 0; minute := 0; second := 0; microsecond := 0 |}.

Definition at_ (day h m s : Z) : datetime :=
  {| ordinal := day; hour := h; minute := m; second := s; microsecond := 0 |}.

Definition note (content : string) (entry_type : EntryType) : LogInput.t :=
  {| LogInput.content := content; LogInput.entry_type := entry_type;
     LogInput.project := None |}.

Definition calls : list (datetime * LogInput.t) :=
  [ (at_ 738886 9 0 0, note "set up the repository" WORK);
    (at_ 738886 17 30 0, note "chose SQLite" DECISION);
    (at_ 738887 10 15 0, note "rate limit in tests" BLOCKER);
    (at_ 738888 8 45 0, note "demo works" WIN);
    (at_ 738888 11 20 30, note "wrote the report" WORK) ].

Definition dir : storage := run_logs hash calls ∅.

Definition today : datetime := at_ 738888 18 0 0.

Definition last_days (n : Z) : ReviewInput.t :=
  {| ReviewInput.date := Some "2024-01-01"; ReviewInput.days := Some n;
     ReviewInput.entry_type := None |}.
End Scenario.

End JournalSpec.

Module PromptsSpec.
Import Py Prompts.

(** the names of the built-in prompts *)
Definition builtin_names : list string :=
  ["code-review"; "explain-code"; "write-tests"; "refactor"; "debug"].

(** the custom-prompt file, when it loads, binds no built-in name *)
Definition no_builtin_stored (storage : file custom_prompts) : Prop :=
  forall custom name,
    load_custom_prompts storage = Return custom ->
    dict_mem name BUILTIN_PROMPTS = true ->
    custom !! name = None.

(** the calls that write to the custom-prompt file *)
Inductive call : Type :=
| AddPrompt (now : datetime) (params : AddPromptInput.t)
| RemovePrompt (params : RemovePromptInput.t).

Definition step (c : call) (storage : file custom_prompts)
    : outcome string * file custom_prompts :=
  match c with
  | AddPrompt now params => ea_add_prompt now params storage
  | RemovePrompt params => ea_remove_prompt params storage
  end.

Fixpoint run (calls : list call) (storage : file custom_prompts)
    : file custom_prompts :=
  match calls with
  | [] => storage
  | c :: calls => run calls (step c storage).2
  end.

(** the argument names that an add call gives: the items of the
    comma-separated list without the blanks around them, the empty items
    left out *)
Definition argument_names (arguments : option string) : list string :=
  match arguments with
  | Some s => List.filter truthy (map strip (split "," s))
  | None => []
  end.

(** a custom prompt and the call that overwrites it *)
Module Scenario.
Definition now : datetime :=
  {| ordinal := 738888; hour := 9; minute := 5; second := 0; microsecond := 0 |}.

Definition first : AddPromptInput.t :=
  {| AddPromptInput.name := "summarize";
     AddPromptInput.description := "Summarize a text";
     AddPromptInput.template := "Summarize: {text}";
     AddPromptInput.arguments := Some "text" |}.

Definition second : AddPromptInput.t :=
  {| AddPromptInput.name := "summarize";
     AddPromptInput.description := "Summarize a text in a given style";
     AddPromptInput.template := "Summarize in {style}: {text}";
     AddPromptInput.arguments := Some "text, style" |}.

Definition custom : custom_prompts :=
  {[ "summarize" := new_prompt now first ]}.
End Scenario.

End PromptsSpec.

Module MemoryMore.
Import Py Memory.

(** a recall call with a query, a tag filter and a limit *)
Definition recall_call (query : string) (tags : option string)
    (limit : option Z) : RecallInput.t :=
  {| RecallInput.query := query; RecallInput.tags := tags;
     RecallInput.limit := limit |}.

(** a remember call used as a running example *)
Module Sample.
Definition now : datetime :=
  {| ordinal := 738887; hour := 9; minute := 30; second := 0;
     microsecond := 0 |}.

Definition remember : RememberInput.t :=
  {| RememberInput.content := "Deploy key lives in vault";
     RememberInput.tags := Some "Ops, Keys";
     RememberInput.importance := None |}.
End Sample.

(** the preview cell of a row of [ea_list], before the ellipsis *)
Definition row_preview (mem : Mem.t) : string :=
  replace_char "|" "/" (replace_char "010" " " (str_take 50 (Mem.content mem))).

End MemoryMore.

Module JournalMore.
Import Py Journal JournalSpec.

(** the entries whose type is the string [t], in file order *)
Definition typed (t : string) (entries : list Entry.t) : list Entry.t :=
  List.filter (fun e => String.eqb (Entry.type e) t) entries.

(** the section that [ea_today] writes for a type: nothing when no entry is
    of the type, else a heading and the entries of the type *)
Definition today_section (entries : list Entry.t) (t : EntryType)
    : list string :=
  match of_type t entries with
  | [] => []
  | found => ("## " +:+ title (value t) +:+ "s" +:+ nl) :: map entry_text found
  end.

(** the entry can be shown: its timestamp has a time part *)
Definition showable (entry : Entry.t) : Prop :=
  exists text, format_entry entry false = Return text.

(** how many elements of [l] have the key [k] *)
Definition occurrences {A} (key : A -> string) (k : string) (l : list A) : Z :=
  Z.of_nat (length (List.filter (fun x => String.eqb (key x) k) l)).

(** the sum of the counts of a dictionary *)
Definition total (counts : dict Z) : Z :=
  fold_right Z.add 0 (map snd counts).

(** the days among [dates] whose file has entries *)
Definition active_days (dir : storage) (dates : list datetime) : list datetime :=
  List.filter (fun d => match entries_of dir d with [] => false | _ => true end)
    dates.

(** a storage in which the file of 2024-01-02 is not UTF-8 *)
Definition damaged : storage :=
  <["2024-01-02.json" := Undecodable]> Scenario.dir.

Definition last_week : SummaryInput.t := {| SummaryInput.days := 7 |}.
End JournalMore.

(* ===================================================================== *)
(** * Properties                                                          *)
(* ===================================================================== *)

(** ** The sort: permutation, order, stability *)

Section SortFacts.
Context {A K : Type}.
Variable lt : K -> K -> bool.
Variable key : A -> K.
Variable reverse : bool.

(** [lt] is a strict weak order on the keys. *)
Hypothesis lt_asym : forall a b, lt a b = true -> lt b a = false.
Hypothesis lt_negtrans :
  forall a b c, lt a b = false -> lt b c = false -> lt a c = false.

Local Abbreviation precedes := (Py.precedes lt key reverse).
Local Abbreviation in_order := (Py.in_order lt key reverse).
Local Abbreviation same_rank := (Py.same_rank lt key reverse).

Lemma precedes_asym a b : precedes a b = true -> precedes b a = false.
Proof using lt_asym.
  unfold precedes, Py.stays_before. destruct reverse; apply lt_asym.
Qed.

Lemma precedes_negtrans a b c :
  precedes a b = false -> precedes b c = false -> precedes a c = false.
Proof using lt_negtrans.
  unfold precedes, Py.stays_before. destruct reverse; eauto.
Qed.

Lemma in_order_trans a b c : in_order a b -> in_order b c -> in_order a c.
Proof using lt_negtrans.
  unfold in_order. intros Hab Hbc. exact (precedes_negtrans _ _ _ Hbc Hab).
Qed.

Lemma sort_insert_perm x l : Py.sort_insert lt key reverse x l ≡ₚ x :: l.
Proof.
  induction l as [|y l IH]; simpl; [done|].
  destruct (Py.stays_before lt key reverse y x); [|done].
  rewrite IH. apply Permutation_swap.
Qed.

Lemma sort_perm l : Py.sort lt key reverse l ≡ₚ l.
Proof.
  induction l as [|x l IH]; simpl; [done|].
  rewrite sort_insert_perm. by rewrite IH.
Qed.

Lemma sort_insert_sorted x l :
  StronglySorted in_order l ->
  StronglySorted in_order (Py.sort_insert lt key reverse x l).
Proof using lt_asym lt_negtrans.
  induction l as [|y l IH]; simpl; intros Hl.
  - repeat constructor.
  - apply StronglySorted_inv in Hl as [Hl Hy].
    destruct (Py.stays_before lt key reverse y x) eqn:Hyx.
    + constructor; [by apply IH|].
      rewrite sort_insert_perm. constructor; [|done].
      by apply precedes_asym.
    + constructor; [by constructor|]. constructor; [done|].
      eapply Forall_impl; [exact Hy|]. intros z Hz.
      eapply in_order_trans; [|exact Hz]. done.
Qed.

Lemma sort_sorted l : StronglySorted in_order (Py.sort lt key reverse l).
Proof using lt_asym lt_negtrans.
  induction l as [|x l IH]; simpl; [constructor|].
  by apply sort_insert_sorted.
Qed.

Lemma sort_insert_stable z x l :
  List.filter (same_rank z) (Py.sort_insert lt key reverse x l)
  = List.filter (same_rank z) (x :: l).
Proof using lt_negtrans.
  induction l as [|y l IH]; [done|].
  cbn [Py.sort_insert].
  destruct (Py.stays_before lt key reverse y x) eqn:Hyx; [|done].
  cbn [List.filter] in *. rewrite IH.
  destruct (same_rank z y) eqn:Hzy, (same_rank z x) eqn:Hzx; try done.
  exfalso. unfold same_rank in *.
  apply andb_true_iff in Hzy as [_ Hyz], Hzx as [Hzx _].
  apply negb_true_iff in Hyz, Hzx.
  pose proof (precedes_negtrans _ _ _ Hyz Hzx) as H.
  unfold precedes in H. congruence.
Qed.

(** Elements whose keys compare equal leave the sort in the order in
    which they entered it. *)
Lemma sort_stable z l :
  List.filter (same_rank z) (Py.sort lt key reverse l)
  = List.filter (same_rank z) l.
Proof using lt_negtrans.
  induction l as [|x l IH]; [done|].
  cbn [Py.sort]. rewrite sort_insert_stable. cbn [List.filter].
  by rewrite IH.
Qed.

Lemma sort_length l : length (Py.sort lt key reverse l) = length l.
Proof. apply Permutation_length, sort_perm. Qed.
End SortFacts.

Section SortUnique.
Context {A K : Type}.
Variable lt : K -> K -> bool.
Variable key : A -> K.
Variable reverse : bool.
Hypothesis lt_asym : forall a b, lt a b = true -> lt b a = false.
Hypothesis lt_negtrans :
  forall a b c, lt a b = false -> lt b c = false -> lt a c = false.

Local Abbreviation precedes := (Py.precedes lt key reverse).
Local Abbreviation in_order := (Py.in_order lt key reverse).
Local Abbreviation same_rank := (Py.same_rank lt key reverse).

Lemma same_rank_refl a : same_rank a a = true.
Proof using lt_asym.
  unfold Py.same_rank.
  destruct (precedes a a) eqn:H; [|done].
  by rewrite (precedes_asym lt key reverse lt_asym _ _ H) in H.
Qed.

Lemma sorted_stable_unique l1 : forall l2,
  StronglySorted in_order l1 ->
  StronglySorted in_order l2 ->
  (forall z, List.filter (same_rank z) l1 = List.filter (same_rank z) l2) ->
  l1 = l2.
Proof using lt_asym.
  induction l1 as [|x1 l1 IH]; intros l2 H1 H2 Hf.
  - destruct l2 as [|x2 l2]; [done|].
    specialize (Hf x2). cbn [List.filter] in Hf.
    by rewrite same_rank_refl in Hf.
  - destruct l2 as [|x2 l2].
    { specialize (Hf x1). cbn [List.filter] in Hf.
      by rewrite same_rank_refl in Hf. }
    apply StronglySorted_inv in H1 as [H1 Hx1].
    apply StronglySorted_inv in H2 as [H2 Hx2].
    assert (same_rank x1 x2 = true) as Hrank.
    { pose proof (Hf x1) as Hf1. pose proof (Hf x2) as Hf2.
      cbn [List.filter] in Hf1, Hf2.
      rewrite same_rank_refl in Hf1, Hf2.
      destruct (same_rank x1 x2) eqn:H12; [done|].
      assert (In x1 (List.filter (same_rank x1) l2)) as Hin1
        by (rewrite <- Hf1; by left).
      apply filter_In in Hin1 as [Hin1 _].
      assert (same_rank x2 x1 = false) as H21.
      { unfold Py.same_rank in *. by rewrite andb_comm. }
      rewrite H21 in Hf2.
      assert (In x2 (List.filter (same_rank x2) l1)) as Hin2
        by (rewrite Hf2; by left).
      apply filter_In in Hin2 as [Hin2 _].
      rewrite Forall_forall in Hx1, Hx2.
      pose proof (Hx1 x2 (proj2 (list_elem_of_In _ _) Hin2)) as Ha.
      pose proof (Hx2 x1 (proj2 (list_elem_of_In _ _) Hin1)) as Hb.
      unfold Py.in_order in Ha, Hb. unfold Py.same_rank in H12.
      by rewrite Ha, Hb in H12. }
    assert (x1 = x2) as ->.
    { specialize (Hf x1). cbn [List.filter] in Hf.
      rewrite same_rank_refl, Hrank in Hf. by injection Hf. }
    f_equal. apply IH; [done|done|].
    intros z. specialize (Hf z). cbn [List.filter] in Hf.
    destruct (same_rank z x2); [by injection Hf|done].
Qed.

(** The result of the sort is the only stable sorted rearrangement: any
    list in the order asked for that keeps, for every rank, the elements of
    that rank as they stood in [l], is [Py.sort l]. *)
Lemma sort_unique l l' :
  StronglySorted in_order l' ->
  (forall z, List.filter (same_rank z) l' = List.filter (same_rank z) l) ->
  l' = Py.sort lt key reverse l.
Proof using lt_asym lt_negtrans.
  intros Hsorted Hstable. apply sorted_stable_unique; [done| |].
  - by apply sort_sorted.
  - intros z. rewrite Hstable. symmetry. by apply sort_stable.
Qed.
End SortUnique.

Lemma StronglySorted_weaken {A} (R R' : A -> A -> Prop) l :
  (forall a b, R a b -> R' a b) ->
  StronglySorted R l -> StronglySorted R' l.
Proof.
  intros HR. induction 1 as [|x l Hl IH Hx]; constructor; [done|].
  eapply Forall_impl; [exact Hx|]. intros y. apply HR.
Qed.

(** ** String order *)

Lemma str_ltb_leb a b : String.ltb a b = negb (String.leb b a).
Proof.
  unfold String.ltb, String.leb. rewrite (String.compare_antisym a b).
  by destruct (String.compare b a).
Qed.

Lemma str_leb_trans a b c :
  String.leb a b = true -> String.leb b c = true -> String.leb a c = true.
Proof.
  intros Hab Hbc. apply Is_true_true.
  apply Is_true_true in Hab, Hbc.
  exact (transitivity (R := String.le) Hab Hbc).
Qed.

Lemma str_ltb_asym a b : String.ltb a b = true -> String.ltb b a = false.
Proof.
  rewrite !str_ltb_leb. intros H%negb_true_iff. apply negb_false_iff.
  destruct (String.leb_total a b) as [?|?]; congruence.
Qed.

Lemma str_ltb_negtrans a b c :
  String.ltb a b = false -> String.ltb b c = false -> String.ltb a c = false.
Proof.
  rewrite !str_ltb_leb. intros H1%negb_false_iff H2%negb_false_iff.
  apply negb_false_iff. eauto using str_leb_trans.
Qed.

Lemma str_ltb_irrefl a : String.ltb a a = false.
Proof.
  destruct (String.ltb a a) eqn:H; [|done].
  by rewrite (str_ltb_asym _ _ H) in H.
Qed.

Lemma pair_lt_asym p q : Py.pair_lt p q = true -> Py.pair_lt q p = false.
Proof.
  unfold Py.pair_lt. destruct p as [a s], q as [b t]; simpl.
  intros H. apply orb_true_iff in H as [H|H].
  - apply Z.ltb_lt in H. apply orb_false_iff. split.
    + apply Z.ltb_ge. lia.
    + apply andb_false_iff. left. apply Z.eqb_neq. lia.
  - apply andb_true_iff in H as [H1 H2]. apply Z.eqb_eq in H1. subst.
    apply orb_false_iff. split; [apply Z.ltb_irrefl|].
    apply andb_false_iff. right. by apply str_ltb_asym.
Qed.

Lemma pair_lt_false p q :
  Py.pair_lt p q = false <->
  (q.1 < p.1 \/ (q.1 = p.1 /\ String.leb q.2 p.2 = true)).
Proof.
  unfold Py.pair_lt. destruct p as [a s], q as [b t]; simpl.
  rewrite orb_false_iff, andb_false_iff, Z.ltb_ge, Z.eqb_neq, str_ltb_leb,
    negb_false_iff.
  split.
  - intros [H1 [H2|H2]]; [left; lia|].
    destruct (decide (a = b)) as [->|]; [by right|left; lia].
  - intros [H|[-> H]]; (split; [lia|]); [left; lia|by right].
Qed.

Lemma pair_lt_negtrans p q r :
  Py.pair_lt p q = false -> Py.pair_lt q r = false -> Py.pair_lt p r = false.
Proof.
  rewrite !pair_lt_false.
  intros [H1|[H1 H1']] [H2|[H2 H2']]; try (left; lia).
  right. split; [lia|]. eauto using str_leb_trans.
Qed.

(** ** Slices *)

Lemma slice_to {A} (n : Z) (l : list A) :
  0 <= n -> Py.slice None (Some n) l = take (Z.to_nat n) l.
Proof.
  intros Hn. unfold Py.slice, Py.clamp_index.
  destruct (Z.ltb_spec n 0); [lia|]. rewrite Z.sub_0_r.
  change (Z.to_nat 0) with 0%nat. rewrite drop_0.
  destruct (Z.le_ge_cases n (Z.of_nat (length l))).
  - by rewrite Z.min_l.
  - rewrite Z.min_r by done. rewrite Nat2Z.id.
    rewrite !take_ge; [done|lia..].
Qed.

Lemma slice_all {A} (l : list A) : Py.slice None None l = l.
Proof.
  unfold Py.slice. rewrite Z.sub_0_r, Nat2Z.id.
  change (Z.to_nat 0) with 0%nat. rewrite drop_0. by rewrite take_ge.
Qed.

Lemma slice_window {A} (o n : Z) (l : list A) :
  0 <= o -> 0 <= n ->
  Py.slice (Some o) (Some (o + n)) l = take (Z.to_nat n) (drop (Z.to_nat o) l).
Proof.
  intros Ho Hn. unfold Py.slice, Py.clamp_index.
  destruct (Z.ltb_spec o 0); [lia|]. destruct (Z.ltb_spec (o + n) 0); [lia|].
  destruct (Z.le_gt_cases o (Z.of_nat (length l))).
  - rewrite (Z.min_l o) by done.
    destruct (Z.le_gt_cases (o + n) (Z.of_nat (length l))).
    + rewrite Z.min_l by done. f_equal. lia.
    + rewrite Z.min_r by lia.
      rewrite !take_ge; [done|rewrite length_drop; lia..].
  - rewrite !Z.min_r by lia. rewrite Z.sub_diag.
    change (Z.to_nat 0) with 0%nat. rewrite take_0.
    rewrite (drop_ge l (Z.to_nat o)) by lia. by rewrite take_nil.
Qed.

(* ===================================================================== *)
(** ** ea-memory                                                          *)
(* ===================================================================== *)

Section MemoryRecall.
Import Py Memory MemorySpec.

Lemma recall_in_order a b :
  in_order pair_lt recall_key false a b <-> recall_order a b.
Proof.
  unfold in_order, precedes, stays_before, recall_order.
  rewrite pair_lt_false. simpl.
  split; (intros [H|[H1 H2]]; [left; lia|right; split; [lia|done]]).
Qed.

Lemma recall_same_rank z m :
  same_rank pair_lt recall_key false z m
  = recall_tie (Mem.importance z) (Mem.created_at z) m.
Proof.
  unfold same_rank, precedes, stays_before, recall_tie.
  apply eq_true_iff_eq.
  rewrite !andb_true_iff, !negb_true_iff, !pair_lt_false, Z.eqb_eq,
    String.eqb_eq. simpl. split.
  - intros [[H1|[H1 H1']] [H2|[H2 H2']]]; try lia.
    split; [lia|]. by apply String.leb_antisym.
  - intros [H1 H2]. rewrite H1, H2.
    assert (String.leb (Mem.created_at z) (Mem.created_at z) = true) as Hr.
    { destruct (String.leb_total (Mem.created_at z) (Mem.created_at z)); done. }
    split; right; done.
Qed.

Lemma recall_sorted_perm params memories :
  recall_sorted params memories
  ≡ₚ List.filter (recall_match (lower (RecallInput.query params))
                    (parse_tags (RecallInput.tags params))) memories.
Proof. apply sort_perm. Qed.

Lemma recall_sorted_order params memories :
  StronglySorted recall_order (recall_sorted params memories).
Proof.
  eapply StronglySorted_weaken; [|apply sort_sorted].
  - intros a b. apply recall_in_order.
  - apply pair_lt_asym.
  - apply pair_lt_negtrans.
Qed.

Lemma recall_sorted_stable params memories i ts :
  List.filter (recall_tie i ts) (recall_sorted params memories)
  = List.filter (recall_tie i ts)
      (List.filter (recall_match (lower (RecallInput.query params))
                      (parse_tags (RecallInput.tags params))) memories).
Proof.
  set (z := {| Mem.id := ""; Mem.content := ""; Mem.tags := [];
               Mem.importance := i; Mem.created_at := ts |}).
  unfold recall_sorted.
  rewrite <- !(filter_ext _ _ (fun m => recall_same_rank z m)).
  apply sort_stable, pair_lt_negtrans.
Qed.

(** C1.  Whatever the stored memories and the recall call, the results are
    the memories matching the query and the tag filter, sorted by
    importance descending with ties between equal importance broken by
    creation timestamp ascending (and memories that tie on both in stored
    order), then cut to the first [limit]; the response reports exactly
    those. *)
Theorem recall_sorted_by_importance_then_creation
    (storage : file Store.t) (data : Store.t) (params : RecallInput.t)
    (limit : Z) :
  load_memories storage = Return data ->
  RecallInput.limit params = Some limit ->
  0 <= limit ->
  let matches :=
    List.filter (recall_match (lower (RecallInput.query params))
                   (parse_tags (RecallInput.tags params)))
      (Store.memories data) in
  exists sorted : list Mem.t,
    sorted ≡ₚ matches /\
    StronglySorted recall_order sorted /\
    (forall i ts, List.filter (recall_tie i ts) sorted
                  = List.filter (recall_tie i ts) matches) /\
    recall_results params (Store.memories data)
    = take (Z.to_nat limit) sorted /\
    ea_recall params storage
    = Return
        (match Store.memories data, take (Z.to_nat limit) sorted with
         | [], _ =>
             "No memories stored yet. Use ea_remember to store your first memory."
         | _, [] => "No memories found matching: " +:+ RecallInput.query params
         | _, shown =>
             recall_report (Z.of_nat (length sorted)) shown
         end).
Proof.
  intros Hload Hlimit Hpos matches.
  exists (recall_sorted params (Store.memories data)).
  assert (recall_results params (Store.memories data)
          = take (Z.to_nat limit) (recall_sorted params (Store.memories data)))
    as Hres.
  { unfold recall_results. rewrite Hlimit. by apply slice_to. }
  split; [apply recall_sorted_perm|].
  split; [apply recall_sorted_order|].
  split; [intros; apply recall_sorted_stable|].
  split; [exact Hres|].
  unfold ea_recall. rewrite Hload. cbn [mbind outcome_bind].
  rewrite Hres.
  destruct (Store.memories data); [done|].
  by destruct (take _ _).
Qed.
End MemoryRecall.


Example recall_scenario_all :
  map Memory.Mem.id
    (Memory.recall_results (MemorySpec.RecallScenario.params 10)
       (Memory.Store.memories MemorySpec.RecallScenario.data))
  = ["mem_0001"; "mem_0003"; "mem_0002"].
Proof. reflexivity. Qed.

Example recall_scenario_limit :
  map Memory.Mem.id
    (Memory.recall_results (MemorySpec.RecallScenario.params 2)
       (Memory.Store.memories MemorySpec.RecallScenario.data))
  = ["mem_0001"; "mem_0003"].
Proof. reflexivity. Qed.

Lemma recall_sorted_by_importance_then_creation_witness :
  let storage := Some (Py.Document MemorySpec.RecallScenario.data) in
  let params := MemorySpec.RecallScenario.params 2 in
  (Memory.load_memories storage = Py.Return MemorySpec.RecallScenario.data /\
   Memory.RecallInput.limit params = Some 2 /\
   0 <= 2) /\
  exists sorted : list Memory.Mem.t,
    sorted ≡ₚ Memory.Store.memories MemorySpec.RecallScenario.data /\
    StronglySorted MemorySpec.recall_order sorted /\
    Memory.recall_results params (Memory.Store.memories MemorySpec.RecallScenario.data)
    = take 2 sorted.
Proof.
  intros storage params.
  assert (Memory.load_memories storage = Py.Return MemorySpec.RecallScenario.data) as H1
    by reflexivity.
  assert (Memory.RecallInput.limit params = Some 2) as H2 by reflexivity.
  assert (0 <= 2) as H3 by lia.
  split; [done|].
  destruct (recall_sorted_by_importance_then_creation
              storage MemorySpec.RecallScenario.data params 2 H1 H2 H3)
    as (sorted & Hperm & Hsorted & _ & Hres & _).
  exists sorted. split; [exact Hperm|]. split; [exact Hsorted|exact Hres].
Defined.

(** ** Decimal text of integers *)

Lemma uint_of_string_zeros k d :
  NilEmpty.uint_of_string (Py.zeros k +:+ NilEmpty.string_of_uint d)
  = Some (Nat.iter k Decimal.D0 d).
Proof.
  induction k as [|k IH]; simpl.
  - apply NilEmpty.usu.
  - change (String "0" (Py.zeros k) +:+ ?s) with (String "0" (Py.zeros k +:+ s)).
    simpl. by rewrite IH.
Qed.

Lemma of_uint_zeros k d :
  Pos.of_uint (Nat.iter k Decimal.D0 d) = Pos.of_uint d.
Proof. induction k as [|k IH]; simpl; done. Qed.

Lemma uint_of_string_no_sign a s d :
  NilEmpty.uint_of_string (String a s) = Some d -> Ascii.eqb a "-" = false.
Proof.
  simpl. destruct (NilEmpty.uint_of_string s) as [d'|]; [|done].
  intros H%uint_of_char_spec.
  destruct H as [[-> _]|[[-> _]|[[-> _]|[[-> _]|[[-> _]|[[-> _]|[[-> _]
    |[[-> _]|[[-> _]|[-> _]]]]]]]]]]; done.
Qed.

(** the digits of a natural number, padded with zeros, read back *)
Lemma uint_of_string_zfill w d :
  d <> Decimal.Nil ->
  NilZero.uint_of_string (Py.zfill w (NilEmpty.string_of_uint d))
  = Some (Nat.iter (w - String.length (NilEmpty.string_of_uint d)) Decimal.D0 d).
Proof.
  intros Hd. unfold Py.zfill.
  pose proof (uint_of_string_zeros
                (w - String.length (NilEmpty.string_of_uint d)) d) as H.
  unfold NilZero.uint_of_string.
  destruct (Py.zeros _ +:+ _) eqn:Hs; [|done].
  simpl in H. injection H as H.
  destruct (w - String.length (NilEmpty.string_of_uint d))%nat; simpl in *;
    [|done].
  by destruct d.
Qed.

Lemma str_nonneg_digits n :
  0 <= n ->
  exists d, d <> Decimal.Nil /\ Py.str n = NilEmpty.string_of_uint d /\
            Z.of_N (Pos.of_uint d) = n.
Proof.
  intros Hn. destruct n as [|p|p]; [| |lia].
  - exists (Decimal.D0 Decimal.Nil). done.
  - exists (Pos.to_uint p). split; [apply Unsigned.to_uint_nonnil|].
    split.
    + unfold Py.str. simpl. unfold NilZero.string_of_uint.
      pose proof (Unsigned.to_uint_nonnil p). by destruct (Pos.to_uint p).
    + by rewrite Unsigned.of_to.
Qed.

Lemma int_of_string_format_0d w n :
  option_map Z.of_int (NilZero.int_of_string (Py.format_0d w n)) = Some n.
Proof.
  unfold Py.format_0d. destruct (Z.ltb_spec n 0) as [Hn|Hn].
  - destruct (str_nonneg_digits (- n)) as (d & Hd & -> & Hval); [lia|].
    change ("-" +:+ ?s) with (String "-" s). simpl.
    rewrite uint_of_string_zfill by done. simpl.
    unfold Z.of_uint. rewrite of_uint_zeros, Hval. f_equal. lia.
  - destruct (str_nonneg_digits n) as (d & Hd & -> & Hval); [lia|].
    pose proof (uint_of_string_zfill w d Hd) as H.
    unfold NilZero.int_of_string.
    destruct (Py.zfill w (NilEmpty.string_of_uint d)) as [|a s] eqn:Hs; [done|].
    assert (Ascii.eqb a "-" = false) as ->.
    { eapply uint_of_string_no_sign. exact H. }
    rewrite H. simpl. unfold Z.of_uint. by rewrite of_uint_zeros, Hval.
Qed.

Lemma substring_all s : String.substring 0 (String.length s) s = s.
Proof. induction s as [|a s IH]; simpl; [done|by rewrite IH]. Qed.

Section MemoryIds.
Import Py Memory MemorySpec.

(** The number in an id is the counter value it was made of. *)
Lemma id_number_mem_id n : id_number (mem_id n) = Some n.
Proof.
  unfold id_number, mem_id.
  change ("mem_" +:+ ?s) with (String "m" (String "e" (String "m" (String "_" s)))).
  cbn [String.prefix Ascii.ascii_dec]. 
  replace (String.prefix _ _) with true by (simpl; by destruct (format_0d 4 n)).
  cbn [String.length]. 
  replace (S (S (S (S (String.length (format_0d 4 n)))) ) - 4)%nat
    with (String.length (format_0d 4 n)) by lia.
  cbn [String.substring]. rewrite substring_all.
  apply int_of_string_format_0d.
Qed.

Lemma mem_id_inj n m : mem_id n = mem_id m -> n = m.
Proof.
  intros H. apply (f_equal id_number) in H.
  rewrite !id_number_mem_id in H. by injection H.
Qed.
End MemoryIds.

Section MemoryCounter.
Import Py Memory MemorySpec.

Example mem_id_first : map mem_id [1; 2; 42; 9999; 10000]
  = ["mem_0001"; "mem_0002"; "mem_0042"; "mem_9999"; "mem_10000"].
Proof. reflexivity. Qed.

Lemma load_saved data : load_memories (save_memories data) = Return data.
Proof. reflexivity. Qed.

Lemma load_fresh : load_memories None = Return empty_store.
Proof. reflexivity. Qed.

(** What one [ea_remember] does to a store that loads. *)
Lemma remember_step now params storage data :
  load_memories storage = Return data ->
  let memory := (new_memory now params data).1 in
  Mem.id memory = mem_id (Store.next_id data) /\
  ea_remember now params storage
  = (Return (remembered memory),
     save_memories {| Store.memories := Store.memories data ++ [memory];
                      Store.next_id := Store.next_id data + 1 |}).
Proof.
  intros Hload. unfold ea_remember. rewrite Hload. done.
Qed.

(** What one [ea_forget] does to a store that loads: the counter stays and
    no memory is added. *)
Lemma forget_step params storage data :
  load_memories storage = Return data ->
  exists data',
    load_memories (ea_forget params storage).2 = Return data' /\
    Store.next_id data' = Store.next_id data /\
    sublist (Store.memories data') (Store.memories data).
Proof.
  intros Hload. unfold ea_forget.
  destruct (ForgetInput.confirm params); simpl.
  - rewrite Hload.
    destruct (list_find _ _) as [[i removed]|] eqn:Hfind; simpl.
    + eexists. split; [apply load_saved|]. split; [done|]. simpl.
      apply sublist_delete.
    + by exists data.
  - by exists data.
Qed.

Lemma ids_below_counter_remember now params data :
  ids_below_counter data ->
  ids_below_counter
    {| Store.memories := Store.memories data ++ [(new_memory now params data).1];
       Store.next_id := Store.next_id data + 1 |}.
Proof.
  unfold ids_below_counter. simpl. intros H.
  apply Forall_app. split.
  - eapply Forall_impl; [exact H|]. intros m (k & Hk & Hlt).
    exists k. split; [done|lia].
  - constructor; [|constructor].
    exists (Store.next_id data). split; [apply id_number_mem_id|lia].
Qed.

Lemma ids_below_counter_sublist data data' :
  ids_below_counter data ->
  Store.next_id data' = Store.next_id data ->
  sublist (Store.memories data') (Store.memories data) ->
  ids_below_counter data'.
Proof.
  unfold ids_below_counter. intros H Hn Hsub. rewrite Hn.
  rewrite Forall_forall in *. intros m Hm.
  apply H. eapply elem_of_sublist; eauto.
Qed.

(** From any store that loads and satisfies the invariant: the ids follow
    the counter, the counter grows by the number of [Remember] calls, and
    the invariant holds afterwards. *)
Lemma run_from_invariant calls : forall storage data,
  load_memories storage = Return data ->
  ids_below_counter data ->
  let n := Z.of_nat (length (List.filter is_remember calls)) in
  assigned_ids calls storage = map mem_id (seqZ (Store.next_id data) n) /\
  exists data',
    load_memories (run calls storage) = Return data' /\
    Store.next_id data' = Store.next_id data + n /\
    ids_below_counter data'.
Proof.
  induction calls as [|c calls IH]; intros storage data Hload Hinv.
  - simpl. split; [done|]. exists data. split; [done|]. split; [lia|done].
  - destruct c as [now params|params].
    + destruct (remember_step now params storage data Hload) as [Hid Hstep].
      cbn [assigned_ids run step List.filter is_remember length].
      rewrite Hload, Hstep. cbn [snd].
      destruct (IH _ _ (load_saved _)
                  (ids_below_counter_remember now params data Hinv))
        as (Hids & data' & Hload' & Hnext & Hinv').
      cbn [Store.next_id] in Hids, Hnext.
      split.
      * rewrite Hids, Hid. rewrite Nat2Z.inj_succ.
        rewrite (seqZ_cons (Store.next_id data)) by lia.
        simpl. do 3 f_equal; lia.
      * exists data'. split; [done|]. split; [lia|done].
    + destruct (forget_step params storage data Hload)
        as (data1 & Hload1 & Hnext1 & Hsub1).
      cbn [assigned_ids run step List.filter is_remember].
      destruct (IH _ _ Hload1
                  (ids_below_counter_sublist _ _ Hinv Hnext1 Hsub1))
        as (Hids & data' & Hload' & Hnext & Hinv').
      split.
      * rewrite Hids, Hnext1. by destruct (load_memories storage).
      * exists data'. split; [done|]. split; [lia|done].
Qed.


End MemoryCounter.

Section MemoryForget.
Import Py Memory MemorySpec.

Lemma forget_unconfirmed memory_id storage :
  ea_forget {| ForgetInput.memory_id := memory_id;
               ForgetInput.confirm := false |} storage
  = (Return "Set confirm=True to delete. This action cannot be undone.",
     storage).
Proof. reflexivity. Qed.

Lemma forget_found memory_id storage data :
  load_memories storage = Return data ->
  Exists (has_id memory_id) (Store.memories data) ->
  exists before removed after,
    Store.memories data = before ++ removed :: after /\
    Mem.id removed = memory_id /\
    Forall (fun m => Mem.id m <> memory_id) before /\
    ea_forget {| ForgetInput.memory_id := memory_id;
                 ForgetInput.confirm := true |} storage
    = (Return (forgotten memory_id removed),
       save_memories {| Store.memories := before ++ after;
                        Store.next_id := Store.next_id data |}).
Proof.
  intros Hload Hex. unfold ea_forget. cbn [ForgetInput.confirm negb].
  rewrite Hload. cbn [ForgetInput.memory_id].
  destruct (list_find (has_id memory_id) (Store.memories data))
    as [[i removed]|] eqn:Hfind.
  - apply list_find_Some in Hfind as (Hi & Hid & Hfirst).
    exists (take i (Store.memories data)), removed,
      (drop (S i) (Store.memories data)).
    split; [by rewrite take_drop_middle|]. split; [exact Hid|]. split.
    + apply Forall_forall. intros m Hm.
      apply list_elem_of_lookup in Hm as [j Hj].
      pose proof (lookup_lt_Some _ _ _ Hj) as Hlt.
      rewrite length_take in Hlt.
      rewrite lookup_take_lt in Hj by lia.
      apply (Hfirst j m Hj). lia.
    + by rewrite delete_take_drop.
  - exfalso. apply list_find_None in Hfind.
    apply Exists_exists in Hex as (m & Hm & Hid).
    rewrite Forall_forall in Hfind. by apply (Hfind m).
Qed.

(** C7.  An unconfirmed forget leaves the storage exactly as it was,
    whatever its state, and answers with the request to set confirm; the
    same call with confirm set, on a store that holds the id, removes the
    (first) memory with that id and nothing else, keeping the counter. *)
Theorem forget_confirmation_gate (storage : file Store.t) (memory_id : string) :
  ea_forget {| ForgetInput.memory_id := memory_id;
               ForgetInput.confirm := false |} storage
  = (Return "Set confirm=True to delete. This action cannot be undone.",
     storage) /\
  forall data : Store.t,
    load_memories storage = Return data ->
    Exists (has_id memory_id) (Store.memories data) ->
    exists before removed after,
      Store.memories data = before ++ removed :: after /\
      Mem.id removed = memory_id /\
      Forall (fun m => Mem.id m <> memory_id) before /\
      ea_forget {| ForgetInput.memory_id := memory_id;
                   ForgetInput.confirm := true |} storage
      = (Return (forgotten memory_id removed),
         save_memories {| Store.memories := before ++ after;
                          Store.next_id := Store.next_id data |}).
Proof.
  split; [apply forget_unconfirmed|].
  intros data Hload Hex. by apply forget_found.
Qed.

(** C10.  A confirmed forget whose id matches no stored memory answers
    with the not-found message and writes nothing: the storage is exactly
    as before the call. *)
Theorem forget_unknown_id_writes_nothing
    (storage : file Store.t) (data : Store.t) (memory_id : string) :
  load_memories storage = Return data ->
  Forall (fun m => Mem.id m <> memory_id) (Store.memories data) ->
  ea_forget {| ForgetInput.memory_id := memory_id;
               ForgetInput.confirm := true |} storage
  = (Return ("Memory not found: " +:+ memory_id
             +:+ ". Use ea_list to see available memory IDs."),
     storage).
Proof.
  intros Hload Hnone. unfold ea_forget. cbn [ForgetInput.confirm negb].
  rewrite Hload. cbn [ForgetInput.memory_id].
  destruct (list_find (has_id memory_id) (Store.memories data))
    as [[i removed]|] eqn:Hfind; [|done].
  exfalso. apply list_find_Some in Hfind as (Hi & Hid & _).
  rewrite Forall_forall in Hnone.
  apply (Hnone removed); [|exact Hid].
  by eapply list_elem_of_lookup_2.
Qed.
End MemoryForget.

Lemma forget_confirmation_gate_witness :
  let storage := Some (Py.Document MemorySpec.RecallScenario.data) in
  (Memory.load_memories storage = Py.Return MemorySpec.RecallScenario.data /\
   Exists (Memory.has_id "mem_0002")
     (Memory.Store.memories MemorySpec.RecallScenario.data)) /\
  (Memory.ea_forget {| Memory.ForgetInput.memory_id := "mem_0002";
                       Memory.ForgetInput.confirm := false |} storage).2
  = storage /\
  exists data',
    (Memory.ea_forget {| Memory.ForgetInput.memory_id := "mem_0002";
                         Memory.ForgetInput.confirm := true |} storage).2
    = Some (Py.Document data') /\
    map Memory.Mem.id (Memory.Store.memories data') = ["mem_0001"; "mem_0003"] /\
    Memory.Store.next_id data' = 4.
Proof.
  intros storage.
  assert (Memory.load_memories storage
          = Py.Return MemorySpec.RecallScenario.data) as H1 by reflexivity.
  assert (Exists (Memory.has_id "mem_0002")
            (Memory.Store.memories MemorySpec.RecallScenario.data)) as H2.
  { apply Exists_cons_tl, Exists_cons_hd. reflexivity. }
  split; [done|].
  destruct (forget_confirmation_gate storage "mem_0002") as [Hno Hyes].
  destruct (Hyes _ H1 H2)
    as (before & removed & after & Hsplit & Hid & Hbefore & Hcall).
  split; [by rewrite Hno|].
  eexists. split; [reflexivity|]. split; reflexivity.
Defined.

Lemma forget_unknown_id_writes_nothing_witness :
  let storage := Some (Py.Document MemorySpec.RecallScenario.data) in
  (Memory.load_memories storage = Py.Return MemorySpec.RecallScenario.data /\
   Forall (fun m => Memory.Mem.id m <> "mem_0007")
     (Memory.Store.memories MemorySpec.RecallScenario.data)) /\
  Memory.ea_forget {| Memory.ForgetInput.memory_id := "mem_0007";
                      Memory.ForgetInput.confirm := true |} storage
  = (Py.Return "Memory not found: mem_0007. Use ea_list to see available memory IDs.",
     storage).
Proof.
  intros storage.
  assert (Memory.load_memories storage
          = Py.Return MemorySpec.RecallScenario.data) as H1 by reflexivity.
  assert (Forall (fun m => Memory.Mem.id m <> "mem_0007")
            (Memory.Store.memories MemorySpec.RecallScenario.data)) as H2.
  { repeat constructor; discriminate. }
  split; [done|].
  exact (forget_unknown_id_writes_nothing storage _ "mem_0007" H1 H2).
Defined.

Section MemoryList.
Import Py Memory MemorySpec.

Lemma list_in_order a b :
  in_order String.ltb Mem.created_at true a b <-> list_order a b.
Proof.
  unfold in_order, precedes, stays_before, list_order.
  rewrite str_ltb_leb. apply negb_false_iff.
Qed.

Lemma list_same_rank z m :
  same_rank String.ltb Mem.created_at true z m = list_tie (Mem.created_at z) m.
Proof.
  unfold same_rank, precedes, stays_before, list_tie.
  apply eq_true_iff_eq.
  rewrite andb_true_iff, !negb_true_iff, !str_ltb_leb, !negb_false_iff,
    String.eqb_eq.
  split.
  - intros [H1 H2]. by apply String.leb_antisym.
  - intros ->.
    by destruct (String.leb_total (Mem.created_at z) (Mem.created_at z)).
Qed.

Lemma list_sorted_perm params memories :
  list_sorted params memories
  ≡ₚ List.filter (tags_match (parse_tags (ListInput.tags params))) memories.
Proof. apply sort_perm. Qed.

Lemma list_sorted_order params memories :
  StronglySorted list_order (list_sorted params memories).
Proof.
  eapply StronglySorted_weaken; [|apply sort_sorted].
  - intros a b. apply list_in_order.
  - apply str_ltb_asym.
  - apply str_ltb_negtrans.
Qed.

Lemma list_sorted_stable params memories ts :
  List.filter (list_tie ts) (list_sorted params memories)
  = List.filter (list_tie ts)
      (List.filter (tags_match (parse_tags (ListInput.tags params))) memories).
Proof.
  set (z := {| Mem.id := ""; Mem.content := ""; Mem.tags := [];
               Mem.importance := 0; Mem.created_at := ts |}).
  unfold list_sorted.
  rewrite <- !(filter_ext _ _ (fun m => list_same_rank z m)).
  apply sort_stable, str_ltb_negtrans.
Qed.

Lemma list_sorted_length params memories :
  (length (list_sorted params memories) <= length memories)%nat.
Proof.
  unfold list_sorted. rewrite sort_length. apply List.filter_length_le.
Qed.

(** the page of a call is a window of the sorted, filtered memories *)
Lemma list_page_window tags limit offset memories :
  0 <= offset -> 0 <= limit ->
  list_page (list_call tags limit offset) memories
  = Return (take (Z.to_nat limit)
              (drop (Z.to_nat offset)
                 (list_sorted (list_call tags limit 0) memories))).
Proof.
  intros Ho Hl. unfold list_page. cbn [list_call ListInput.offset ListInput.limit].
  by rewrite slice_window.
Qed.

Lemma take_drop_own_length {A} n (l : list A) :
  take n l ++ drop (length (take n l)) l = l.
Proof.
  rewrite length_take. destruct (Nat.le_ge_cases n (length l)).
  - rewrite Nat.min_l by done. apply take_drop.
  - rewrite Nat.min_r by done. rewrite take_ge by done.
    by rewrite drop_all, app_nil_r.
Qed.

Lemma pages_from tags limit memories fuel : forall offset,
  1 <= limit -> 0 <= offset ->
  (Z.to_nat offset <= length (list_sorted (list_call tags limit 0) memories)
   < fuel + Z.to_nat offset)%nat ->
  exists ps,
    pages fuel tags limit offset memories = Some ps /\
    concat ps
    = drop (Z.to_nat offset) (list_sorted (list_call tags limit 0) memories).
Proof.
  set (full := list_sorted (list_call tags limit 0) memories).
  induction fuel as [|fuel IH]; intros offset Hl Ho Hfuel; [lia|].
  cbn [pages]. rewrite list_page_window by lia. fold full.
  destruct (take (Z.to_nat limit) (drop (Z.to_nat offset) full))
    as [|m page] eqn:Hpage.
  - exists []. split; [done|]. simpl.
    destruct (drop (Z.to_nat offset) full) as [|x rest]; [done|].
    destruct (Z.to_nat limit) eqn:Hn; [lia|]. done.
  - assert (length (m :: page) <= length full - Z.to_nat offset)%nat as Hlen.
    { rewrite <- Hpage, length_take, length_drop. lia. }
    destruct (IH (offset + Z.of_nat (length (m :: page)))) as (ps & Hps & Hcat).
    + done.
    + lia.
    + cbn [length] in *. lia.
    + rewrite Hps. exists ((m :: page) :: ps). split; [done|].
      cbn [concat]. rewrite Hcat.
      replace (Z.to_nat (offset + Z.of_nat (length (m :: page))))
        with (Z.to_nat offset + length (m :: page))%nat by lia.
      rewrite <- drop_drop, <- Hpage.
      apply take_drop_own_length.
Qed.

(** the response of a list call is the report of its page *)
Lemma ea_list_reports_page tags limit offset storage data :
  load_memories storage = Return data ->
  0 <= offset -> 0 <= limit ->
  exists page,
    list_page (list_call tags limit offset) (Store.memories data) = Return page /\
    ea_list (list_call tags limit offset) storage
    = Return
        (let total :=
           Z.of_nat (length (list_sorted (list_call tags limit 0)
                               (Store.memories data))) in
         match Store.memories data, page with
         | [], _ =>
             "No memories stored yet. Use ea_remember to store your first memory."
         | _, [] =>
             if 0 <? offset then "No more memories. Total: " +:+ str total
             else "No memories found with tags: " +:+ show_tags tags
         | _, _ => list_report offset total page
         end).
Proof.
  intros Hload Ho Hl. eexists. split; [by apply list_page_window|].
  unfold ea_list. rewrite Hload. cbn [mbind outcome_bind].
  destruct (Store.memories data) as [|m0 ms] eqn:Hms; [done|].
  rewrite list_page_window by done. cbn [mbind outcome_bind].
  change (list_sorted (list_call tags limit offset) (m0 :: ms))
    with (list_sorted (list_call tags limit 0) (m0 :: ms)).
  cbn [list_call ListInput.offset ListInput.tags].
  destruct (take _ _); [|done]. by destruct (0 <? offset).
Qed.

(** C5.  Paging through the list of a store with a fixed tag filter and a
    fixed limit, from offset 0 and advancing by the size of each page until
    a page is empty, ends (after at most one call more than there are
    memories), and the pages put together are the tag-filtered memories
    sorted newest first: each of them exactly as often as it is stored, none
    left out.  Each call's response is the report of its page. *)
Theorem list_pages_cover_all
    (storage : file Store.t) (data : Store.t) (tags : option string)
    (limit : Z) (fuel : nat) :
  load_memories storage = Return data ->
  1 <= limit ->
  (length (Store.memories data) < fuel)%nat ->
  let memories := Store.memories data in
  let full := list_sorted (list_call tags limit 0) memories in
  (exists ps : list (list Mem.t),
     pages fuel tags limit 0 memories = Some ps /\ concat ps = full) /\
  full ≡ₚ List.filter (tags_match (parse_tags tags)) memories /\
  StronglySorted list_order full /\
  (forall ts, List.filter (list_tie ts) full
              = List.filter (list_tie ts)
                  (List.filter (tags_match (parse_tags tags)) memories)) /\
  (forall offset, 0 <= offset ->
     exists page,
       list_page (list_call tags limit offset) memories = Return page /\
       ea_list (list_call tags limit offset) storage
       = Return
           (match memories, page with
            | [], _ =>
                "No memories stored yet. Use ea_remember to store your first memory."
            | _, [] =>
                if 0 <? offset
                then "No more memories. Total: "
                     +:+ str (Z.of_nat (length full))
                else "No memories found with tags: " +:+ show_tags tags
            | _, _ => list_report offset (Z.of_nat (length full)) page
            end)).
Proof.
  intros Hload Hl Hfuel memories full.
  destruct (pages_from tags limit memories fuel 0) as (ps & Hps & Hcat);
    [done|done| |].
  { pose proof (list_sorted_length (list_call tags limit 0) memories).
    change (Z.to_nat 0) with 0%nat. unfold memories in *. lia. }
  split; [by exists ps|].
  split; [apply list_sorted_perm|]. split; [apply list_sorted_order|].
  split; [intros ts; apply list_sorted_stable|].
  intros offset Ho. apply ea_list_reports_page; [done|done|lia].
Qed.
End MemoryList.

Example list_scenario_pages :
  option_map (map (map Memory.Mem.id))
    (MemorySpec.pages 4 None 2 0
       (Memory.Store.memories MemorySpec.RecallScenario.data))
  = Some [["mem_0003"; "mem_0002"]; ["mem_0001"]].
Proof. reflexivity. Qed.

Lemma list_pages_cover_all_witness :
  let storage := Some (Py.Document MemorySpec.RecallScenario.data) in
  let memories := Memory.Store.memories MemorySpec.RecallScenario.data in
  (Memory.load_memories storage = Py.Return MemorySpec.RecallScenario.data /\
   1 <= 2 /\ (length memories < 4)%nat) /\
  exists ps : list (list Memory.Mem.t),
    MemorySpec.pages 4 None 2 0 memories = Some ps /\
    concat ps = Memory.list_sorted (MemorySpec.list_call None 2 0) memories.
Proof.
  intros storage memories.
  assert (Memory.load_memories storage
          = Py.Return MemorySpec.RecallScenario.data) as H1 by reflexivity.
  assert (1 <= 2) as H2 by lia.
  assert (length memories < 4)%nat as H3 by (vm_compute; lia).
  split; [done|].
  exact (proj1 (list_pages_cover_all storage MemorySpec.RecallScenario.data
                  None 2 4 H1 H2 H3)).
Defined.

(* ===================================================================== *)
(** ** ea-prompts                                                         *)
(* ===================================================================== *)

Section PromptsProperties.
Import Py Prompts PromptsSpec.

Lemma builtin_mem name :
  dict_mem name BUILTIN_PROMPTS = true <-> In name builtin_names.
Proof.
  unfold dict_mem. rewrite bool_decide_eq_true.
  unfold BUILTIN_PROMPTS, builtin_names. split.
  - intros [p Hp]. apply elem_of_list_to_map_2 in Hp.
    apply list_elem_of_In.
    repeat (apply elem_of_cons in Hp as [Hp|Hp];
            [injection Hp as -> _; set_solver|]).
    by apply elem_of_nil in Hp.
  - intros Hin. simpl in Hin.
    destruct Hin as [<-|[<-|[<-|[<-|[<-|[]]]]]]; vm_compute; eauto.
Qed.

Lemma add_builtin_rejected now params storage :
  dict_mem (AddPromptInput.name params) BUILTIN_PROMPTS = true ->
  ea_add_prompt now params storage
  = (Return ("Error: '" +:+ AddPromptInput.name params
             +:+ "' is a built-in prompt and cannot be overwritten."),
     storage).
Proof. intros H. unfold ea_add_prompt. by rewrite H. Qed.

Lemma remove_builtin_rejected name storage :
  dict_mem name BUILTIN_PROMPTS = true ->
  ea_remove_prompt {| RemovePromptInput.name := name;
                      RemovePromptInput.confirm := true |} storage
  = (Return ("Error: '" +:+ name
             +:+ "' is a built-in prompt and cannot be removed."),
     storage).
Proof.
  intros H. unfold ea_remove_prompt.
  cbn [RemovePromptInput.confirm RemovePromptInput.name negb]. by rewrite H.
Qed.

Lemma load_saved_prompts custom :
  load_custom_prompts (save_custom_prompts custom) = Return custom.
Proof. reflexivity. Qed.

Lemma add_keeps_builtins_out now params storage :
  no_builtin_stored storage ->
  no_builtin_stored (ea_add_prompt now params storage).2.
Proof.
  intros Hinv. unfold ea_add_prompt.
  destruct (dict_mem (AddPromptInput.name params) BUILTIN_PROMPTS) eqn:Hb;
    [done|].
  destruct (load_custom_prompts storage) as [custom|e] eqn:Hload; [|done].
  intros custom' name Hload' Hname. cbn [snd] in Hload'.
  rewrite load_saved_prompts in Hload'. injection Hload' as <-.
  rewrite lookup_insert_ne by congruence. by eapply Hinv.
Qed.

Lemma remove_keeps_builtins_out params storage :
  no_builtin_stored storage ->
  no_builtin_stored (ea_remove_prompt params storage).2.
Proof.
  intros Hinv. unfold ea_remove_prompt.
  destruct (RemovePromptInput.confirm params); [|done]. cbn [negb].
  destruct (dict_mem (RemovePromptInput.name params) BUILTIN_PROMPTS); [done|].
  destruct (load_custom_prompts storage) as [custom|e] eqn:Hload; [|done].
  destruct (dict_mem (RemovePromptInput.name params) custom); [|done].
  intros custom' name Hload' Hname. cbn [negb snd] in Hload'.
  rewrite load_saved_prompts in Hload'. injection Hload' as <-.
  apply lookup_delete_None. right. by eapply Hinv.
Qed.

Lemma run_keeps_builtins_out calls : forall storage,
  no_builtin_stored storage -> no_builtin_stored (run calls storage).
Proof.
  induction calls as [|c calls IH]; intros storage Hinv; [done|].
  cbn [run]. apply IH. destruct c; simpl.
  - by apply add_keeps_builtins_out.
  - by apply remove_keeps_builtins_out.
Qed.

(** C8.  For each of the five built-in names and whatever the state of the
    custom-prompt file: adding a prompt of that name is rejected and the
    file is left as it was; removing it with confirm set is rejected and
    the file is left as it was; and no sequence of add and remove calls
    ever puts a built-in name into a file that had none. *)
Theorem builtin_prompts_protected (name : string) :
  In name builtin_names ->
  (forall now params storage,
     AddPromptInput.name params = name ->
     ea_add_prompt now params storage
     = (Return ("Error: '" +:+ name
                +:+ "' is a built-in prompt and cannot be overwritten."),
        storage)) /\
  (forall storage,
     ea_remove_prompt {| RemovePromptInput.name := name;
                         RemovePromptInput.confirm := true |} storage
     = (Return ("Error: '" +:+ name
                +:+ "' is a built-in prompt and cannot be removed."),
        storage)) /\
  (forall calls storage,
     no_builtin_stored storage -> no_builtin_stored (run calls storage)).
Proof.
  intros Hname%builtin_mem. split; [|split].
  - intros now params storage <-. by apply add_builtin_rejected.
  - intros storage. by apply remove_builtin_rejected.
  - intros calls storage. apply run_keeps_builtins_out.
Qed.

Lemma parse_arguments_names arguments :
  parse_arguments arguments
  = map (fun arg => {| Argument.name := arg;
                       Argument.description := "Value for " +:+ arg;
                       Argument.required := true |})
      (argument_names arguments).
Proof.
  destruct arguments as [s|]; [|done]. unfold parse_arguments, argument_names.
  destruct (truthy s) eqn:Hs; [done|]. cbn [negb].
  unfold truthy in Hs. apply negb_false_iff, String.eqb_eq in Hs. by subst s.
Qed.

Lemma prompt_added_text params :
  prompt_added params
  = lines [ "Custom prompt added: " +:+ AddPromptInput.name params;
            "Description: " +:+ AddPromptInput.description params;
            "Arguments: "
              +:+ match argument_names (AddPromptInput.arguments params) with
                  | [] => "none"
                  | names => join ", " names
                  end;
            "";
            "Use with: /prompt " +:+ AddPromptInput.name params ].
Proof.
  unfold prompt_added. cbv zeta. rewrite parse_arguments_names.
  destruct (argument_names (AddPromptInput.arguments params)) as [|arg names];
    [done|].
  rewrite map_map. cbn [Argument.name]. by rewrite map_id.
Qed.

(** C9.  Adding a prompt under the name of an existing custom prompt (not a
    built-in name) succeeds and replaces the stored prompt by the new one.
    The answer is the usual confirmation: the name, the description, the
    argument names (or "none") and the hint for using the prompt.  The file
    then binds the name to a prompt that carries the name, the description
    and the template of the call, one required argument for each argument
    name, described as the value for that name, the mark of a custom prompt
    and the time of the call; every other name is bound as before, and the
    number of custom prompts is the same. *)
Theorem add_prompt_replaces_existing
    (now : datetime) (params : AddPromptInput.t)
    (storage : file custom_prompts) (custom : gmap string Prompt.t)
    (old : Prompt.t) :
  load_custom_prompts storage = Return custom ->
  custom !! AddPromptInput.name params = Some old ->
  dict_mem (AddPromptInput.name params) BUILTIN_PROMPTS = false ->
  exists (custom' : gmap string Prompt.t) (stored : Prompt.t),
    ea_add_prompt now params storage
    = (Return
         (lines [ "Custom prompt added: " +:+ AddPromptInput.name params;
                  "Description: " +:+ AddPromptInput.description params;
                  "Arguments: "
                    +:+ match argument_names (AddPromptInput.arguments params) with
                        | [] => "none"
                        | names => join ", " names
                        end;
                  "";
                  "Use with: /prompt " +:+ AddPromptInput.name params ]),
       Some (Document custom')) /\
    custom' !! AddPromptInput.name params = Some stored /\
    Prompt.name stored = AddPromptInput.name params /\
    Prompt.description stored = AddPromptInput.description params /\
    Prompt.template stored = AddPromptInput.template params /\
    Prompt.arguments stored
    = map (fun arg => {| Argument.name := arg;
                         Argument.description := "Value for " +:+ arg;
                         Argument.required := true |})
        (argument_names (AddPromptInput.arguments params)) /\
    Prompt.builtin stored = false /\
    Prompt.created_at stored = Some (isoformat now) /\
    (forall other, other <> AddPromptInput.name params ->
                   custom' !! other = custom !! other) /\
    size custom' = size custom.
Proof.
  intros Hload Hold Hb.
  exists (<[AddPromptInput.name params := new_prompt now params]> custom),
         (new_prompt now params).
  split; [|split; [|repeat split]].
  - unfold ea_add_prompt. rewrite Hb, Hload. by rewrite prompt_added_text.
  - apply lookup_insert_eq.
  - cbn [new_prompt Prompt.arguments]. apply parse_arguments_names.
  - intros other Hne. by apply lookup_insert_ne.
  - rewrite <- (insert_delete_eq custom).
    rewrite map_size_insert_None by apply lookup_delete_eq.
    rewrite <- (insert_id custom _ _ Hold) at 2.
    rewrite <- (insert_delete_eq custom).
    by rewrite map_size_insert_None by apply lookup_delete_eq.
Qed.
End PromptsProperties.

Lemma builtin_prompts_protected_witness :
  In "code-review" PromptsSpec.builtin_names /\
  forall storage,
    Prompts.ea_remove_prompt
      {| Prompts.RemovePromptInput.name := "code-review";
         Prompts.RemovePromptInput.confirm := true |} storage
    = (Py.Return "Error: 'code-review' is a built-in prompt and cannot be removed.",
       storage).
Proof.
  assert (In "code-review" PromptsSpec.builtin_names) as H by (left; reflexivity).
  split; [exact H|].
  exact (proj1 (proj2 (builtin_prompts_protected "code-review" H))).
Defined.

Lemma add_prompt_replaces_existing_witness :
  let storage := Some (Py.Document PromptsSpec.Scenario.custom) in
  (Prompts.load_custom_prompts storage = Py.Return PromptsSpec.Scenario.custom /\
   PromptsSpec.Scenario.custom
     !! Prompts.AddPromptInput.name PromptsSpec.Scenario.second
   = Some (Prompts.new_prompt PromptsSpec.Scenario.now PromptsSpec.Scenario.first) /\
   Prompts.dict_mem (Prompts.AddPromptInput.name PromptsSpec.Scenario.second)
     Prompts.BUILTIN_PROMPTS = false) /\
  exists (custom' : gmap string Prompts.Prompt.t) (stored : Prompts.Prompt.t),
    Prompts.ea_add_prompt PromptsSpec.Scenario.now PromptsSpec.Scenario.second
      storage
    = (Py.Return
         (Py.lines [ "Custom prompt added: summarize";
                     "Description: Summarize a text in a given style";
                     "Arguments: text, style";
                     "";
                     "Use with: /prompt summarize" ]),
       Some (Py.Document custom')) /\
    custom' !! "summarize" = Some stored /\
    Prompts.Prompt.description stored = "Summarize a text in a given style" /\
    Prompts.Prompt.template stored = "Summarize in {style}: {text}" /\
    map Prompts.Argument.name (Prompts.Prompt.arguments stored)
    = ["text"; "style"] /\
    size custom' = 1%nat.
Proof.
  intros storage.
  assert (Prompts.load_custom_prompts storage
          = Py.Return PromptsSpec.Scenario.custom) as H1 by reflexivity.
  assert (PromptsSpec.Scenario.custom
            !! Prompts.AddPromptInput.name PromptsSpec.Scenario.second
          = Some (Prompts.new_prompt PromptsSpec.Scenario.now
                    PromptsSpec.Scenario.first)) as H2 by reflexivity.
  assert (Prompts.dict_mem
            (Prompts.AddPromptInput.name PromptsSpec.Scenario.second)
            Prompts.BUILTIN_PROMPTS = false) as H3 by reflexivity.
  split; [done|].
  destruct (add_prompt_replaces_existing PromptsSpec.Scenario.now
              PromptsSpec.Scenario.second storage _ _ H1 H2 H3)
    as (custom' & stored & Hcall & Hnew & _ & Hdescription & Htemplate
        & Harguments & _ & _ & _ & Hsize).
  exists custom', stored. split; [exact Hcall|]. split; [exact Hnew|].
  split; [exact Hdescription|]. split; [exact Htemplate|].
  split; [by rewrite Harguments|]. rewrite Hsize. reflexivity.
Defined.

(* ===================================================================== *)
(** ** Loading the stores                                                 *)
(* ===================================================================== *)

Section Loading.
Import Py.

(** A file that is missing, that cannot be read ([OSError]) or whose text
    is not JSON ([JSONDecodeError]) loads as the empty default. *)
Lemma load_memories_default (storage : file Memory.Store.t) :
  storage = None \/ storage = Some Unreadable \/ storage = Some Malformed ->
  Memory.load_memories storage = Return Memory.empty_store.
Proof. by intros [->|[->| ->]]. Qed.

Lemma load_custom_prompts_default (storage : file Prompts.custom_prompts) :
  storage = None \/ storage = Some Unreadable \/ storage = Some Malformed ->
  Prompts.load_custom_prompts storage = Return ∅.
Proof. by intros [->|[->| ->]]. Qed.

Lemma load_journal_default date (dir : Journal.storage) :
  dir !! Journal.get_journal_file date = None \/
  dir !! Journal.get_journal_file date = Some Unreadable \/
  dir !! Journal.get_journal_file date = Some Malformed ->
  Journal.load_journal date dir = Return [].
Proof. unfold Journal.load_journal. by intros [->|[->| ->]]. Qed.

(** Over such a file the read operations of the memory server answer as
    over an empty store. *)
Lemma recall_list_default params params' (storage : file Memory.Store.t) :
  storage = None \/ storage = Some Unreadable \/ storage = Some Malformed ->
  Memory.ea_recall params storage
  = Memory.ea_recall params (Some (Document Memory.empty_store)) /\
  Memory.ea_list params' storage
  = Memory.ea_list params' (Some (Document Memory.empty_store)).
Proof. by intros [->|[->| ->]]. Qed.

(** C6.  A store file that exists but whose bytes are not valid UTF-8 is
    not loaded as the empty default: [read_text] raises
    [UnicodeDecodeError], which the handler for [JSONDecodeError] and
    [IOError] does not catch, so each of the three loaders raises, and so
    do the operations that read through them. *)
Theorem load_undecodable_file_raises :
  Memory.load_memories (Some Undecodable) = Raise UnicodeDecodeError /\
  (forall date,
     Journal.load_journal date {[ Journal.get_journal_file date := Undecodable ]}
     = Raise UnicodeDecodeError) /\
  Prompts.load_custom_prompts (Some Undecodable) = Raise UnicodeDecodeError /\
  (forall params,
     Memory.ea_recall params (Some Undecodable) = Raise UnicodeDecodeError) /\
  (forall strptime_Ymd now entry_type,
     Journal.ea_review strptime_Ymd now
       {| Journal.ReviewInput.date := None;
          Journal.ReviewInput.days := None;
          Journal.ReviewInput.entry_type := entry_type |}
       {[ Journal.get_journal_file now := Undecodable ]}
     = Raise UnicodeDecodeError).
Proof.
  split; [done|]. split; [|split; [done|split; [done|]]].
  - intros date. unfold Journal.load_journal.
    by rewrite lookup_singleton_eq.
  - intros strptime_Ymd now entry_type.
    unfold Journal.ea_review, Journal.review_dates, Journal.days_given.
    cbn [Journal.ReviewInput.days Journal.ReviewInput.date Journal.collect].
    unfold Journal.load_journal. by rewrite lookup_singleton_eq.
Qed.
End Loading.

(* ===================================================================== *)
(** ** ea-journal                                                         *)
(* ===================================================================== *)

Section JournalLog.
Import Py Journal JournalSpec.
Variable hash : string -> Z.

(** The file of a day is named by the date alone. *)
Lemma journal_file_of_day now day :
  ordinal now = ordinal day -> get_journal_file now = get_journal_file day.
Proof.
  intros H. unfold get_journal_file, strftime_Ymd. by rewrite H.
Qed.

Lemma load_journal_of_day now day dir :
  ordinal now = ordinal day -> load_journal now dir = load_journal day dir.
Proof.
  intros H. unfold load_journal. by rewrite (journal_file_of_day now day H).
Qed.

(** One log call on a day whose file loads: the entry goes to the end of
    that file and no other file changes. *)
Lemma log_step now params dir entries :
  load_journal now dir = Return entries ->
  ea_log hash now params dir
  = (Return (logged now params),
     <[get_journal_file now := Document (entries ++ [new_entry hash now params])]> dir).
Proof. intros Hload. unfold ea_log. by rewrite Hload. Qed.

Lemma load_journal_saved now entries dir :
  load_journal now (save_journal now entries dir) = Return entries.
Proof.
  unfold load_journal, save_journal. by rewrite lookup_insert_eq.
Qed.

Lemma run_logs_app calls1 calls2 dir :
  run_logs hash (calls1 ++ calls2) dir
  = run_logs hash calls2 (run_logs hash calls1 dir).
Proof.
  revert dir. induction calls1 as [|[now params] calls1 IH]; intros dir; [done|].
  cbn [app run_logs]. apply IH.
Qed.

Lemma run_logs_same_day day calls : forall dir entries,
  Forall (fun c => ordinal c.1 = ordinal day) calls ->
  load_journal day dir = Return entries ->
  load_journal day (run_logs hash calls dir)
  = Return (entries ++ map (fun c => new_entry hash c.1 c.2) calls) /\
  (forall name, name <> get_journal_file day ->
                run_logs hash calls dir !! name = dir !! name).
Proof.
  induction calls as [|[now params] calls IH]; intros dir entries Hday Hload.
  - cbn [run_logs map]. by rewrite app_nil_r.
  - apply Forall_cons in Hday as [Hnow Hday]. cbn [fst] in Hnow.
    cbn [run_logs]. rewrite (log_step now params dir entries)
      by (by rewrite (load_journal_of_day now day)).
    cbn [snd].
    destruct (IH (<[get_journal_file now :=
                     Document (entries ++ [new_entry hash now params])]> dir)
                (entries ++ [new_entry hash now params]) Hday)
      as [Hentries Hother].
    { rewrite <- (load_journal_of_day now day) by done.
      apply load_journal_saved. }
    split.
    + rewrite Hentries. cbn [map fst snd]. by rewrite <- app_assoc.
    + intros name Hname. rewrite Hother by done.
      apply lookup_insert_ne. by rewrite (journal_file_of_day now day).
Qed.

(** C3.  After any sequence of log calls made on one UTC day, starting
    from a day file that reads as empty, the day's file holds exactly the
    entries of those calls, one per call and in call order, and every
    other file is as it was.  The state after the first calls of the
    sequence holds a prefix of the final entries: no call alters or removes
    what an earlier call appended. *)
Theorem log_appends_in_call_order
    (day : datetime) (calls : list (datetime * LogInput.t)) (dir : storage) :
  Forall (fun c => ordinal c.1 = ordinal day) calls ->
  load_journal day dir = Return [] ->
  let logged_entries := map (fun c => new_entry hash c.1 c.2) calls in
  load_journal day (run_logs hash calls dir) = Return logged_entries /\
  length logged_entries = length calls /\
  (forall k, load_journal day (run_logs hash (take k calls) dir)
             = Return (take k logged_entries)) /\
  (forall name, name <> get_journal_file day ->
                run_logs hash calls dir !! name = dir !! name).
Proof.
  intros Hday Hload entries.
  destruct (run_logs_same_day day calls dir [] Hday Hload) as [Hall Hother].
  split; [exact Hall|]. split; [apply length_map|]. split; [|exact Hother].
  intros k. unfold entries.
  change (map ?f ?l) with (f <$> l). rewrite <- fmap_take.
  apply (run_logs_same_day day (take k calls) dir []); [|done].
  by apply Forall_take.
Qed.
End JournalLog.

Example log_scenario_first_day :
  map Journal.Entry.content
    (JournalSpec.entries_of JournalSpec.Scenario.dir
       (JournalSpec.Scenario.at_ 738886 0 0 0))
  = ["set up the repository"; "chose SQLite"].
Proof. reflexivity. Qed.

Lemma log_appends_in_call_order_witness :
  let day := JournalSpec.Scenario.at_ 738886 0 0 0 in
  let calls := take 2 JournalSpec.Scenario.calls in
  (Forall (fun c => Py.ordinal c.1 = Py.ordinal day) calls /\
   Journal.load_journal day ∅ = Py.Return []) /\
  Journal.load_journal day
    (JournalSpec.run_logs JournalSpec.Scenario.hash calls ∅)
  = Py.Return
      (map (fun c => Journal.new_entry JournalSpec.Scenario.hash c.1 c.2) calls).
Proof.
  intros day calls.
  assert (Forall (fun c => Py.ordinal c.1 = Py.ordinal day) calls) as H1
    by (repeat constructor).
  assert (Journal.load_journal day ∅ = Py.Return []) as H2 by reflexivity.
  split; [done|].
  exact (proj1 (log_appends_in_call_order JournalSpec.Scenario.hash
                  day calls ∅ H1 H2)).
Defined.

Lemma str_ltb_trans a b c :
  String.ltb a b = true -> String.ltb b c = true -> String.ltb a c = true.
Proof.
  intros Hab Hbc. destruct (String.ltb a c) eqn:Hac; [done|].
  pose proof (str_ltb_asym _ _ Hab) as Hba.
  pose proof (str_ltb_negtrans _ _ _ Hba Hac) as Hbc'. congruence.
Qed.

Lemma str_ltb_of_leb_ne a b :
  String.leb a b = true -> a <> b -> String.ltb a b = true.
Proof.
  intros Hle Hne. rewrite str_ltb_leb. apply negb_true_iff.
  destruct (String.leb b a) eqn:Hba; [|done].
  exfalso. apply Hne. by apply String.leb_antisym.
Qed.

(** Cutting two strings to their first [n] characters keeps their order. *)
Lemma str_take_leb n : forall s t,
  String.leb s t = true ->
  String.leb (Py.str_take n s) (Py.str_take n t) = true.
Proof.
  unfold Py.str_take, String.leb.
  induction n as [|n IH]; intros s t.
  - by destruct s, t.
  - destruct s as [|a s], t as [|b t]; simpl; try done.
    destruct (Ascii.compare a b); [apply IH|done|done].
Qed.

Section JournalReview.
Import Py Journal JournalSpec.
Variable strptime_Ymd : string -> datetime.

Lemma review_dates_days now params n :
  ReviewInput.days params = Some n -> n <> 0 ->
  review_dates strptime_Ymd now params = window now n.
Proof.
  intros Hdays Hn. unfold review_dates, days_given. rewrite Hdays.
  by destruct (Z.eqb_spec n 0).
Qed.

Lemma window_ordinals now n :
  map ordinal (window now n) = map (fun i => ordinal now - i) (seqZ 0 n).
Proof. unfold window. by rewrite map_map. Qed.

Lemma collect_union dir dates :
  Forall (loads dir) dates -> collect dates dir = Return (union dir dates).
Proof.
  induction 1 as [|d dates [entries Hd] _ IH]; [done|].
  cbn [collect]. unfold union, entries_of in *. cbn [flat_map].
  rewrite Hd, IH. done.
Qed.

Lemma review_in_order (a b : stamped) :
  in_order String.ltb (fun e : stamped => Entry.timestamp e.2) true a b
  <-> review_order a b.
Proof.
  unfold in_order, precedes, stays_before, review_order.
  rewrite str_ltb_leb. apply negb_false_iff.
Qed.

Lemma review_same_rank (z m : stamped) :
  same_rank String.ltb (fun e : stamped => Entry.timestamp e.2) true z m
  = review_tie (Entry.timestamp z.2) m.
Proof.
  unfold same_rank, precedes, stays_before, review_tie.
  apply eq_true_iff_eq.
  rewrite andb_true_iff, !negb_true_iff, !str_ltb_leb, !negb_false_iff,
    String.eqb_eq.
  split.
  - intros [H1 H2]. by apply String.leb_antisym.
  - intros ->.
    by destruct (String.leb_total (Entry.timestamp z.2) (Entry.timestamp z.2)).
Qed.

Lemma review_sorted_perm all : review_sorted all ≡ₚ all.
Proof. apply sort_perm. Qed.

Lemma review_sorted_order all : StronglySorted review_order (review_sorted all).
Proof.
  eapply StronglySorted_weaken; [|apply sort_sorted].
  - intros a b. apply review_in_order.
  - apply str_ltb_asym.
  - apply str_ltb_negtrans.
Qed.

Lemma review_sorted_stable all ts :
  List.filter (review_tie ts) (review_sorted all)
  = List.filter (review_tie ts) all.
Proof.
  set (z := ("", {| Entry.id := ""; Entry.content := ""; Entry.type := "";
                    Entry.project := None; Entry.timestamp := ts |}) : stamped).
  unfold review_sorted.
  rewrite <- !(filter_ext _ _ (fun m => review_same_rank z m)).
  apply sort_stable, str_ltb_negtrans.
Qed.

(** *** Groups *)

Lemma groups_nil l : groups l = [] -> l = [].
Proof.
  destruct l as [|[d entry] rest]; [done|]. cbn [groups].
  destruct (groups rest) as [|[d' entries] gs]; [done|].
  by destruct (String.eqb d d').
Qed.

Lemma groups_flatten l :
  flat_map (fun g : string * list Entry.t => map (pair g.1) g.2) (groups l) = l.
Proof.
  induction l as [|[d entry] rest IH]; [done|].
  cbn [groups]. destruct (groups rest) as [|[d' entries] gs] eqn:Hg.
  - by rewrite (groups_nil rest Hg).
  - destruct (String.eqb_spec d d') as [->|Hne];
      cbn [flat_map fst snd map app] in *; by rewrite IH.
Qed.

Lemma groups_dates_subset l x :
  x ∈ map fst (groups l) -> x ∈ map fst l.
Proof.
  revert x. induction l as [|[d entry] rest IH]; intros x; [done|].
  cbn [groups]. destruct (groups rest) as [|[d' entries] gs].
  - cbn [map fst]. intros ->%list_elem_of_singleton. apply list_elem_of_here.
  - destruct (String.eqb_spec d d') as [->|Hne]; cbn [map fst].
    + intros [->|Hx]%elem_of_cons; [apply list_elem_of_here|].
      apply list_elem_of_further, IH. by apply list_elem_of_further.
    + intros [->|Hx]%elem_of_cons; [apply list_elem_of_here|].
      by apply list_elem_of_further, IH.
Qed.

Lemma groups_dates_descending l :
  StronglySorted (fun a b : stamped => String.leb b.1 a.1 = true) l ->
  StronglySorted later (map fst (groups l)).
Proof.
  induction 1 as [|[d entry] rest Hrest IH Hd]; [constructor|].
  assert (forall x, x ∈ map fst (groups rest) -> String.leb x d = true) as Hle.
  { intros x Hx%groups_dates_subset.
    apply list_elem_of_fmap in Hx as ([d1 e1] & -> & Hin).
    rewrite Forall_forall in Hd. by apply (Hd _ Hin). }
  cbn [groups]. destruct (groups rest) as [|[d' entries] gs].
  - repeat constructor.
  - cbn [map fst] in *. apply StronglySorted_inv in IH as [IHgs IHd'].
    destruct (String.eqb_spec d d') as [->|Hne]; cbn [map fst].
    + by constructor.
    + assert (later d d') as Hdd'.
      { apply str_ltb_of_leb_ne; [|done]. apply Hle, list_elem_of_here. }
      constructor; [by constructor|]. constructor; [done|].
      eapply Forall_impl; [exact IHd'|]. intros x Hx.
      unfold later in *. by eapply str_ltb_trans.
Qed.

Lemma review_body_groups l : forall current_date,
  Forall dated l ->
  review_body current_date l = Return (body_lines current_date l).
Proof.
  induction l as [|[d entry] rest IH]; intros cur Hl; [done|].
  apply Forall_cons in Hl as [[_ [text Htext]] Hrest]. cbn [snd] in Htext.
  cbn [review_body]. rewrite Htext. cbn [mbind outcome_bind].
  rewrite (IH (Some d) Hrest). cbn [mbind outcome_bind].
  unfold body_lines. cbn [groups].
  assert (entry_text entry = text) as Het by (unfold entry_text; by rewrite Htext).
  destruct (groups rest) as [|[d' entries] gs].
  - cbn [fst snd flat_map map]. rewrite Het.
    unfold group_lines. cbn [fst snd map]. rewrite Het.
    destruct (bool_decide (Some d = cur)); cbn [app]; by rewrite ?app_nil_r.
  - destruct (String.eqb_spec d d') as [->|Hne].
    + rewrite (bool_decide_eq_true_2 (Some d' = Some d')) by done.
      cbn [fst snd map]. rewrite Het.
      unfold group_lines. cbn [fst snd map]. rewrite Het.
      destruct (bool_decide (Some d' = cur)); cbn [app]; by rewrite ?app_nil_r.
    + rewrite (bool_decide_eq_false_2 (Some d' = Some d)) by congruence.
      cbn [fst snd flat_map map]. rewrite Het.
      change (group_lines (d, [entry]))
        with [nl +:+ "## " +:+ d +:+ nl; entry_text entry].
      rewrite Het.
      destruct (bool_decide (Some d = cur)); cbn [app]; by rewrite ?app_nil_r.
Qed.

Lemma sorted_dates_descending l :
  Forall dated l ->
  StronglySorted review_order l ->
  StronglySorted (fun a b : stamped => String.leb b.1 a.1 = true) l.
Proof.
  intros Hd. induction 1 as [|a l Hl IH Ha]; [constructor|].
  apply Forall_cons in Hd as [[Hda _] Hdl].
  constructor; [by apply IH|].
  rewrite Forall_forall in *. intros b Hb.
  destruct (Hdl b Hb) as [Hdb _]. rewrite <- Hda, <- Hdb.
  apply str_take_leb. by apply Ha.
Qed.

Lemma type_filter_dated entry_type l :
  Forall dated l -> Forall dated (type_filter entry_type l).
Proof.
  intros H. destruct entry_type as [t|]; [|done]. cbn [type_filter].
  rewrite Forall_forall in *. intros e He%list_elem_of_In.
  apply filter_In in He as [He _]. by apply H, list_elem_of_In.
Qed.

End JournalReview.

Section JournalReviewDays.
Import Py Journal JournalSpec.
Variable strptime_Ymd : string -> datetime.

(** With [days] given, the [date] parameter is not looked at. *)
Lemma review_days_ignores_date now params dir n date :
  ReviewInput.days params = Some n -> n <> 0 ->
  ea_review strptime_Ymd now (with_date date params) dir
  = ea_review strptime_Ymd now params dir.
Proof.
  intros Hdays Hn.
  unfold ea_review, first_date, review_dates, days_given, with_date.
  cbn [ReviewInput.days ReviewInput.date ReviewInput.entry_type].
  rewrite Hdays. by destruct (Z.eqb_spec n 0).
Qed.

(** The response of a review over a window whose files load and whose
    entries satisfy the data model's invariant. *)
Lemma review_days_response now params dir n :
  ReviewInput.days params = Some n -> n <> 0 ->
  Forall (loads dir) (window now n) ->
  Forall dated (union dir (window now n)) ->
  let all := type_filter (ReviewInput.entry_type params)
               (union dir (window now n)) in
  let sorted := review_sorted all in
  ea_review strptime_Ymd now params dir
  = Return
      (match union dir (window now n), ReviewInput.entry_type params, all with
       | [], _, _ => "No journal entries in the last " +:+ str n +:+ " days."
       | _, Some t, [] => "No " +:+ value t +:+ " entries found."
       | _, _, _ =>
           join nl
             ([ "# Journal - Last " +:+ str n +:+ " Days" +:+ nl;
                "**Total entries:** " +:+ str (Z.of_nat (length sorted)) +:+ nl;
                "---" +:+ nl ]
              ++ flat_map group_lines (groups sorted))
       end).
Proof.
  intros Hdays Hn Hloads Hdated all sorted.
  assert (days_given params = Some n) as Hgiven.
  { unfold days_given. rewrite Hdays. by destruct (Z.eqb_spec n 0). }
  unfold ea_review. rewrite (review_dates_days _ now params n Hdays Hn).
  rewrite (collect_union dir _ Hloads). cbn [mbind outcome_bind].
  rewrite Hgiven.
  destruct (union dir (window now n)) as [|e0 es] eqn:Hunion; [done|].
  fold all. fold sorted.
  assert (review_body None sorted = Return (flat_map group_lines (groups sorted)))
    as Hbody.
  { rewrite review_body_groups.
    - unfold body_lines. by destruct (groups sorted).
    - unfold sorted. rewrite review_sorted_perm. unfold all.
      by apply type_filter_dated. }
  rewrite Hbody. cbn [mbind outcome_bind].
  destruct (ReviewInput.entry_type params) as [t|]; [|done].
  by destruct all.
Qed.

(** C4.  A review with [days = n] (1..365), over a window whose files load
    and whose entries carry the date of their file in their timestamp:
    the days parameter decides the window, whatever the date parameter;
    the window is today, yesterday, ... back to [n - 1] days ago; the
    entries shown are all entries of those days' files (of the requested
    type, when a type filter is given), newest timestamp first; they stand
    in runs under one header per date, and the headers go from the latest
    date to the earliest. *)
Theorem review_days_window_newest_first
    (now : datetime) (params : ReviewInput.t) (dir : storage) (n : Z) :
  ReviewInput.days params = Some n ->
  1 <= n <= 365 ->
  Forall (loads dir) (window now n) ->
  Forall dated (union dir (window now n)) ->
  let all := type_filter (ReviewInput.entry_type params)
               (union dir (window now n)) in
  let sorted := review_sorted all in
  (review_dates strptime_Ymd now params = window now n /\
   forall date, ea_review strptime_Ymd now (with_date date params) dir
                = ea_review strptime_Ymd now params dir) /\
  map ordinal (window now n) = map (fun i => ordinal now - i) (seqZ 0 n) /\
  (sorted ≡ₚ all /\
   StronglySorted review_order sorted /\
   forall ts, List.filter (review_tie ts) sorted
              = List.filter (review_tie ts) all) /\
  (flat_map (fun g : string * list Entry.t => map (pair g.1) g.2) (groups sorted)
   = sorted /\
   StronglySorted later (map fst (groups sorted))) /\
  ea_review strptime_Ymd now params dir
  = Return
      (match union dir (window now n), ReviewInput.entry_type params, all with
       | [], _, _ => "No journal entries in the last " +:+ str n +:+ " days."
       | _, Some t, [] => "No " +:+ value t +:+ " entries found."
       | _, _, _ =>
           join nl
             ([ "# Journal - Last " +:+ str n +:+ " Days" +:+ nl;
                "**Total entries:** " +:+ str (Z.of_nat (length sorted)) +:+ nl;
                "---" +:+ nl ]
              ++ flat_map group_lines (groups sorted))
       end).
Proof.
  intros Hdays Hn Hloads Hdated all sorted.
  assert (n <> 0) as Hn0 by lia.
  split; [split|].
  - by apply review_dates_days.
  - intros date. by eapply review_days_ignores_date.
  - split; [apply window_ordinals|].
    split; [split; [apply review_sorted_perm|split;
                    [apply review_sorted_order|intros; apply review_sorted_stable]]|].
    split; [split; [apply groups_flatten|]|].
    + apply groups_dates_descending, sorted_dates_descending.
      * unfold sorted. rewrite review_sorted_perm.
        by apply type_filter_dated.
      * apply review_sorted_order.
    + by apply review_days_response.
Qed.
End JournalReviewDays.

Example review_scenario_headers :
  let sorted :=
    Journal.review_sorted
      (JournalSpec.union JournalSpec.Scenario.dir
         (JournalSpec.window JournalSpec.Scenario.today 3)) in
  map fst (JournalSpec.groups sorted) = ["2024-01-03"; "2024-01-02"; "2024-01-01"] /\
  map (fun e : Journal.stamped => Journal.Entry.content e.2) sorted
  = ["wrote the report"; "demo works"; "rate limit in tests"; "chose SQLite";
     "set up the repository"].
Proof. split; reflexivity. Qed.

Lemma review_days_window_newest_first_witness :
  let now := JournalSpec.Scenario.today in
  let params := JournalSpec.Scenario.last_days 3 in
  let dir := JournalSpec.Scenario.dir in
  let sorted :=
    Journal.review_sorted
      (Journal.type_filter (Journal.ReviewInput.entry_type params)
         (JournalSpec.union dir (JournalSpec.window now 3))) in
  (Journal.ReviewInput.days params = Some 3 /\
   1 <= 3 <= 365 /\
   Forall (JournalSpec.loads dir) (JournalSpec.window now 3) /\
   Forall JournalSpec.dated (JournalSpec.union dir (JournalSpec.window now 3))) /\
  Journal.review_dates JournalSpec.Scenario.strptime_Ymd now params
  = JournalSpec.window now 3 /\
  StronglySorted JournalSpec.review_order sorted /\
  StronglySorted JournalSpec.later (map fst (JournalSpec.groups sorted)).
Proof.
  intros now params dir sorted.
  assert (Journal.ReviewInput.days params = Some 3) as H1 by reflexivity.
  assert (1 <= 3 <= 365) as H2 by lia.
  assert (Forall (JournalSpec.loads dir) (JournalSpec.window now 3)) as H3.
  { repeat constructor; eexists; vm_compute; reflexivity. }
  assert (Forall JournalSpec.dated
            (JournalSpec.union dir (JournalSpec.window now 3))) as H4.
  { let u := eval vm_compute in
        (JournalSpec.union dir (JournalSpec.window now 3)) in
    change (Forall JournalSpec.dated u).
    repeat constructor; eexists; vm_compute; reflexivity. }
  split; [done|].
  destruct (review_days_window_newest_first JournalSpec.Scenario.strptime_Ymd
              now params dir 3 H1 H2 H3 H4)
    as ((Hdates & _) & _ & (_ & Hsorted & _) & (_ & Hheaders) & _).
  split; [exact Hdates|]. split; [exact Hsorted|exact Hheaders].
Defined.

(** *** Logged entries satisfy the invariant that the review relies on *)

Lemma substring_app_prefix s t :
  String.substring 0 (String.length s) (s +:+ t) = s.
Proof.
  induction s as [|a s IH]; simpl.
  - by destruct t.
  - change (String a s +:+ t) with (String a (s +:+ t)). simpl. by rewrite IH.
Qed.

Lemma split_nonempty sep s : Py.split sep s <> [].
Proof.
  destruct s as [|c s]; simpl; [done|].
  destruct (Ascii.eqb c sep); [done|]. by destruct (Py.split sep s).
Qed.

Lemma split_at_separator sep a b :
  exists x y l, Py.split sep (a +:+ String sep b) = x :: y :: l.
Proof.
  induction a as [|c a (x & y & l & IH)].
  - change ("" +:+ String sep b) with (String sep b). simpl.
    rewrite Ascii.eqb_refl.
    destruct (Py.split sep b) as [|y l] eqn:Hb; [by apply split_nonempty in Hb|].
    by exists "", y, l.
  - change (String c a +:+ String sep b) with (String c (a +:+ String sep b)).
    simpl. rewrite IH. destruct (Ascii.eqb c sep); eauto.
Qed.

Lemma new_entry_dated hash now params :
  String.length (Py.strftime_Ymd now) = 10%nat ->
  JournalSpec.dated (Py.strftime_Ymd now, Journal.new_entry hash now params).
Proof.
  intros Hlen. unfold JournalSpec.dated. cbn [fst snd]. split.
  - unfold Py.str_take. cbn [Journal.new_entry Journal.Entry.timestamp].
    unfold Py.isoformat. rewrite <- Hlen.
    apply substring_app_prefix.
  - unfold Journal.format_entry.
    cbn [Journal.new_entry Journal.Entry.timestamp].
    unfold Py.isoformat.
    change ("T" +:+ ?s) with (String "T" s).
    destruct (split_at_separator "T" (Py.strftime_Ymd now)
                (Py.format_0d 2 (Py.hour now) +:+ ":" +:+
                 (Py.format_0d 2 (Py.minute now) +:+ ":" +:+
                  (Py.format_0d 2 (Py.second now) +:+
                   ((if Py.microsecond now =? 0 then ""
                     else "." +:+ Py.format_0d 6 (Py.microsecond now))
                    +:+ "+00:00")))))
      as (x & y & l & ->).
    eauto.
Qed.

Lemma str_app_length a b :
  String.length (a +:+ b) = (String.length a + String.length b)%nat.
Proof.
  induction a as [|c a IH]; [done|].
  change (String c a +:+ b) with (String c (a +:+ b)). simpl. by rewrite IH.
Qed.

Lemma str_app_inv_tail a : forall b s, a +:+ s = b +:+ s -> a = b.
Proof.
  induction a as [|c a IH]; intros [|c' b] s H.
  - done.
  - apply (f_equal String.length) in H. rewrite !str_app_length in H.
    simpl in H. lia.
  - apply (f_equal String.length) in H. rewrite !str_app_length in H.
    simpl in H. lia.
  - change (String c (a +:+ s) = String c' (b +:+ s)) in H.
    injection H as -> H. f_equal. by eapply IH.
Qed.

Section JournalInvariant.
Import Py Journal JournalSpec.
Variable hash : string -> Z.

Lemma well_dated_empty : well_dated ∅.
Proof. intros name c H. by rewrite lookup_empty in H. Qed.

Lemma well_dated_loads dir d : well_dated dir -> loads dir d.
Proof.
  intros Hinv. unfold loads, load_journal.
  destruct (dir !! get_journal_file d) as [c|] eqn:Hc; [|by exists []].
  destruct (Hinv _ _ Hc) as (entries & -> & _). by exists entries.
Qed.

Lemma well_dated_log now params dir :
  String.length (strftime_Ymd now) = 10%nat ->
  well_dated dir -> well_dated (ea_log hash now params dir).2.
Proof.
  intros Hlen Hinv.
  destruct (well_dated_loads dir now Hinv) as [entries Hload].
  rewrite (log_step hash now params dir entries Hload). cbn [snd].
  intros name c Hc.
  destruct (decide (name = get_journal_file now)) as [->|Hne].
  - rewrite lookup_insert_eq in Hc. injection Hc as <-.
    eexists. split; [done|]. apply Forall_app. split.
    + unfold load_journal in Hload.
      destruct (dir !! get_journal_file now) as [c|] eqn:Hfile.
      * destruct (Hinv _ _ Hfile) as (entries' & -> & Hentries).
        cbn in Hload. by injection Hload as <-.
      * cbn in Hload. injection Hload as <-. constructor.
    + constructor; [|constructor].
      destruct (new_entry_dated hash now params Hlen) as [Hdate Htext].
      cbn [fst snd] in *. split; [|done].
      unfold get_journal_file. by rewrite Hdate.
  - rewrite lookup_insert_ne in Hc by done. by eapply Hinv.
Qed.

Lemma well_dated_run_logs calls : forall dir,
  Forall (fun c => String.length (strftime_Ymd c.1) = 10%nat) calls ->
  well_dated dir -> well_dated (run_logs hash calls dir).
Proof.
  induction calls as [|[now params] calls IH]; intros dir Hcalls Hinv; [done|].
  apply Forall_cons in Hcalls as [Hnow Hcalls]. cbn [run_logs].
  apply IH; [done|]. by apply well_dated_log.
Qed.

(** A storage that log calls have made meets what the review theorem asks
    of the window, whatever the window. *)
Lemma well_dated_reviewable dir dates :
  well_dated dir ->
  Forall (loads dir) dates /\ Forall dated (union dir dates).
Proof.
  intros Hinv. split.
  - apply Forall_forall. intros d _. by apply well_dated_loads.
  - unfold union. induction dates as [|d dates IH]; [constructor|].
    cbn [flat_map]. apply Forall_app. split; [|exact IH].
    unfold entries_of, load_journal.
    destruct (dir !! get_journal_file d) as [c|] eqn:Hc; [|constructor].
    destruct (Hinv _ _ Hc) as (entries & -> & Hentries). cbn.
    apply Forall_forall. intros e He%list_elem_of_In.
    apply in_map_iff in He as (entry & <- & Hin).
    rewrite Forall_forall in Hentries.
    destruct (Hentries entry) as [Hname Htext]; [by apply list_elem_of_In|].
    split; [|done]. cbn [fst snd].
    unfold get_journal_file in Hname. by apply str_app_inv_tail in Hname.
Qed.
End JournalInvariant.

(** ** Dates of four-digit years print on ten characters *)

Lemma ord2ymd_range n :
  364878 <= n <= 3652059 ->
  1000 <= (Py.ord2ymd n).1.1 <= 9999 /\
  1 <= (Py.ord2ymd n).1.2 <= 12 /\
  1 <= (Py.ord2ymd n).2 <= 31.
Proof.
  intros Hn. unfold Py.ord2ymd, Py.DI400Y, Py.DI100Y, Py.DI4Y.
  rewrite Z.shiftr_div_pow2 by lia. change (2 ^ 5) with 32.
  set (n0 := n - 1).
  set (n400 := n0 / 146097). set (r1 := n0 mod 146097).
  set (n100 := r1 / 36524). set (r2 := r1 mod 36524).
  set (n4 := r2 / 1461). set (r3 := r2 mod 1461).
  set (n1 := r3 / 365). set (r4 := r3 mod 365).
  set (month := (r4 + 50) / 32).
  assert (n0 = 146097 * n400 + r1 /\ 0 <= r1 < 146097) as [E1 B1]
    by (subst n400 r1; split; [apply Z.div_mod; lia|apply Z.mod_pos_bound; lia]).
  assert (r1 = 36524 * n100 + r2 /\ 0 <= r2 < 36524) as [E2 B2]
    by (subst n100 r2; split; [apply Z.div_mod; lia|apply Z.mod_pos_bound; lia]).
  assert (r2 = 1461 * n4 + r3 /\ 0 <= r3 < 1461) as [E3 B3]
    by (subst n4 r3; split; [apply Z.div_mod; lia|apply Z.mod_pos_bound; lia]).
  assert (r3 = 365 * n1 + r4 /\ 0 <= r4 < 365) as [E4 B4]
    by (subst n1 r4; split; [apply Z.div_mod; lia|apply Z.mod_pos_bound; lia]).
  assert (r4 + 50 = 32 * month + (r4 + 50) mod 32 /\ 0 <= (r4 + 50) mod 32 < 32)
    as [E5 B5]
    by (subst month; split; [apply Z.div_mod; lia|apply Z.mod_pos_bound; lia]).
  clearbody n400 r1 n100 r2 n4 r3 n1 r4 month. subst n0.
  destruct (Z.eqb_spec n1 4) as [Hn1|Hn1]; cbn [orb].
  { cbn [fst snd]. lia. }
  destruct (Z.eqb_spec n100 4) as [Hn100|Hn100].
  { cbn [fst snd]. lia. }
  assert (month = 1 \/ month = 2 \/ month = 3 \/ month = 4 \/ month = 5 \/
          month = 6 \/ month = 7 \/ month = 8 \/ month = 9 \/ month = 10 \/
          month = 11 \/ month = 12) as Hm by lia.
  destruct Hm as [->|[->|[->|[->|[->|[->|[->|[->|[->|[->|[->| ->]]]]]]]]]]];
    cbn [Py.DAYS_BEFORE_MONTH Py.DAYS_IN_MONTH Z.ltb Z.eqb Z.compare
         Pos.compare Pos.compare_cont Pos.eqb andb Z.sub Z.add Z.opp
         Z.pos_sub Pos.pred_double Z.succ_double Z.pred_double Z.double];
    destruct (Z.eqb_spec n1 3); destruct (Z.eqb_spec n4 24);
    destruct (Z.eqb_spec n100 3); cbn [andb orb negb];
    repeat match goal with
           | |- context [?a <? ?b] => destruct (Z.ltb_spec a b)
           end; cbn [fst snd];
    repeat match goal with
           | |- context [Py.DAYS_IN_MONTH ?x] =>
               let v := eval vm_compute in (Py.DAYS_IN_MONTH x) in
               change (Py.DAYS_IN_MONTH x) with v
           | |- context [?a - 1 =? 2] =>
               let v := eval vm_compute in (a - 1 =? 2) in
               change (a - 1 =? 2) with v
           end; cbn [andb]; lia.
Qed.

Lemma format_0d_4_length y :
  1000 <= y <= 9999 -> String.length (Py.format_0d 4 y) = 4%nat.
Proof.
  intros Hy.
  assert (forallb (fun y => Nat.eqb (String.length (Py.format_0d 4 y)) 4)
            (seqZ 1000 9000) = true) as Hall by (vm_compute; reflexivity).
  rewrite forallb_forall in Hall. apply Nat.eqb_eq, Hall.
  apply list_elem_of_In, elem_of_seqZ. lia.
Qed.

Lemma format_0d_2_length m :
  1 <= m <= 31 -> String.length (Py.format_0d 2 m) = 2%nat.
Proof.
  intros Hm.
  assert (forallb (fun m => Nat.eqb (String.length (Py.format_0d 2 m)) 2)
            (seqZ 1 31) = true) as Hall by (vm_compute; reflexivity).
  rewrite forallb_forall in Hall. apply Nat.eqb_eq, Hall.
  apply list_elem_of_In, elem_of_seqZ. lia.
Qed.

(** From 1000-01-01 to 9999-12-31 a date prints as [YYYY-MM-DD]. *)
Lemma strftime_Ymd_length d :
  364878 <= Py.ordinal d <= 3652059 ->
  String.length (Py.strftime_Ymd d) = 10%nat.
Proof.
  intros Hd. unfold Py.strftime_Ymd.
  destruct (ord2ymd_range _ Hd) as (Hy & Hm & Hdd).
  destruct (Py.ord2ymd (Py.ordinal d)) as [[y m] dd]. cbn [fst snd] in *.
  rewrite !str_app_length, format_0d_4_length, !format_0d_2_length by lia.
  reflexivity.
Qed.

(** Whatever is logged, at times from year 1000 to year 9999, into an empty
    storage, the storage is well dated: a review over it meets what the
    review theorem asks of its window. *)
Lemma logged_storage_reviewable hash calls dates :
  Forall (fun c : Py.datetime * Journal.LogInput.t =>
            364878 <= Py.ordinal c.1 <= 3652059) calls ->
  let dir := JournalSpec.run_logs hash calls ∅ in
  Forall (JournalSpec.loads dir) dates /\
  Forall JournalSpec.dated (JournalSpec.union dir dates).
Proof.
  intros Hcalls dir. apply well_dated_reviewable.
  apply well_dated_run_logs; [|apply well_dated_empty].
  eapply Forall_impl; [exact Hcalls|].
  intros c Hc. by apply strftime_Ymd_length.
Qed.

(* ===================================================================== *)
(** ** Further properties: text helpers                                   *)
(* ===================================================================== *)

Lemma str_map_length f s : String.length (Py.str_map f s) = String.length s.
Proof. induction s as [|c s IH]; simpl; [done|by rewrite IH]. Qed.

Lemma str_map_empty f s : Py.str_map f s = "" <-> s = "".
Proof. by destruct s. Qed.

Lemma lower_char_idemp c : Py.lower_char (Py.lower_char c) = Py.lower_char c.
Proof. by destruct c as [[] [] [] [] [] [] [] []]. Qed.

Lemma lower_char_space c : Py.is_space (Py.lower_char c) = Py.is_space c.
Proof. by destruct c as [[] [] [] [] [] [] [] []]. Qed.

Lemma lower_char_comma c : Py.lower_char c = ","%char -> c = ","%char.
Proof. by destruct c as [[] [] [] [] [] [] [] []]. Qed.

Lemma lower_idemp s : Py.lower (Py.lower s) = Py.lower s.
Proof.
  unfold Py.lower. induction s as [|c s IH]; simpl; [done|].
  by rewrite lower_char_idemp, IH.
Qed.

(** [c in s] for a character, as membership in the characters of [s] *)
Lemma str_in_char c s :
  Py.str_in (String c "") s = true <-> In c (list_ascii_of_string s).
Proof.
  induction s as [|a s IH]; simpl.
  - split; [done|intros []].
  - rewrite orb_true_iff, IH. split.
    + intros [H|H]; [|by right]. left.
      destruct (Ascii.ascii_dec c a) as [->|]; [done|].
      by destruct s.
    + intros [->|H]; [|by right]. left.
      destruct (Ascii.ascii_dec c c); [|done]. by destruct s.
Qed.

Lemma str_in_char_false c s :
  Py.str_in (String c "") s = false <-> ~ In c (list_ascii_of_string s).
Proof. rewrite <- str_in_char. by destruct (Py.str_in _ _). Qed.

Lemma lstrip_chars s c :
  In c (list_ascii_of_string (Py.lstrip s)) -> In c (list_ascii_of_string s).
Proof.
  induction s as [|a s IH]; simpl; [done|].
  destruct (Py.is_space a); [by right; apply IH|done].
Qed.

Lemma rstrip_chars s c :
  In c (list_ascii_of_string (Py.rstrip s)) -> In c (list_ascii_of_string s).
Proof.
  induction s as [|a s IH]; simpl; [done|].
  destruct (Py.rstrip s) as [|b r].
  - destruct (Py.is_space a); simpl; [done|]. intros [->|[]]. by left.
  - simpl in *. intros [->|H]; [by left|right; by apply IH].
Qed.

Lemma strip_chars s c :
  In c (list_ascii_of_string (Py.strip s)) -> In c (list_ascii_of_string s).
Proof. intros H. by apply rstrip_chars, lstrip_chars. Qed.

Lemma str_map_chars f s :
  list_ascii_of_string (Py.str_map f s) = map f (list_ascii_of_string s).
Proof. induction s as [|a s IH]; simpl; [done|by rewrite IH]. Qed.

Lemma split_chars sep s w :
  In w (Py.split sep s) -> ~ In sep (list_ascii_of_string w).
Proof.
  revert w. induction s as [|a s IH]; simpl; intros w.
  - intros [<-|[]]. by intros [].
  - destruct (Ascii.eqb_spec a sep) as [->|Hne].
    + intros [<-|H]; [by intros []|by apply IH].
    + destruct (Py.split sep s) as [|x xs]; simpl.
      * intros [<-|[]]. simpl. by intros [->|[]].
      * intros [<-|H]; [|apply IH; by right].
        simpl. intros [->|H]; [done|]. by apply (IH x); [left|].
Qed.

(** *** Stripping *)

Lemma lstrip_idemp s : Py.lstrip (Py.lstrip s) = Py.lstrip s.
Proof.
  induction s as [|a s IH]; simpl; [done|].
  destruct (Py.is_space a) eqn:Ha; [done|]. simpl. by rewrite Ha.
Qed.

Lemma rstrip_idemp s : Py.rstrip (Py.rstrip s) = Py.rstrip s.
Proof.
  induction s as [|a s IH]; simpl; [done|].
  destruct (Py.rstrip s) as [|b r] eqn:Hr.
  - destruct (Py.is_space a) eqn:Ha; simpl; [done|]. by rewrite Ha.
  - simpl in *. by rewrite IH.
Qed.

Lemma rstrip_tail a s :
  Py.rstrip (String a s) = String a s -> Py.rstrip s = s.
Proof.
  simpl. destruct (Py.rstrip s) as [|b r].
  - destruct (Py.is_space a); [done|]. by intros [= <-].
  - by intros [= <-].
Qed.

Lemma rstrip_lstrip s :
  Py.rstrip s = s -> Py.rstrip (Py.lstrip s) = Py.lstrip s.
Proof.
  induction s as [|a s IH]; [done|]. intros H. cbn [Py.lstrip].
  destruct (Py.is_space a); [|done]. by apply IH, (rstrip_tail a).
Qed.

Lemma strip_idemp s : Py.strip (Py.strip s) = Py.strip s.
Proof.
  unfold Py.strip. rewrite rstrip_lstrip by apply rstrip_idemp.
  apply lstrip_idemp.
Qed.

Lemma lstrip_lower s : Py.lstrip (Py.lower s) = Py.lower (Py.lstrip s).
Proof.
  unfold Py.lower. induction s as [|a s IH]; simpl; [done|].
  rewrite lower_char_space. by destruct (Py.is_space a).
Qed.

Lemma rstrip_lower s : Py.rstrip (Py.lower s) = Py.lower (Py.rstrip s).
Proof.
  unfold Py.lower. induction s as [|a s IH]; simpl; [done|].
  rewrite IH, lower_char_space.
  destruct (Py.rstrip s); simpl; [|done]. by destruct (Py.is_space a).
Qed.

Lemma strip_lower s : Py.strip (Py.lower s) = Py.lower (Py.strip s).
Proof. unfold Py.strip. by rewrite rstrip_lower, lstrip_lower. Qed.

Lemma truthy_nonempty s : Py.truthy s = true <-> s <> "".
Proof.
  unfold Py.truthy. rewrite negb_true_iff.
  split; [by intros H%String.eqb_neq|by intros H%String.eqb_neq].
Qed.

Section MemoryTags.
Import Py Memory.

(** X1.  Every tag that [parse_tags] returns is a non-empty text without a
    comma that stripping and lowercasing leave as it is. *)
Theorem parse_tags_clean (tags_str : option string) (t : string) :
  In t (parse_tags tags_str) ->
  t <> "" /\ str_in "," t = false /\ strip t = t /\ lower t = t.
Proof.
  unfold parse_tags. destruct tags_str as [s|]; [|done].
  destruct (truthy s); [|done]. cbn [negb].
  intros (w & <- & Hw)%in_map_iff. apply filter_In in Hw as [Hw Hne].
  apply truthy_nonempty in Hne.
  split; [|split; [|split]].
  - unfold lower. by rewrite str_map_empty.
  - apply str_in_char_false. unfold lower. rewrite str_map_chars.
    intros (c & Hc%lower_char_comma & Hin)%in_map_iff. subst c.
    apply strip_chars in Hin. by apply (split_chars _ _ _ Hw).
  - by rewrite strip_lower, strip_idemp.
  - apply lower_idemp.
Qed.
End MemoryTags.

Lemma parse_tags_clean_witness :
  In "bugfix" (Memory.parse_tags (Some "Python , BugFix,,api ")) /\
  "bugfix" <> "" /\ Py.str_in "," "bugfix" = false /\
  Py.strip "bugfix" = "bugfix" /\ Py.lower "bugfix" = "bugfix".
Proof.
  assert (In "bugfix" (Memory.parse_tags (Some "Python , BugFix,,api "))) as H
    by (right; left; reflexivity).
  split; [exact H|].
  exact (parse_tags_clean (Some "Python , BugFix,,api ") "bugfix" H).
Defined.

(** ** Further properties: filtering and sorting commute *)

Section SortFilter.
Context {A K : Type}.
Variable lt : K -> K -> bool.
Variable key : A -> K.
Variable reverse : bool.
Hypothesis lt_asym : forall a b, lt a b = true -> lt b a = false.
Hypothesis lt_negtrans :
  forall a b c, lt a b = false -> lt b c = false -> lt a c = false.

Local Abbreviation in_order := (Py.in_order lt key reverse).

Lemma sort_insert_first x l :
  Forall (fun y => Py.stays_before lt key reverse y x = false) l ->
  Py.sort_insert lt key reverse x l = x :: l.
Proof. destruct 1 as [|y l Hy _]; simpl; [done|by rewrite Hy]. Qed.

Lemma filter_sort_insert (p : A -> bool) x l :
  StronglySorted in_order l ->
  List.filter p (Py.sort_insert lt key reverse x l)
  = if p x then Py.sort_insert lt key reverse x (List.filter p l)
    else List.filter p l.
Proof using lt_negtrans.
  induction 1 as [|y l Hl IH Hy]; simpl.
  - by destruct (p x).
  - destruct (Py.stays_before lt key reverse y x) eqn:Hyx.
    + cbn [List.filter]. rewrite IH.
      destruct (p y), (p x); simpl; by rewrite ?Hyx.
    + cbn [List.filter].
      destruct (p x); [|done]. f_equal.
      rewrite sort_insert_first; [done|].
      apply Forall_forall. intros z Hz%list_elem_of_In.
      assert (In z (y :: l)) as [<-|Hzl].
      { destruct (p y); [|by right; apply filter_In in Hz as [? _]].
        destruct Hz as [<-|Hz]; [by left|right].
        by apply filter_In in Hz as [? _]. }
      * done.
      * rewrite Forall_forall in Hy.
        pose proof (Hy z (proj2 (list_elem_of_In _ _) Hzl)) as Hyz.
        unfold Py.in_order, Py.precedes in Hyz.
        fold (Py.precedes lt key reverse z x).
        fold (Py.precedes lt key reverse y x) in Hyx.
        fold (Py.precedes lt key reverse z y) in Hyz.
        exact (precedes_negtrans lt key reverse lt_negtrans _ _ _ Hyz Hyx).
Qed.

(** Sorting what a filter keeps is filtering what the sort gives. *)
Lemma sort_filter (p : A -> bool) l :
  Py.sort lt key reverse (List.filter p l)
  = List.filter p (Py.sort lt key reverse l).
Proof using lt_asym lt_negtrans.
  induction l as [|x l IH]; [done|].
  cbn [Py.sort List.filter].
  rewrite filter_sort_insert by (by apply sort_sorted).
  destruct (p x); [|done]. cbn [Py.sort]. by rewrite IH.
Qed.
End SortFilter.

Lemma filter_andb {A} (p q : A -> bool) l :
  List.filter (fun x => p x && q x) l = List.filter q (List.filter p l).
Proof.
  induction l as [|x l IH]; [done|]. simpl.
  destruct (p x); simpl; [|done]. destruct (q x); by rewrite IH.
Qed.

Lemma filter_none {A} (p : A -> bool) l :
  (forall x, In x l -> p x = false) -> List.filter p l = [].
Proof.
  induction l as [|x l IH]; [done|]. intros H. simpl.
  rewrite (H x) by (by left). apply IH. intros y Hy. apply H. by right.
Qed.

Lemma lstrip_all_space s :
  Forall (fun c => Py.is_space c = true) (list_ascii_of_string s) ->
  Py.lstrip s = "".
Proof.
  induction s as [|a s IH]; simpl; [done|].
  intros [Ha Hs]%Forall_cons. rewrite Ha. by apply IH.
Qed.

Lemma strip_all_space s :
  Forall (fun c => Py.is_space c = true) (list_ascii_of_string s) ->
  Py.strip s = "".
Proof.
  intros H. unfold Py.strip. apply lstrip_all_space.
  apply Forall_forall. intros c Hc%list_elem_of_In%rstrip_chars.
  rewrite Forall_forall in H. by apply H, list_elem_of_In.
Qed.

Lemma split_chars_of sep s w c :
  In w (Py.split sep s) -> In c (list_ascii_of_string w) ->
  In c (list_ascii_of_string s).
Proof.
  revert w. induction s as [|a s IH]; simpl; intros w.
  - by intros [<-|[]].
  - destruct (Ascii.eqb_spec a sep) as [->|Hne].
    + intros [<-|H] Hc; [done|]. right. by eapply IH.
    + destruct (Py.split sep s) as [|x xs]; simpl.
      * intros [<-|[]]. simpl. intros [->|[]]. by left.
      * intros [<-|H]; simpl.
        -- intros [->|Hc]; [by left|]. right. apply (IH x); [by left|done].
        -- intros Hc. right. apply (IH w); [by right|done].
Qed.

Section MemoryTagFilter.
Import Py Memory MemoryMore.

Lemma parse_tags_blank s :
  Forall (fun c => c = ","%char \/ is_space c = true) (list_ascii_of_string s) ->
  parse_tags (Some s) = [].
Proof.
  intros Hs. unfold parse_tags. destruct (truthy s); [|done]. cbn [negb].
  rewrite filter_none; [done|]. intros w Hw.
  rewrite strip_all_space; [done|].
  apply Forall_forall. intros c Hc%list_elem_of_In.
  rewrite Forall_forall in Hs.
  destruct (Hs c) as [->|Hsp]; [|by destruct (split_chars _ _ _ Hw)|done].
  apply list_elem_of_In. by eapply split_chars_of.
Qed.

(** X2.  A tag filter made of nothing but commas and whitespace filters
    nothing: recall and list select and order the memories as without any
    tag filter. *)
Theorem blank_tag_filter_is_no_filter
    (s query : string) (limit offset : option Z) (memories : list Mem.t) :
  Forall (fun c => c = ","%char \/ is_space c = true) (list_ascii_of_string s) ->
  recall_results (recall_call query (Some s) limit) memories
  = recall_results (recall_call query None limit) memories /\
  list_page {| ListInput.tags := Some s; ListInput.limit := limit;
               ListInput.offset := offset |} memories
  = list_page {| ListInput.tags := None; ListInput.limit := limit;
                 ListInput.offset := offset |} memories.
Proof.
  intros Hs.
  unfold recall_results, recall_sorted, list_page, list_sorted, recall_call.
  cbn [RecallInput.tags RecallInput.query RecallInput.limit
       ListInput.tags ListInput.limit ListInput.offset].
  by rewrite (parse_tags_blank s Hs).
Qed.

(** X3.  A tag filter only removes results: the recall (and the list) with
    a tag filter is the recall (the list) without it, in the same order,
    with the memories that share no tag with the filter left out. *)
Theorem tag_filter_only_removes
    (query : string) (tags : option string) (memories : list Mem.t) :
  recall_sorted (recall_call query tags None) memories
  = List.filter (tags_match (parse_tags tags))
      (recall_sorted (recall_call query None None) memories) /\
  list_sorted {| ListInput.tags := tags; ListInput.limit := None;
                 ListInput.offset := None |} memories
  = List.filter (tags_match (parse_tags tags))
      (list_sorted {| ListInput.tags := None; ListInput.limit := None;
                      ListInput.offset := None |} memories).
Proof.
  unfold recall_sorted, list_sorted, recall_call.
  cbn [RecallInput.tags RecallInput.query ListInput.tags parse_tags].
  split.
  - rewrite <- (sort_filter pair_lt recall_key false
                  pair_lt_asym pair_lt_negtrans).
    f_equal. unfold recall_match.
    rewrite filter_andb. f_equal.
    apply filter_ext. intros m. cbn [tags_match]. by rewrite andb_true_r.
  - rewrite <- (sort_filter String.ltb Mem.created_at true
                  str_ltb_asym str_ltb_negtrans).
    f_equal. symmetry.
    rewrite (filter_ext (tags_match []) (fun _ => true)) by done.
    f_equal. by apply forallb_filter_id, forallb_forall.
Qed.
End MemoryTagFilter.

Lemma blank_tag_filter_is_no_filter_witness :
  Forall (fun c => c = ","%char \/ Py.is_space c = true)
    (list_ascii_of_string " , ,") /\
  Memory.recall_results (MemoryMore.recall_call "x" (Some " , ,") (Some 10))
    (Memory.Store.memories MemorySpec.RecallScenario.data)
  = Memory.recall_results (MemoryMore.recall_call "x" None (Some 10))
      (Memory.Store.memories MemorySpec.RecallScenario.data).
Proof.
  assert (Forall (fun c => c = ","%char \/ Py.is_space c = true)
            (list_ascii_of_string " , ,")) as H.
  { repeat constructor; (by left) || (by right). }
  split; [exact H|].
  exact (proj1 (blank_tag_filter_is_no_filter " , ," "x" (Some 10) None _ H)).
Defined.

(** ** Further properties: ea-memory *)

Lemma prefix_refl s : String.prefix s s = true.
Proof.
  induction s as [|a s IH]; simpl; [done|].
  by destruct (Ascii.ascii_dec a a).
Qed.

Lemma str_in_refl s : Py.str_in s s = true.
Proof. destruct s; cbn [Py.str_in]; [done|]. by rewrite prefix_refl. Qed.

Section MemoryRoundTrips.
Import Py Memory MemorySpec MemoryMore.

(** X4.  What is remembered is recalled: after a remember call, a recall
    whose query is the remembered content (no tag filter, no limit) lists
    the new memory, which carries the content, the parsed tags and the
    importance of the call (50 when none was given). *)
Theorem remember_then_recall
    (now : datetime) (params : RememberInput.t)
    (storage : file Store.t) (data : Store.t) :
  load_memories storage = Return data ->
  exists (memory : Mem.t) (data' : Store.t),
    load_memories (ea_remember now params storage).2 = Return data' /\
    Mem.content memory = RememberInput.content params /\
    Mem.tags memory = parse_tags (RememberInput.tags params) /\
    Mem.importance memory
    = match RememberInput.importance params with
      | Some i => if i =? 0 then 50 else i
      | None => 50
      end /\
    let recall := recall_call (RememberInput.content params) None None in
    In memory (recall_results recall (Store.memories data')) /\
    ea_recall recall (ea_remember now params storage).2
    = Return (recall_report
                (Z.of_nat (length (recall_sorted recall (Store.memories data'))))
                (recall_results recall (Store.memories data'))).
Proof.
  intros Hload.
  destruct (remember_step now params storage data Hload) as [_ Hstep].
  exists (new_memory now params data).1. eexists.
  rewrite Hstep. cbn [snd]. split; [apply load_saved|].
  split; [done|]. split; [done|]. split; [done|].
  set (recall := recall_call (RememberInput.content params) None None).
  cbn [Store.memories].
  assert (In (new_memory now params data).1
            (recall_results recall
               (Store.memories data ++ [(new_memory now params data).1])))
    as Hin.
  { unfold recall_results, recall. cbn [recall_call RecallInput.limit].
    rewrite slice_all. apply list_elem_of_In.
    rewrite recall_sorted_perm. apply list_elem_of_In, filter_In. split.
    - apply in_or_app. right. by left.
    - unfold recall_match. cbn [recall_call RecallInput.query RecallInput.tags].
      cbn [parse_tags tags_match new_memory generate_id fst Mem.content].
      by rewrite str_in_refl. }
  split; [exact Hin|].
  unfold ea_recall. rewrite load_saved. cbn [mbind outcome_bind Store.memories].
  destruct (Store.memories data ++ [(new_memory now params data).1]) eqn:Hm.
  { by destruct (Store.memories data). }
  rewrite <- Hm in *. clear Hm.
  by destruct (recall_results recall _).
Qed.

(** the ids of a store that loads, and how calls change them *)
Lemma run_stored_ids calls : forall storage data,
  load_memories storage = Return data ->
  1 <= Store.next_id data ->
  sublist (map Mem.id (Store.memories data))
    (map mem_id (seqZ 1 (Store.next_id data - 1))) ->
  exists data',
    load_memories (run calls storage) = Return data' /\
    1 <= Store.next_id data' /\
    sublist (map Mem.id (Store.memories data'))
      (map mem_id (seqZ 1 (Store.next_id data' - 1))).
Proof.
  induction calls as [|c calls IH]; intros storage data Hload Hpos Hsub.
  - by exists data.
  - cbn [run]. destruct c as [now params|params]; cbn [step].
    + destruct (remember_step now params storage data Hload) as [Hid Hstep].
      rewrite Hstep. cbn [snd]. eapply IH; [apply load_saved| |];
        cbn [Store.next_id Store.memories]; [lia|].
      rewrite map_app. cbn [map]. rewrite Hid.
      replace (Store.next_id data + 1 - 1)
        with ((Store.next_id data - 1) + 1) by lia.
      rewrite seqZ_app by lia. rewrite map_app.
      apply sublist_app; [done|].
      replace (1 + (Store.next_id data - 1)) with (Store.next_id data) by lia.
      done.
    + destruct (forget_step params storage data Hload)
        as (data1 & Hload1 & Hnext1 & Hsub1).
      eapply IH; [exact Hload1|lia|]. rewrite Hnext1.
      etrans; [|exact Hsub].
      change (map Mem.id ?l) with (Mem.id <$> l).
      by apply fmap_sublist.
Qed.

(** X5.  In every store reached from a fresh one by remember and forget
    calls, the stored ids are among the assigned ids, in the order in which
    they were assigned, and no two stored memories share an id. *)
Theorem stored_ids_in_creation_order (calls : list call) :
  exists data,
    load_memories (run calls None) = Return data /\
    sublist (map Mem.id (Store.memories data)) (assigned_ids calls None) /\
    NoDup (map Mem.id (Store.memories data)).
Proof.
  destruct (run_stored_ids calls None empty_store load_fresh)
    as (data & Hload & Hpos & Hsub); [done|done|].
  assert (ids_below_counter empty_store) as Hinv by constructor.
  destruct (run_from_invariant calls None empty_store load_fresh Hinv)
    as (Hids & data' & Hload' & Hnext & _).
  rewrite Hload in Hload'. injection Hload' as <-.
  cbn [empty_store Store.next_id] in Hnext, Hids.
  exists data. split; [done|].
  assert (sublist (map Mem.id (Store.memories data)) (assigned_ids calls None))
    as Hsub'.
  { rewrite Hids. replace (Z.of_nat (length (List.filter is_remember calls)))
      with (Store.next_id data - 1) by lia. done. }
  split; [exact Hsub'|].
  eapply sublist_NoDup; [|exact Hsub'].
  rewrite Hids. apply NoDup_fmap_2; [|apply NoDup_seqZ].
  intros a b. apply mem_id_inj.
Qed.

Lemma forget_absent memory_id storage data :
  load_memories storage = Return data ->
  ~ In memory_id (map Mem.id (Store.memories data)) ->
  ea_forget {| ForgetInput.memory_id := memory_id;
               ForgetInput.confirm := true |} storage
  = (Return ("Memory not found: " +:+ memory_id
             +:+ ". Use ea_list to see available memory IDs."),
     storage).
Proof.
  intros Hload Hnone. unfold ea_forget. cbn [ForgetInput.confirm negb].
  rewrite Hload. cbn [ForgetInput.memory_id].
  destruct (list_find (has_id memory_id) (Store.memories data))
    as [[i removed]|] eqn:Hfind; [|done].
  exfalso. apply list_find_Some in Hfind as (Hi & Hid & _).
  apply Hnone, in_map_iff. exists removed. split; [exact Hid|].
  by eapply list_elem_of_In, list_elem_of_lookup_2.
Qed.

(** X6.  Forgetting a memory right after remembering it gives back the
    stored memories as they were, but not the counter: the id is spent. *)
Theorem remember_then_forget
    (now : datetime) (params : RememberInput.t)
    (storage : file Store.t) (data : Store.t) :
  load_memories storage = Return data ->
  ids_below_counter data ->
  exists removed : Mem.t,
    Mem.content removed = RememberInput.content params /\
    ea_forget {| ForgetInput.memory_id := mem_id (Store.next_id data);
                 ForgetInput.confirm := true |}
      (ea_remember now params storage).2
    = (Return (forgotten (mem_id (Store.next_id data)) removed),
       save_memories {| Store.memories := Store.memories data;
                        Store.next_id := Store.next_id data + 1 |}).
Proof.
  intros Hload Hinv.
  destruct (remember_step now params storage data Hload) as [Hid Hstep].
  set (memory := (new_memory now params data).1) in *.
  rewrite Hstep. cbn [snd]. exists memory. split; [done|].
  destruct (forget_found (mem_id (Store.next_id data))
              (save_memories {| Store.memories := Store.memories data ++ [memory];
                                Store.next_id := Store.next_id data + 1 |})
              _ (load_saved _))
    as (before & removed & after & Hsplit & Hrid & Hbefore & Hcall).
  { cbn [Store.memories]. apply Exists_app. right. by constructor. }
  cbn [Store.memories Store.next_id] in Hsplit, Hcall.
  assert (after = [] /\ before = Store.memories data /\ removed = memory)
    as (-> & -> & ->).
  { destruct after as [|x after] using rev_ind.
    - apply app_inj_tail in Hsplit as [<- <-]. done.
    - exfalso. clear IHafter.
      rewrite app_comm_cons, app_assoc in Hsplit.
      apply app_inj_tail in Hsplit as [Hsplit _].
      unfold ids_below_counter in Hinv. rewrite Hsplit in Hinv.
      apply Forall_app in Hinv as [_ Hinv].
      apply Forall_cons in Hinv as [(k & Hk & Hlt) _].
      rewrite Hrid, id_number_mem_id in Hk. injection Hk as <-. lia. }
  rewrite Hcall. by rewrite app_nil_r.
Qed.

(** X7.  Forgetting is idempotent on a store whose ids are distinct: a
    second confirmed forget of the same id finds nothing and leaves the
    storage as the first one left it. *)
Theorem forget_twice
    (storage : file Store.t) (data : Store.t) (memory_id : string) :
  load_memories storage = Return data ->
  NoDup (map Mem.id (Store.memories data)) ->
  let forget := {| ForgetInput.memory_id := memory_id;
                   ForgetInput.confirm := true |} in
  ea_forget forget (ea_forget forget storage).2
  = (Return ("Memory not found: " +:+ memory_id
             +:+ ". Use ea_list to see available memory IDs."),
     (ea_forget forget storage).2).
Proof.
  intros Hload Hnodup forget.
  destruct (in_dec string_dec memory_id (map Mem.id (Store.memories data)))
    as [Hin|Hout].
  - destruct (forget_found memory_id storage data Hload)
      as (before & removed & after & Hsplit & Hrid & Hbefore & Hcall).
    { apply Exists_exists. apply in_map_iff in Hin as (m & Hm & Hin).
      exists m. split; [by apply list_elem_of_In|exact Hm]. }
    unfold forget. rewrite Hcall. cbn [snd].
    apply forget_absent with (data := {| Store.memories := before ++ after;
                                         Store.next_id := Store.next_id data |});
      [apply load_saved|].
    cbn [Store.memories]. rewrite Hsplit in Hnodup.
    rewrite map_app in Hnodup |- *. cbn [map] in Hnodup.
    apply NoDup_app in Hnodup as (_ & Hdis & Hafter).
    apply NoDup_cons in Hafter as [Hnot _].
    intros [Hb|Ha]%in_app_or.
    + apply (Hdis memory_id); [by apply list_elem_of_In|].
      rewrite <- Hrid. apply list_elem_of_here.
    + apply Hnot. rewrite Hrid. by apply list_elem_of_In.
  - unfold forget. rewrite (forget_absent memory_id storage data Hload Hout).
    cbn [snd]. by apply (forget_absent memory_id storage data).
Qed.

(** X8.  A list call whose limit or offset is null raises [TypeError] as
    soon as the store holds a memory: the slice adds the two.  (A recall
    with a null limit returns every match, and on an empty store the list
    answers before it slices.) *)
Theorem list_null_limit_raises
    (params : ListInput.t) (storage : file Store.t) (data : Store.t) :
  load_memories storage = Return data ->
  Store.memories data <> [] ->
  ListInput.limit params = None \/ ListInput.offset params = None ->
  ea_list params storage = Raise TypeError.
Proof.
  intros Hload Hne Hnull. unfold ea_list. rewrite Hload.
  cbn [mbind outcome_bind]. destruct (Store.memories data); [done|].
  unfold list_page.
  destruct Hnull as [-> | ->]; [by destruct (ListInput.offset params)|done].
Qed.
End MemoryRoundTrips.

Lemma remember_then_recall_witness :
  let storage := Some (Py.Document MemorySpec.RecallScenario.data) in
  Memory.load_memories storage = Py.Return MemorySpec.RecallScenario.data /\
  exists memory data',
    Memory.load_memories
      (Memory.ea_remember MemoryMore.Sample.now MemoryMore.Sample.remember
         storage).2 = Py.Return data' /\
    Memory.Mem.content memory = "Deploy key lives in vault" /\
    In memory
      (Memory.recall_results
         (MemoryMore.recall_call "Deploy key lives in vault" None None)
         (Memory.Store.memories data')).
Proof.
  intros storage.
  assert (Memory.load_memories storage
          = Py.Return MemorySpec.RecallScenario.data) as H1 by reflexivity.
  split; [done|].
  destruct (remember_then_recall MemoryMore.Sample.now
              MemoryMore.Sample.remember storage _ H1)
    as (memory & data' & Hload & Hcontent & _ & _ & Hin & _).
  exists memory, data'. split; [exact Hload|]. split; [exact Hcontent|].
  exact Hin.
Defined.

Lemma remember_then_forget_witness :
  let storage := Some (Py.Document MemorySpec.RecallScenario.data) in
  (Memory.load_memories storage = Py.Return MemorySpec.RecallScenario.data /\
   MemorySpec.ids_below_counter MemorySpec.RecallScenario.data) /\
  (Memory.ea_forget {| Memory.ForgetInput.memory_id := "mem_0004";
                       Memory.ForgetInput.confirm := true |}
     (Memory.ea_remember MemoryMore.Sample.now MemoryMore.Sample.remember
        storage).2).2
  = Memory.save_memories
      {| Memory.Store.memories :=
           Memory.Store.memories MemorySpec.RecallScenario.data;
         Memory.Store.next_id := 5 |}.
Proof.
  intros storage.
  assert (Memory.load_memories storage
          = Py.Return MemorySpec.RecallScenario.data) as H1 by reflexivity.
  assert (MemorySpec.ids_below_counter MemorySpec.RecallScenario.data) as H2.
  { repeat (apply Forall_cons; split;
            [eexists; split; [reflexivity|reflexivity]|]).
    apply Forall_nil. done. }
  split; [done|].
  destruct (remember_then_forget MemoryMore.Sample.now
              MemoryMore.Sample.remember storage _ H1 H2)
    as (removed & _ & Hcall).
  change (MemorySpec.mem_id
            (Memory.Store.next_id MemorySpec.RecallScenario.data))
    with "mem_0004" in Hcall.
  by rewrite Hcall.
Defined.

Lemma forget_twice_witness :
  let storage := Some (Py.Document MemorySpec.RecallScenario.data) in
  let forget := {| Memory.ForgetInput.memory_id := "mem_0002";
                   Memory.ForgetInput.confirm := true |} in
  (Memory.load_memories storage = Py.Return MemorySpec.RecallScenario.data /\
   NoDup (map Memory.Mem.id
            (Memory.Store.memories MemorySpec.RecallScenario.data))) /\
  (Memory.ea_forget forget (Memory.ea_forget forget storage).2).2
  = (Memory.ea_forget forget storage).2.
Proof.
  intros storage forget.
  assert (Memory.load_memories storage
          = Py.Return MemorySpec.RecallScenario.data) as H1 by reflexivity.
  assert (NoDup (map Memory.Mem.id
                   (Memory.Store.memories MemorySpec.RecallScenario.data)))
    as H2.
  { cbn. repeat (apply NoDup_cons_2;
                 [intros H%list_elem_of_In; simpl in H;
                  decompose [or] H; discriminate || done|]).
    apply NoDup_nil_2. }
  split; [done|].
  pose proof (forget_twice storage _ "mem_0002" H1 H2) as Hcall.
  cbv zeta in Hcall. unfold forget. by rewrite Hcall.
Defined.

Lemma list_null_limit_raises_witness :
  let storage := Some (Py.Document MemorySpec.RecallScenario.data) in
  let params := {| Memory.ListInput.tags := None;
                   Memory.ListInput.limit := None;
                   Memory.ListInput.offset := Some 0 |} in
  (Memory.load_memories storage = Py.Return MemorySpec.RecallScenario.data /\
   Memory.Store.memories MemorySpec.RecallScenario.data <> [] /\
   (Memory.ListInput.limit params = None \/
    Memory.ListInput.offset params = None)) /\
  Memory.ea_list params storage = Py.Raise Py.TypeError.
Proof.
  intros storage params.
  assert (Memory.load_memories storage
          = Py.Return MemorySpec.RecallScenario.data) as H1 by reflexivity.
  assert (Memory.Store.memories MemorySpec.RecallScenario.data <> [])
    as H2 by discriminate.
  assert (Memory.ListInput.limit params = None \/
          Memory.ListInput.offset params = None) as H3 by (left; reflexivity).
  split; [done|].
  exact (list_null_limit_raises params storage _ H1 H2 H3).
Defined.

(** ** Further properties: dictionaries *)

Section DictFacts.
Import Py.
Context {V : Type}.

Lemma dict_get_set_eq key (value : V) d :
  dict_get key (dict_set key value d) = Some value.
Proof.
  induction d as [|[k v] d IH]; cbn [dict_set dict_get].
  - by rewrite String.eqb_refl.
  - destruct (String.eqb k key) eqn:Hk; cbn [dict_get]; by rewrite Hk.
Qed.

Lemma dict_get_set_ne key key' (value : V) d :
  key <> key' -> dict_get key' (dict_set key value d) = dict_get key' d.
Proof.
  intros Hne. induction d as [|[k v] d IH]; cbn [dict_set dict_get].
  - by apply String.eqb_neq in Hne as ->.
  - destruct (String.eqb_spec k key) as [->|Hk]; cbn [dict_get].
    + by apply String.eqb_neq in Hne as ->.
    + by rewrite IH.
Qed.

Lemma dict_get_keys key (d : dict V) :
  dict_get key d = None <-> ~ In key (map fst d).
Proof.
  induction d as [|[k v] d IH]; cbn [dict_get map fst In]; [tauto|].
  destruct (String.eqb_spec k key) as [->|Hk]; [split; [done|tauto]|].
  rewrite IH. tauto.
Qed.

Lemma dict_set_keys key (value : V) d :
  map fst (dict_set key value d)
  = match dict_get key d with
    | Some _ => map fst d
    | None => map fst d ++ [key]
    end.
Proof.
  induction d as [|[k v] d IH]; cbn [dict_set dict_get map fst app]; [done|].
  destruct (String.eqb k key); cbn [map fst]; [done|].
  rewrite IH. by destruct (dict_get key d).
Qed.

Lemma dict_set_keys_NoDup key (value : V) d :
  NoDup (map fst d) -> NoDup (map fst (dict_set key value d)).
Proof.
  intros Hd. rewrite dict_set_keys.
  destruct (dict_get key d) eqn:Hget; [done|].
  apply NoDup_app. split; [done|]. split; [|apply NoDup_singleton].
  intros x Hx ->%list_elem_of_singleton.
  by apply dict_get_keys in Hget; apply Hget, list_elem_of_In.
Qed.

Lemma dict_get_In key (value : V) d :
  NoDup (map fst d) -> In (key, value) d -> dict_get key d = Some value.
Proof.
  induction d as [|[k v] d IH]; cbn [map fst dict_get In]; [done|].
  intros [Hk Hd]%NoDup_cons [[= -> ->]|Hin].
  - by rewrite String.eqb_refl.
  - destruct (String.eqb_spec k key) as [->|_]; [|by apply IH].
    exfalso. apply Hk, list_elem_of_In, in_map_iff. by exists (key, value).
Qed.

Lemma dict_get_Some_In key (value : V) d :
  dict_get key d = Some value -> In (key, value) d.
Proof.
  induction d as [|[k v] d IH]; cbn [dict_get In]; [done|].
  destruct (String.eqb_spec k key) as [->|_]; [intros [= ->]; by left|].
  intros H. right. by apply IH.
Qed.
End DictFacts.

(** ** Further properties: ea-journal *)

Section JournalGroups.
Import Py Journal JournalSpec JournalMore.


Lemma group_fold_lookup entries : forall (by_type : dict (list Entry.t)) t,
  dict_get t
    (fold_left
       (fun by_type entry =>
          let t := Entry.type entry in
          dict_set t (dict_get_default t [] by_type ++ [entry]) by_type)
       entries by_type)
  = match dict_get t by_type, typed t entries with
    | Some l, found => Some (l ++ found)
    | None, [] => None
    | None, found => Some found
    end.
Proof.
  induction entries as [|e entries IH]; intros by_type t; cbn [fold_left].
  - unfold typed. cbn [List.filter]. destruct (dict_get t by_type); [|done].
    by rewrite app_nil_r.
  - rewrite IH. unfold typed. cbn [List.filter]. cbv zeta.
    destruct (String.eqb_spec (Entry.type e) t) as [<-|Hne].
    + rewrite dict_get_set_eq. unfold dict_get_default.
      destruct (dict_get (Entry.type e) by_type) as [l|].
      * by rewrite <- app_assoc.
      * done.
    + rewrite dict_get_set_ne by done.
      done.
Qed.

Lemma group_fold_keys entries : forall by_type : dict (list Entry.t),
  NoDup (map fst by_type) ->
  NoDup (map fst
           (fold_left
              (fun by_type entry =>
                 let t := Entry.type entry in
                 dict_set t (dict_get_default t [] by_type ++ [entry]) by_type)
              entries by_type)).
Proof.
  induction entries as [|e entries IH]; intros by_type Hd; [done|].
  cbn [fold_left]. apply IH. by apply dict_set_keys_NoDup.
Qed.

Lemma today_groups_by_type_eq entries t :
  dict_get t (group_by_type entries)
  = match typed t entries with
    | [] => None
    | found => Some found
    end.
Proof. unfold group_by_type. by rewrite group_fold_lookup. Qed.

(** X9.  The grouping loop of [ea_today] files every entry under its type
    and keeps the order of the file: the group of a type is the list of the
    entries of that type, and a type without entries has no group. *)
Theorem today_groups_by_type (entries : list Entry.t) (t : string) :
  dict_get t (group_by_type entries)
  = match typed t entries with
    | [] => None
    | found => Some found
    end.
Proof. apply today_groups_by_type_eq. Qed.

Lemma group_by_type_keys entries : NoDup (map fst (group_by_type entries)).
Proof. apply group_fold_keys. constructor. Qed.
End JournalGroups.

Section JournalToday.
Import Py Journal JournalSpec JournalMore.

Lemma format_entries_texts entries :
  Forall showable entries ->
  format_entries entries = Return (map entry_text entries).
Proof.
  induction 1 as [|e entries [text He] _ IH]; [done|].
  cbn [format_entries map]. unfold entry_text at 1. rewrite He, IH. done.
Qed.

Lemma typed_showable t entries :
  Forall showable entries -> Forall showable (typed t entries).
Proof.
  intros H. apply Forall_forall. intros e He%list_elem_of_In.
  apply filter_In in He as [He _]. rewrite Forall_forall in H.
  by apply H, list_elem_of_In.
Qed.

Lemma today_sections_flat entries types :
  Forall showable entries ->
  today_sections (map value types) (group_by_type entries)
  = Return (flat_map (today_section entries) types).
Proof.
  intros Hok. induction types as [|t types IH]; [done|].
  cbn [map today_sections flat_map]. rewrite today_groups_by_type_eq.
  unfold today_section at 1, of_type. fold (typed (value t) entries).
  pose proof (typed_showable (value t) entries Hok) as Hfound.
  destruct (typed (value t) entries) as [|e found] eqn:Ht; [by rewrite IH|].
  rewrite (format_entries_texts _ Hfound), IH. done.
Qed.

(** X10.  The body of the report of [ea_today]: one section for each entry
    type that has entries, in the order in which [EntryType] lists the
    types, each with its entries in file order.  Entries whose type is not
    one of [EntryType] are in no section. *)
Theorem today_sections_by_type (entries : list Entry.t) :
  Forall showable entries ->
  today_sections entry_type_values (group_by_type entries)
  = Return (flat_map (today_section entries)
              [WORK; DECISION; BLOCKER; NOTE; WIN; LEARNING]).
Proof. intros Hok. by apply today_sections_flat. Qed.

Lemma sorted_items_perm {V} (d : dict V) : sorted_items d ≡ₚ d.
Proof. apply sort_perm. Qed.

(** X11.  The summary line of [ea_today] names each type that occurs, once,
    in alphabetical order, with the entries of that type. *)
Theorem today_counts_by_type (entries : list Entry.t) :
  let items := sorted_items (group_by_type entries) in
  StronglySorted (fun a b => String.ltb a b = true) (map fst items) /\
  (forall t, In t (map fst items) <-> typed t entries <> []) /\
  Forall (fun kv => kv.2 = typed kv.1 entries) items.
Proof.
  intros items.
  assert (NoDup (map fst items)) as Hnodup.
  { unfold items. rewrite sorted_items_perm. apply group_by_type_keys. }
  assert (forall t found, In (t, found) items ->
            dict_get t (group_by_type entries) = Some found) as Hget.
  { intros t found Hin. apply dict_get_In; [apply group_by_type_keys|].
    apply list_elem_of_In. rewrite <- (sorted_items_perm (group_by_type entries)).
    by apply list_elem_of_In. }
  split; [|split].
  - pose proof (sort_sorted String.ltb (fun kv : string * list Entry.t => kv.1)
                  false str_ltb_asym str_ltb_negtrans (group_by_type entries))
      as Hsorted.
    fold (sorted_items (group_by_type entries)) in Hsorted. fold items in Hsorted.
    clear Hget. induction Hsorted as [|kv l Hl IH Hkv]; [constructor|].
    cbn [map] in Hnodup |- *. apply NoDup_cons in Hnodup as [Hnotin Hnodup].
    constructor; [by apply IH|].
    apply Forall_forall. intros k Hk.
    apply list_elem_of_In, in_map_iff in Hk as (kv' & <- & Hin).
    rewrite Forall_forall in Hkv. specialize (Hkv kv' (proj2 (list_elem_of_In _ _) Hin)).
    unfold in_order, precedes, stays_before in Hkv.
    apply str_ltb_of_leb_ne.
    + rewrite str_ltb_leb in Hkv. by apply negb_false_iff in Hkv.
    + intros Heq. apply Hnotin, list_elem_of_In, in_map_iff.
      exists kv'. by split.
  - intros t. split.
    + intros Hin Hnone.
      apply in_map_iff in Hin as ([t' found] & Ht & Hin). cbn in Ht. subst t'.
      apply Hget in Hin. by rewrite today_groups_by_type_eq, Hnone in Hin.
    + intros Hne.
      destruct (typed t entries) as [|e found] eqn:Ht; [done|].
      apply in_map_iff. exists (t, e :: found). split; [done|].
      apply list_elem_of_In. unfold items. rewrite sorted_items_perm.
      apply list_elem_of_In, dict_get_Some_In.
      by rewrite today_groups_by_type_eq, Ht.
  - apply Forall_forall. intros [t found] Hin%list_elem_of_In. cbn [fst snd].
    apply Hget in Hin. rewrite today_groups_by_type_eq in Hin.
    by destruct (typed t entries); [|injection Hin as <-].
Qed.
End JournalToday.

Lemma today_sections_by_type_witness :
  let entries := JournalSpec.entries_of JournalSpec.Scenario.dir
                   JournalSpec.Scenario.today in
  Forall JournalMore.showable entries /\
  Journal.today_sections Journal.entry_type_values
    (Journal.group_by_type entries)
  = Py.Return
      (flat_map (JournalMore.today_section entries)
         [Journal.WORK; Journal.DECISION; Journal.BLOCKER; Journal.NOTE;
          Journal.WIN; Journal.LEARNING]).
Proof.
  intros entries.
  assert (Forall JournalMore.showable entries) as H.
  { unfold entries.
    let l := eval vm_compute in
      (JournalSpec.entries_of JournalSpec.Scenario.dir
         JournalSpec.Scenario.today) in
    change (JournalSpec.entries_of JournalSpec.Scenario.dir
              JournalSpec.Scenario.today) with l.
    repeat constructor; eexists; vm_compute; reflexivity. }
  split; [exact H|].
  exact (today_sections_by_type entries H).
Defined.

Section JournalCounts.
Import Py Journal JournalSpec JournalMore.
Context {A : Type}.
Variable key : A -> string.

Local Abbreviation count_step :=
  (fun (counts : dict Z) (x : A) =>
     dict_set (key x) (dict_get_default (key x) 0 counts + 1) counts).

Lemma occurrences_cons k x l :
  occurrences key k (x :: l)
  = (if String.eqb (key x) k then 1 else 0) + occurrences key k l.
Proof.
  unfold occurrences. cbn [List.filter].
  destruct (String.eqb (key x) k); cbn [length]; lia.
Qed.

Lemma occurrences_nonneg k l : 0 <= occurrences key k l.
Proof. unfold occurrences. lia. Qed.

Lemma count_fold_lookup l : forall (counts : dict Z) k,
  dict_get k (fold_left count_step l counts)
  = match dict_get k counts with
    | Some n => Some (n + occurrences key k l)
    | None => if occurrences key k l =? 0 then None
              else Some (occurrences key k l)
    end.
Proof.
  induction l as [|x l IH]; intros counts k; cbn [fold_left].
  - change (occurrences key k []) with 0.
    destruct (dict_get k counts); [|done]. f_equal. lia.
  - rewrite IH, occurrences_cons.
    pose proof (occurrences_nonneg k l) as Hpos.
    destruct (String.eqb_spec (key x) k) as [<-|Hne].
    + rewrite dict_get_set_eq. unfold dict_get_default.
      destruct (dict_get (key x) counts) as [n|].
      * f_equal; lia.
      * destruct (Z.eqb_spec (1 + occurrences key (key x) l) 0); [lia|].
        f_equal; lia.
    + by rewrite dict_get_set_ne.
Qed.

Lemma total_set k n (counts : dict Z) :
  total (dict_set k n counts) = total counts - dict_get_default k 0 counts + n.
Proof.
  unfold total, dict_get_default.
  induction counts as [|[k' v] counts IH]; cbn [dict_set dict_get map snd fold_right].
  - lia.
  - destruct (String.eqb k' k); cbn [map snd fold_right]; lia.
Qed.

Lemma count_fold_total l : forall counts : dict Z,
  total (fold_left count_step l counts) = total counts + Z.of_nat (length l).
Proof.
  induction l as [|x l IH]; intros counts; cbn [fold_left length]; [lia|].
  rewrite IH, total_set. lia.
Qed.

Lemma count_fold_keys l : forall counts : dict Z,
  NoDup (map fst counts) -> NoDup (map fst (fold_left count_step l counts)).
Proof.
  induction l as [|x l IH]; intros counts Hd; [done|].
  cbn [fold_left]. apply IH. by apply dict_set_keys_NoDup.
Qed.

Lemma count_by_lookup k l :
  dict_get k (count_by key l)
  = if occurrences key k l =? 0 then None else Some (occurrences key k l).
Proof. unfold count_by. by rewrite count_fold_lookup. Qed.

(** X12.  The statistics of [ea_summary]: the count kept for a key is the
    number of entries with that key, a key without entries is not kept, no
    key is kept twice, and the counts add up to the number of entries. *)
Theorem count_by_counts (l : list A) :
  (forall k, dict_get k (count_by key l)
             = if occurrences key k l =? 0 then None
               else Some (occurrences key k l)) /\
  NoDup (map fst (count_by key l)) /\
  total (count_by key l) = Z.of_nat (length l).
Proof.
  split; [intros k; apply count_by_lookup|]. split.
  - apply count_fold_keys. constructor.
  - unfold count_by. by rewrite count_fold_total.
Qed.

Lemma count_by_nonempty x l : count_by key (x :: l) <> [].
Proof.
  intros Hnil. pose proof (count_by_lookup (key x) (x :: l)) as Hget.
  rewrite Hnil, occurrences_cons, String.eqb_refl in Hget.
  pose proof (occurrences_nonneg (key x) l).
  by destruct (Z.eqb_spec (1 + occurrences key (key x) l) 0); [lia|].
Qed.
End JournalCounts.

Section JournalSummary.
Import Py Journal JournalSpec JournalMore.

Lemma load_journal_raises d dir e :
  load_journal d dir = Raise e ->
  e = UnicodeDecodeError /\ dir !! get_journal_file d = Some Undecodable.
Proof.
  unfold load_journal.
  destruct (dir !! get_journal_file d) as [[| | |entries]|]; cbn; try done.
  by intros [= <-].
Qed.

Lemma load_journal_undecodable d dir :
  dir !! get_journal_file d = Some Undecodable ->
  load_journal d dir = Raise UnicodeDecodeError.
Proof. unfold load_journal. by intros ->. Qed.

Lemma loads_or_undecodable dir d :
  loads dir d \/ dir !! get_journal_file d = Some Undecodable.
Proof.
  destruct (load_journal d dir) as [entries|e] eqn:Hload.
  - left. by exists entries.
  - right. by apply load_journal_raises in Hload as [_ ?].
Qed.

Lemma summary_collect_loads dir dates :
  Forall (loads dir) dates ->
  summary_collect dates dir
  = Return (Z.of_nat (length (active_days dir dates)),
            flat_map (entries_of dir) dates).
Proof.
  induction 1 as [|d dates [entries Hd] _ IH]; [done|].
  assert (entries_of dir d = entries) as He.
  { unfold entries_of. by rewrite Hd. }
  cbn [summary_collect]. rewrite Hd, IH. cbn [mbind outcome_bind].
  unfold active_days. cbn [List.filter flat_map]. rewrite He.
  f_equal. f_equal. destruct entries; cbn [length]; lia.
Qed.

Lemma summary_collect_raises dir dates e :
  summary_collect dates dir = Raise e ->
  e = UnicodeDecodeError /\
  Exists (fun d => dir !! get_journal_file d = Some Undecodable) dates.
Proof.
  induction dates as [|d dates IH]; [done|]. cbn [summary_collect].
  destruct (load_journal d dir) as [entries|e'] eqn:Hd; cbn [mbind outcome_bind].
  - destruct (summary_collect dates dir) as [[active more]|e'] eqn:Hrest;
      cbn [mbind outcome_bind]; [done|].
    intros [= <-]. destruct (IH eq_refl) as [-> Hex].
    split; [done|]. by apply Exists_cons_tl.
  - intros [= <-]. apply load_journal_raises in Hd as [-> Hd].
    split; [done|]. by apply Exists_cons_hd.
Qed.

Lemma summary_collect_undecodable dir dates :
  Exists (fun d => dir !! get_journal_file d = Some Undecodable) dates ->
  summary_collect dates dir = Raise UnicodeDecodeError.
Proof.
  induction dates as [|d dates IH]; intros Hex; [by apply Exists_nil in Hex|].
  cbn [summary_collect].
  destruct (loads_or_undecodable dir d) as [[entries Hd]|Hd].
  - apply Exists_cons in Hex as [Hex|Hex].
    + rewrite (load_journal_undecodable _ _ Hex) in Hd. done.
    + rewrite Hd, (IH Hex). done.
  - by rewrite (load_journal_undecodable _ _ Hd).
Qed.

Lemma union_entries dir dates :
  map snd (union dir dates) = flat_map (entries_of dir) dates.
Proof.
  unfold union. induction dates as [|d dates IH]; [done|].
  cbn [flat_map]. rewrite map_app, IH, map_map. cbn [snd].
  by rewrite map_id.
Qed.

Lemma active_days_entries dir dates :
  (length (active_days dir dates) <= length (flat_map (entries_of dir) dates))%nat.
Proof.
  unfold active_days. induction dates as [|d dates IH]; [done|].
  cbn [List.filter flat_map]. rewrite length_app.
  destruct (entries_of dir d); cbn [length]; lia.
Qed.

(** X13.  What [ea_summary] collects when the files of its days can be
    read: the entries are those that a review of the same days collects,
    in the same order, and the number of active days is the number of days
    with a non-empty file; it exceeds neither the number of days nor the
    number of entries. *)
Theorem summary_days_and_entries (dir : storage) (dates : list datetime) :
  Forall (loads dir) dates ->
  exists (active : Z) (all_entries : list Entry.t),
    summary_collect dates dir = Return (active, all_entries) /\
    collect dates dir = Return (union dir dates) /\
    all_entries = map snd (union dir dates) /\
    active = Z.of_nat (length (active_days dir dates)) /\
    0 <= active <= Z.of_nat (length dates) /\
    active <= Z.of_nat (length all_entries).
Proof.
  intros Hloads. eexists _, _.
  split; [by apply summary_collect_loads|].
  split; [by apply collect_union|].
  split; [by rewrite union_entries|]. split; [done|].
  pose proof (active_days_entries dir dates).
  pose proof (List.filter_length_le
                (fun d => match entries_of dir d with [] => false | _ => true end)
                dates) as Hle.
  fold (active_days dir dates) in Hle. lia.
Qed.

Lemma shows_projects_returns (entries : list Entry.t) :
  entries <> [] ->
  exists b, shows_projects (count_by project_of entries) = Return b.
Proof.
  destruct entries as [|e entries]; [done|]. intros _.
  pose proof (count_by_nonempty project_of e entries) as Hne.
  unfold shows_projects.
  destruct (count_by project_of (e :: entries)) as [|[p n] [|q by_project]];
    [done|by eexists|by eexists].
Qed.

Lemma summary_raise_cause now params dir e :
  ea_summary now params dir = Raise e ->
  e = UnicodeDecodeError /\
  Exists (fun d => dir !! get_journal_file d = Some Undecodable)
    (window now (SummaryInput.days params)).
Proof.
  unfold ea_summary. cbv zeta.
  change (map (minus_days now) (range ?n)) with (window now n).
  destruct (summary_collect (window now (SummaryInput.days params)) dir)
    as [[active all_entries]|e'] eqn:Hcollect; cbn [mbind outcome_bind].
  - destruct all_entries as [|entry all_entries]; [done|].
    destruct (shows_projects_returns (entry :: all_entries)) as [b ->]; [done|].
    done.
  - intros [= <-]. by apply summary_collect_raises in Hcollect.
Qed.

(** X14.  A day file that is not UTF-8 reaches [ea_today] and
    [ea_summary]: [ea_today] raises [UnicodeDecodeError] when the file of
    the day is such a file, and [ea_summary] when the file of any day of
    its period is, wherever in the period that day lies.  (The other files
    are those of the data model: missing, unreadable, not JSON, or lists of
    entries.) *)
Theorem today_and_summary_raise_on_undecodable
    (now : datetime) (dir : storage) :
  (forall params : TodayInput.t,
     dir !! get_journal_file now = Some Undecodable ->
     ea_today now params dir = Raise UnicodeDecodeError) /\
  (forall params : SummaryInput.t,
     Exists (fun d => dir !! get_journal_file d = Some Undecodable)
       (window now (SummaryInput.days params)) ->
     ea_summary now params dir = Raise UnicodeDecodeError).
Proof.
  split.
  - intros params Hday. unfold ea_today.
    by rewrite (load_journal_undecodable _ _ Hday).
  - intros params Hex. unfold ea_summary. cbv zeta.
    change (map (minus_days now) (range ?n)) with (window now n).
    by rewrite (summary_collect_undecodable _ _ Hex).
Qed.

Lemma well_dated_no_undecodable dir dates :
  well_dated dir ->
  ~ Exists (fun d => dir !! get_journal_file d = Some Undecodable) dates.
Proof.
  intros Hinv Hex. apply Exists_exists in Hex as (d & _ & Hd).
  by destruct (Hinv _ _ Hd) as (entries & ? & _).
Qed.

Lemma well_dated_showable dir d :
  well_dated dir -> Forall showable (entries_of dir d).
Proof.
  intros Hinv. unfold entries_of, load_journal.
  destruct (dir !! get_journal_file d) as [c|] eqn:Hc; [|constructor].
  destruct (Hinv _ _ Hc) as (entries & -> & Hentries). cbn.
  eapply Forall_impl; [exact Hentries|]. by intros entry [_ ?].
Qed.

Lemma today_returns now params dir :
  loads dir now -> Forall showable (entries_of dir now) ->
  exists text, ea_today now params dir = Return text.
Proof.
  intros [entries Hload] Hok. unfold entries_of in Hok. rewrite Hload in Hok.
  unfold ea_today. rewrite Hload. cbn [mbind outcome_bind].
  destruct entries as [|e entries]; [by eexists|].
  destruct (TodayInput.entry_type params) as [t|].
  - pose proof (typed_showable (value t) _ Hok) as Hfound.
    change (typed (value t) (e :: entries)) with (of_type t (e :: entries))
      in Hfound.
    destruct (of_type t (e :: entries)) as [|e' found]; [by eexists|].
    unfold entry_type_values. rewrite (today_sections_flat _ _ Hfound).
    by eexists.
  - unfold entry_type_values. rewrite (today_sections_flat _ _ Hok).
    by eexists.
Qed.

(** X15.  On a storage that log calls have written, starting from an empty
    directory, neither [ea_today] nor [ea_summary] raises, whatever the day
    and the parameters. *)
Theorem today_and_summary_after_logs
    (hash : string -> Z) (calls : list (datetime * LogInput.t))
    (now : datetime) (today : TodayInput.t) (summary : SummaryInput.t) :
  Forall (fun c : datetime * LogInput.t => 364878 <= ordinal c.1 <= 3652059)
    calls ->
  let dir := run_logs hash calls ∅ in
  (exists text, ea_today now today dir = Return text) /\
  (exists text, ea_summary now summary dir = Return text).
Proof.
  intros Hcalls dir.
  assert (well_dated dir) as Hinv.
  { apply well_dated_run_logs; [|apply well_dated_empty].
    eapply Forall_impl; [exact Hcalls|].
    intros c Hc. by apply strftime_Ymd_length. }
  split.
  - apply today_returns; [by apply well_dated_loads|].
    by apply well_dated_showable.
  - destruct (ea_summary now summary dir) as [text|e] eqn:Hsummary;
      [by exists text|].
    apply summary_raise_cause in Hsummary as [_ Hex].
    by apply well_dated_no_undecodable in Hex.
Qed.

(** X16.  What is logged is shown: after a log call on a storage that log
    calls have written, [ea_today] of the same day, without a type filter,
    answers with a report that has the text of the new entry in one of its
    sections. *)
Theorem log_then_today
    (hash : string -> Z) (now : datetime) (params : LogInput.t)
    (dir : storage) :
  well_dated dir ->
  String.length (strftime_Ymd now) = 10%nat ->
  let entry := new_entry hash now params in
  let dir' := (ea_log hash now params dir).2 in
  exists (entries : list Entry.t) (sections : list string),
    load_journal now dir' = Return (entries ++ [entry]) /\
    In (entry_text entry) sections /\
    ea_today now {| TodayInput.entry_type := None |} dir'
    = Return (today_report now (group_by_type (entries ++ [entry])) sections).
Proof.
  intros Hinv Hlen entry dir'.
  destruct (well_dated_loads dir now Hinv) as [entries Hload].
  pose proof (well_dated_log hash now params dir Hlen Hinv) as Hinv'.
  fold dir' in Hinv'.
  assert (load_journal now dir' = Return (entries ++ [entry])) as Hload'.
  { unfold dir'. rewrite (log_step hash now params dir entries Hload).
    cbn [snd]. apply load_journal_saved. }
  pose proof (well_dated_showable dir' now Hinv') as Hok.
  unfold entries_of in Hok. rewrite Hload' in Hok.
  exists entries, (flat_map (today_section (entries ++ [entry]))
                     [WORK; DECISION; BLOCKER; NOTE; WIN; LEARNING]).
  split; [exact Hload'|]. split.
  - apply in_flat_map. exists (LogInput.entry_type params). split.
    + destruct (LogInput.entry_type params); cbn; tauto.
    + unfold today_section.
      assert (In entry (of_type (LogInput.entry_type params)
                          (entries ++ [entry]))) as Hin.
      { apply filter_In. split; [apply in_or_app; right; by left|].
        apply String.eqb_refl. }
      destruct (of_type (LogInput.entry_type params) (entries ++ [entry]));
        [done|].
      right. by apply in_map.
  - unfold ea_today. rewrite Hload'. cbn [mbind outcome_bind].
    cbn [TodayInput.entry_type].
    destruct (entries ++ [entry]) as [|e l] eqn:Hl;
      [by destruct entries|].
    unfold entry_type_values. rewrite (today_sections_flat _ _ Hok). done.
Qed.
End JournalSummary.

Lemma summary_days_and_entries_witness :
  let dates := JournalSpec.window JournalSpec.Scenario.today 3 in
  Forall (JournalSpec.loads JournalSpec.Scenario.dir) dates /\
  Journal.summary_collect dates JournalSpec.Scenario.dir
  = Py.Return (3, map snd (JournalSpec.union JournalSpec.Scenario.dir dates)).
Proof.
  intros dates.
  assert (Forall (JournalSpec.loads JournalSpec.Scenario.dir) dates) as H.
  { repeat constructor; eexists; vm_compute; reflexivity. }
  split; [exact H|].
  destruct (summary_days_and_entries JournalSpec.Scenario.dir dates H)
    as (active & all_entries & Hcollect & _ & -> & -> & _).
  rewrite Hcollect. reflexivity.
Defined.

Lemma today_and_summary_after_logs_witness :
  Forall (fun c : Py.datetime * Journal.LogInput.t =>
            364878 <= Py.ordinal c.1 <= 3652059)
    JournalSpec.Scenario.calls /\
  (exists text,
     Journal.ea_today JournalSpec.Scenario.today
       {| Journal.TodayInput.entry_type := Some Journal.WIN |}
       JournalSpec.Scenario.dir = Py.Return text) /\
  (exists text,
     Journal.ea_summary JournalSpec.Scenario.today JournalMore.last_week
       JournalSpec.Scenario.dir = Py.Return text).
Proof.
  assert (Forall (fun c : Py.datetime * Journal.LogInput.t =>
                    364878 <= Py.ordinal c.1 <= 3652059)
            JournalSpec.Scenario.calls) as H.
  { repeat constructor; cbn; lia. }
  split; [exact H|].
  exact (today_and_summary_after_logs JournalSpec.Scenario.hash
           JournalSpec.Scenario.calls JournalSpec.Scenario.today
           {| Journal.TodayInput.entry_type := Some Journal.WIN |}
           JournalMore.last_week H).
Defined.

Lemma log_then_today_witness :
  let now := JournalSpec.Scenario.at_ 738888 19 5 0 in
  let params := JournalSpec.Scenario.note "merged the branch" Journal.WIN in
  let entry := Journal.new_entry JournalSpec.Scenario.hash now params in
  (JournalSpec.well_dated (∅ : Journal.storage) /\
   String.length (Py.strftime_Ymd now) = 10%nat) /\
  exists sections,
    In (JournalSpec.entry_text entry) sections /\
    Journal.ea_today now {| Journal.TodayInput.entry_type := None |}
      (Journal.ea_log JournalSpec.Scenario.hash now params ∅).2
    = Py.Return (Journal.today_report now (Journal.group_by_type [entry])
                   sections).
Proof.
  intros now params entry.
  assert (JournalSpec.well_dated (∅ : Journal.storage)) as H1
    by apply well_dated_empty.
  assert (String.length (Py.strftime_Ymd now) = 10%nat) as H2 by reflexivity.
  split; [done|].
  destruct (log_then_today JournalSpec.Scenario.hash now params ∅ H1 H2)
    as (entries & sections & Hload & Hin & Hcall).
  assert (entries = []) as ->.
  { assert (Journal.load_journal now
              (Journal.ea_log JournalSpec.Scenario.hash now params ∅).2
            = Py.Return [entry]) as Hload' by reflexivity.
    rewrite Hload' in Hload. injection Hload as Hload.
    by destruct entries as [|e [|e' entries]]. }
  exists sections. split; [exact Hin|exact Hcall].
Defined.

Lemma today_and_summary_raise_on_undecodable_witness :
  let day := JournalSpec.Scenario.at_ 738887 12 0 0 in
  (JournalMore.damaged !! Journal.get_journal_file day = Some Py.Undecodable /\
   Exists (fun d => JournalMore.damaged !! Journal.get_journal_file d
                    = Some Py.Undecodable)
     (JournalSpec.window JournalSpec.Scenario.today
        (Journal.SummaryInput.days JournalMore.last_week))) /\
  Journal.ea_today day {| Journal.TodayInput.entry_type := None |}
    JournalMore.damaged
  = Py.Raise Py.UnicodeDecodeError /\
  Journal.ea_summary JournalSpec.Scenario.today JournalMore.last_week
    JournalMore.damaged
  = Py.Raise Py.UnicodeDecodeError.
Proof.
  intros day.
  assert (JournalMore.damaged !! Journal.get_journal_file day
          = Some Py.Undecodable) as H1 by reflexivity.
  assert (Exists (fun d => JournalMore.damaged !! Journal.get_journal_file d
                           = Some Py.Undecodable)
            (JournalSpec.window JournalSpec.Scenario.today
               (Journal.SummaryInput.days JournalMore.last_week))) as H2.
  { apply Exists_cons_tl, Exists_cons_hd. reflexivity. }
  split; [done|]. split.
  - exact (proj1 (today_and_summary_raise_on_undecodable day JournalMore.damaged)
             {| Journal.TodayInput.entry_type := None |} H1).
  - exact (proj2 (today_and_summary_raise_on_undecodable
                    JournalSpec.Scenario.today JournalMore.damaged)
             JournalMore.last_week H2).
Defined.

Section JournalFormat.
Import Py Journal JournalSpec JournalMore.

Lemma split_without sep s :
  ~ In sep (list_ascii_of_string s) -> split sep s = [s].
Proof.
  induction s as [|c s IH]; cbn [split list_ascii_of_string In]; [done|].
  intros Hnot. destruct (Ascii.eqb_spec c sep) as [->|_]; [tauto|].
  rewrite IH by tauto. done.
Qed.

Lemma split_with sep s :
  In sep (list_ascii_of_string s) -> exists x y l, split sep s = x :: y :: l.
Proof.
  induction s as [|c s IH]; cbn [split list_ascii_of_string In]; [done|].
  intros Hin. destruct (Ascii.eqb_spec c sep) as [->|Hne].
  - destruct (split sep s) as [|y l] eqn:Hs; [by apply split_nonempty in Hs|].
    by exists "", y, l.
  - destruct Hin as [->|Hin]; [done|].
    destruct (IH Hin) as (x & y & l & ->). by eexists _, _, _.
Qed.

Lemma split_at_first sep a b :
  ~ In sep (list_ascii_of_string a) ->
  split sep (a +:+ String sep b) = a :: split sep b.
Proof.
  induction a as [|c a IH]; intros Hnot.
  - change ("" +:+ String sep b) with (String sep b). cbn [split].
    by rewrite Ascii.eqb_refl.
  - change (String c a +:+ String sep b) with (String c (a +:+ String sep b)).
    cbn [split list_ascii_of_string In] in *.
    destruct (Ascii.eqb_spec c sep) as [->|_]; [tauto|].
    rewrite IH by tauto. done.
Qed.

(** X17.  The time that [format_entry] shows.  For an entry with a
    timestamp of the form date, ["T"], time, the heading shows the first
    five characters of the time, after the first ten characters of the
    timestamp when the date is asked for, then the type in capitals and the
    project in brackets when there is one; the content follows on the next
    line.  An entry whose timestamp has no ["T"] makes it raise
    [IndexError], and that is the only way for it to raise
    [IndexError]. *)
Theorem format_entry_needs_time_part (entry : Entry.t) (show_date : bool) :
  (format_entry entry show_date = Raise IndexError <->
   ~ In "T"%char (list_ascii_of_string (Entry.timestamp entry))) /\
  (forall date time : string,
     Entry.timestamp entry = date +:+ "T" +:+ time ->
     ~ In "T"%char (list_ascii_of_string date) ->
     ~ In "T"%char (list_ascii_of_string time) ->
     format_entry entry show_date
     = Return
         (lines [ "**["
                    +:+ (if show_date
                         then str_take 10 (Entry.timestamp entry) +:+ " "
                         else "")
                    +:+ str_take 5 time +:+ "] "
                    +:+ upper (Entry.type entry)
                    +:+ match Entry.project entry with
                        | Some p => if String.eqb p "" then ""
                                    else " [" +:+ p +:+ "]"
                        | None => ""
                        end
                    +:+ "**";
                  Entry.content entry;
                  "" ])).
Proof.
  split.
  - unfold format_entry.
    destruct (in_dec Ascii.ascii_dec "T"%char
                (list_ascii_of_string (Entry.timestamp entry))) as [Hin|Hnot].
    + destruct (split_with _ _ Hin) as (x & y & l & ->). split; [done|tauto].
    + by rewrite (split_without _ _ Hnot).
  - intros date time Htimestamp Hdate Htime. unfold format_entry.
    rewrite Htimestamp at 1.
    change ("T" +:+ time) with (String "T" time).
    rewrite (split_at_first _ _ _ Hdate), (split_without _ _ Htime).
    cbv zeta. unfold truthy.
    destruct (Entry.project entry) as [p|]; [|done].
    by destruct (String.eqb p "").
Qed.
End JournalFormat.

Lemma format_entry_needs_time_part_witness :
  let entry :=
    {| Journal.Entry.id := "entry_101500_0042";
       Journal.Entry.content := "rate limit in tests";
       Journal.Entry.type := "blocker";
       Journal.Entry.project := Some "api";
       Journal.Entry.timestamp := "2024-01-02T10:15:00+00:00" |} in
  (Journal.Entry.timestamp entry = "2024-01-02" +:+ "T" +:+ "10:15:00+00:00" /\
   ~ In "T"%char (list_ascii_of_string "2024-01-02") /\
   ~ In "T"%char (list_ascii_of_string "10:15:00+00:00")) /\
  Journal.format_entry entry true
  = Py.Return (Py.lines [ "**[2024-01-02 10:15] BLOCKER [api]**";
                          "rate limit in tests";
                          "" ]).
Proof.
  intros entry.
  assert (Journal.Entry.timestamp entry
          = "2024-01-02" +:+ "T" +:+ "10:15:00+00:00") as H1 by reflexivity.
  assert (~ In "T"%char (list_ascii_of_string "2024-01-02")) as H2.
  { cbn. intros H. decompose [or] H; discriminate || done. }
  assert (~ In "T"%char (list_ascii_of_string "10:15:00+00:00")) as H3.
  { cbn. intros H. decompose [or] H; discriminate || done. }
  split; [done|].
  exact (proj2 (format_entry_needs_time_part entry true) _ _ H1 H2 H3).
Defined.

Section JournalProjects.
Import Py Journal JournalSpec JournalMore.

Lemma occurrences_positive {A} (key : A -> string) k l :
  occurrences key k l <> 0 <-> exists x, In x l /\ key x = k.
Proof.
  unfold occurrences. split.
  - intros Hne.
    destruct (List.filter (fun x => String.eqb (key x) k) l) as [|x found] eqn:Hf;
      [done|].
    assert (In x (List.filter (fun x => String.eqb (key x) k) l)) as Hin
      by (rewrite Hf; by left).
    apply filter_In in Hin as [Hin Hk]. exists x. split; [done|].
    by apply String.eqb_eq.
  - intros (x & Hin & Hk).
    assert (In x (List.filter (fun x => String.eqb (key x) k) l)) as Hf.
    { apply filter_In. split; [done|]. by apply String.eqb_eq. }
    destruct (List.filter (fun x => String.eqb (key x) k) l); [done|].
    cbn [length]. lia.
Qed.

Lemma count_by_key_iff {A} (key : A -> string) k l :
  In k (map fst (count_by key l)) <-> exists x, In x l /\ key x = k.
Proof.
  rewrite <- occurrences_positive.
  pose proof (count_by_lookup key k l) as Hget.
  destruct (Z.eqb_spec (occurrences key k l) 0) as [Hz|Hnz].
  - apply dict_get_keys in Hget. tauto.
  - split; [done|]. intros _.
    apply dict_get_Some_In in Hget. apply in_map_iff.
    by exists (k, occurrences key k l).
Qed.

(** X18.  The summary has a Projects section exactly when some entry has a
    project other than ["General"] (an entry without a project, or with an
    empty one, counts as ["General"]). *)
Theorem summary_shows_projects (all_entries : list Entry.t) :
  all_entries <> [] ->
  shows_projects (count_by project_of all_entries)
  = Return (existsb (fun e => negb (String.eqb (project_of e) "General"))
              all_entries).
Proof.
  intros Hne.
  pose proof (count_by_key_iff project_of) as Hkeys.
  assert (NoDup (map fst (count_by project_of all_entries))) as Hnodup
    by (apply count_fold_keys; constructor).
  unfold shows_projects.
  destruct (count_by project_of all_entries) as [|[p n] [|[q m] by_project]]
    eqn:Hcount.
  - destruct all_entries as [|e l]; [done|].
    by apply count_by_nonempty in Hcount.
  - f_equal. symmetry.
    assert (forall e, In e all_entries -> project_of e = p) as Hall.
    { intros e He.
      assert (In (project_of e) (map fst (count_by project_of all_entries)))
        as Hin by (apply Hkeys; by exists e).
      rewrite Hcount in Hin. cbn in Hin. by destruct Hin. }
    destruct (String.eqb_spec p "General") as [->|Hp]; cbn [negb].
    + apply not_true_is_false. intros (e & He & Hproj)%existsb_exists.
      rewrite (Hall e He), String.eqb_refl in Hproj. done.
    + destruct all_entries as [|e l]; [done|].
      apply existsb_exists. exists e. split; [by left|].
      rewrite (Hall e) by (by left). by apply negb_true_iff, String.eqb_neq.
  - f_equal. symmetry. apply existsb_exists.
    assert (p <> q) as Hpq.
    { cbn [map fst] in Hnodup. apply NoDup_cons in Hnodup as [Hnot _].
      intros ->. apply Hnot. apply list_elem_of_here. }
    assert (exists k, In k (map fst (count_by project_of all_entries)) /\
                      k <> "General") as (k & Hk & Hgen).
    { rewrite Hcount. cbn [map fst].
      destruct (String.eqb_spec p "General") as [->|Hp].
      - exists q. split; [right; by left|]. congruence.
      - exists p. split; [by left|done]. }
    apply Hkeys in Hk as (e & He & <-). exists e. split; [done|].
    by apply negb_true_iff, String.eqb_neq.
Qed.

(** X19.  The Projects section lists the projects by falling count, and
    lists each project of [by_project] once. *)
Theorem summary_projects_by_count (by_project : dict Z) :
  let listed := sort Z.ltb (fun pc : string * Z => - pc.2) false by_project in
  StronglySorted (fun a b : string * Z => b.2 <= a.2) listed /\
  listed ≡ₚ by_project /\
  summary_projects by_project
  = (nl +:+ "## Projects" +:+ nl)
    :: map (fun pc : string * Z =>
              "- **" +:+ pc.1 +:+ ":** " +:+ str pc.2 +:+ " entries") listed.
Proof.
  intros listed. split; [|split; [apply sort_perm|done]].
  unfold listed.
  eapply StronglySorted_weaken; [|apply sort_sorted].
  - intros a b Hab. unfold in_order, precedes, stays_before in Hab.
    apply Z.ltb_ge in Hab. lia.
  - intros a b Hab%Z.ltb_lt. apply Z.ltb_ge. lia.
  - intros a b c Hab%Z.ltb_ge Hbc%Z.ltb_ge. apply Z.ltb_ge. lia.
Qed.
End JournalProjects.

Lemma summary_shows_projects_witness :
  let entries :=
    [ Journal.new_entry JournalSpec.Scenario.hash JournalSpec.Scenario.today
        (JournalSpec.Scenario.note "demo works" Journal.WIN);
      Journal.new_entry JournalSpec.Scenario.hash JournalSpec.Scenario.today
        {| Journal.LogInput.content := "cache the tokens";
           Journal.LogInput.entry_type := Journal.DECISION;
           Journal.LogInput.project := Some "api" |} ] in
  entries <> [] /\
  Journal.shows_projects (Journal.count_by Journal.project_of entries)
  = Py.Return true.
Proof.
  intros entries.
  assert (entries <> []) as H by discriminate.
  split; [exact H|].
  exact (summary_shows_projects entries H).
Defined.

(** ** Further properties: ea-prompts *)

Section PromptNames.
Import Py Prompts PromptsSpec.

Lemma name_char_not_newline c : name_char c = true -> c <> "010"%char.
Proof. by intros H ->. Qed.

Lemma name_rest_spec s :
  name_rest s = true <->
  exists body, (s = body \/ s = body +:+ nl) /\
               Forall (fun c => name_char c = true) (list_ascii_of_string body).
Proof.
  induction s as [|c s IH]; cbn [name_rest].
  - split; [intros _; exists ""; split; [by left|constructor]|done].
  - destruct (name_char c) eqn:Hc.
    + rewrite IH. split.
      * intros (body & Hs & Hbody). exists (String c body). split.
        -- destruct Hs as [->| ->]; [by left|by right].
        -- by constructor.
      * intros (body & Hs & Hbody). destruct body as [|b body].
        -- destruct Hs as [[=]|[= -> _]]. done.
        -- cbn [list_ascii_of_string] in Hbody.
           apply Forall_cons in Hbody as [_ Hbody]. exists body.
           split; [|done].
           destruct Hs as [[= _ ->]|[= _ ->]]; [by left|by right].
    + rewrite andb_true_iff. split.
      * intros [->%Ascii.eqb_eq ->%String.eqb_eq].
        exists "". split; [by right|constructor].
      * intros (body & Hs & Hbody). destruct body as [|b body].
        -- destruct Hs as [[=]|[= -> ->]]. done.
        -- cbn [list_ascii_of_string] in Hbody.
           apply Forall_cons in Hbody as [Hb _].
           destruct Hs as [[= -> _]|[= -> _]]; congruence.
Qed.

(** X20.  The [name] validator of [AddPromptInput] accepts a name exactly
    when it is a lowercase letter followed by lowercase letters, digits and
    hyphens, possibly with one newline after them ([$] matches in front of
    a final newline); it returns an accepted name as it is.  Every built-in
    name passes it, so the validator does not keep the built-in names out:
    only the check of [ea_add_prompt] does. *)
Theorem validate_name_accepts (v : string) :
  ((exists w, validate_name v = Valid w) <->
   exists c body,
     (v = String c body \/ v = String c body +:+ nl) /\
     is_lower c = true /\
     Forall (fun x => name_char x = true) (list_ascii_of_string body)) /\
  (forall w, validate_name v = Valid w -> w = v) /\
  Forall (fun name => validate_name name = Valid name) builtin_names.
Proof.
  split; [|split].
  - unfold validate_name, name_matches. destruct v as [|c s].
    + split; [by intros [w [=]]|]. by intros (c & body & [[=]|[=]] & _).
    + destruct (is_lower c) eqn:Hc; cbn [andb].
      * destruct (name_rest s) eqn:Hs.
        -- split; [|by eexists]. intros _.
           apply name_rest_spec in Hs as (body & Hs & Hbody).
           exists c, body. split; [|done].
           destruct Hs as [->| ->]; [by left|by right].
        -- split; [by intros [w [=]]|].
           intros (c' & body & Hv & _ & Hbody). exfalso.
           assert (name_rest s = true) as Hs'; [|congruence].
           apply name_rest_spec. exists body. split; [|done].
           destruct Hv as [[= _ ->]|[= _ ->]]; [by left|by right].
      * split; [by intros [w [=]]|].
        intros (c' & body & Hv & Hc' & _). exfalso.
        destruct Hv as [[= -> _]|[= -> _]]; congruence.
  - unfold validate_name. destruct (name_matches v); [|done]. by intros w [= <-].
  - repeat constructor.
Qed.
End PromptNames.

Section PromptArguments.
Import Py Prompts PromptsSpec.

(** X21.  Every argument that [ea_add_prompt] stores has a non-empty name
    without a comma and without blanks around it, is required, and is
    described as the value for its name. *)
Theorem parse_arguments_clean (arguments : option string) (a : Argument.t) :
  In a (parse_arguments arguments) ->
  Argument.name a <> "" /\
  str_in "," (Argument.name a) = false /\
  strip (Argument.name a) = Argument.name a /\
  Argument.required a = true /\
  Argument.description a = "Value for " +:+ Argument.name a.
Proof.
  unfold parse_arguments. destruct arguments as [s|]; [|done].
  destruct (truthy s); [|done]. cbn [negb].
  intros (arg & <- & Harg)%in_map_iff. apply filter_In in Harg as [Harg Hne].
  apply truthy_nonempty in Hne. cbn [Argument.name Argument.required
                                      Argument.description].
  split; [done|]. split; [|split; [|done]].
  - apply str_in_char_false. apply in_map_iff in Harg as (w & <- & Hw).
    intros Hin%strip_chars. by apply (split_chars _ _ _ Hw).
  - apply in_map_iff in Harg as (w & <- & _). apply strip_idemp.
Qed.
End PromptArguments.

Lemma parse_arguments_clean_witness :
  let a := {| Prompts.Argument.name := "style";
              Prompts.Argument.description := "Value for style";
              Prompts.Argument.required := true |} in
  In a (Prompts.parse_arguments (Some "text, style ,")) /\
  Prompts.Argument.name a <> "" /\
  Py.str_in "," (Prompts.Argument.name a) = false /\
  Py.strip (Prompts.Argument.name a) = Prompts.Argument.name a /\
  Prompts.Argument.required a = true /\
  Prompts.Argument.description a = "Value for " +:+ Prompts.Argument.name a.
Proof.
  intros a.
  assert (In a (Prompts.parse_arguments (Some "text, style ,"))) as H
    by (right; left; reflexivity).
  split; [exact H|].
  exact (parse_arguments_clean (Some "text, style ,") a H).
Defined.

Lemma str_app_empty_r s : s +:+ "" = s.
Proof.
  induction s as [|c s IH]; [done|].
  change (String c s +:+ "") with (String c (s +:+ "")). by rewrite IH.
Qed.

(** a template that ends with a field: the value is followed by the empty
    rest of the template *)
Ltac field_at_end value :=
  pattern value at 2;
  refine (eq_ind (value +:+ "") _ _ value (str_app_empty_r value));
  vm_compute; reflexivity.

Section PromptRenderers.
Import Py Prompts PromptsSpec.

(** X22.  The five prompt renderers never fail: each built-in template is a
    well-formed format string whose fields are the arguments of the
    renderer, and the result is the template with the values in place of
    the fields.  The values are taken as they are: braces in them are not
    read as fields. *)
Theorem renderers_substitute (error code : string) (steps : option string) :
  code_review code
  = Formatted (lines [
      "Review the following code for:";
      "1. Potential bugs or errors";
      "2. Security vulnerabilities";
      "3. Performance issues";
      "4. Code style and readability";
      "5. Suggested improvements";
      "";
      "Code to review:";
      code;
      "";
      "Provide specific, actionable feedback." ]) /\
  explain_code code
  = Formatted (lines [
      "Explain the following code in plain English, suitable for a beginner:";
      "";
      "1. What does this code do overall?";
      "2. Break down each major section";
      "3. Explain any complex or unusual patterns";
      "4. Mention any potential issues or edge cases";
      "";
      "Code to explain:";
      code ]) /\
  write_tests code
  = Formatted (lines [
      "Generate comprehensive test cases for the following code:";
      "";
      "1. Unit tests for each function/method";
      "2. Edge cases and boundary conditions";
      "3. Error handling scenarios";
      "4. Integration points (if applicable)";
      "";
      "Use appropriate testing framework based on the language.";
      "";
      "Code to test:";
      code ]) /\
  refactor code
  = Formatted (lines [
      "Analyze this code for refactoring opportunities:";
      "";
      "1. DRY (Don't Repeat Yourself) violations";
      "2. Functions that are too long";
      "3. Poor naming";
      "4. Missing abstractions";
      "5. Simplification opportunities";
      "";
      "Provide the refactored version with explanations.";
      "";
      "Code to refactor:";
      code ]) /\
  debug error code steps
  = Formatted (lines [
      "Help debug this issue:";
      "";
      "Error/Problem:";
      error;
      "";
      "Relevant code:";
      code;
      "";
      "Steps to reproduce (if known):";
      match steps with Some s => s | None => "Not provided" end;
      "";
      "Analyze and suggest:";
      "1. Likely cause of the issue";
      "2. How to fix it";
      "3. How to prevent similar issues" ]).
Proof.
  split; [vm_compute; reflexivity|].
  split; [field_at_end code|].
  split; [field_at_end code|].
  split; [field_at_end code|].
  vm_compute; reflexivity.
Qed.
End PromptRenderers.

Section PromptListing.
Import Py Prompts PromptsSpec.

(** X23.  [get_all_prompts] is the built-in prompts together with the
    custom ones: a name is bound when it is custom or built-in, a custom
    binding wins over a built-in one of the same name, and when the file
    binds no built-in name the two parts are disjoint, so that the totals
    that [ea_list_prompts] prints add up to the number of prompts. *)
Theorem all_prompts_builtin_and_custom
    (storage : file custom_prompts) (custom : custom_prompts) :
  load_custom_prompts storage = Return custom ->
  exists all_prompts : custom_prompts,
    get_all_prompts storage = Return all_prompts /\
    (forall name,
       is_Some (all_prompts !! name) <->
       is_Some (custom !! name) \/ dict_mem name BUILTIN_PROMPTS = true) /\
    (forall name p, custom !! name = Some p -> all_prompts !! name = Some p) /\
    (forall name, custom !! name = None ->
                  all_prompts !! name = BUILTIN_PROMPTS !! name) /\
    (no_builtin_stored storage ->
     size all_prompts = (size BUILTIN_PROMPTS + size custom)%nat).
Proof.
  intros Hload. exists (custom ∪ BUILTIN_PROMPTS).
  split; [unfold get_all_prompts; by rewrite Hload|].
  split; [|split; [|split]].
  - intros name. unfold dict_mem. rewrite bool_decide_eq_true.
    rewrite <- !not_eq_None_Some, lookup_union_None. split.
    + intros Hall. destruct (custom !! name); [by left|right].
      intros Hb. by apply Hall.
    + intros [Hc|Hb] [? ?]; tauto.
  - intros name p Hp. by apply lookup_union_Some_l.
  - intros name Hnone. by apply lookup_union_r.
  - intros Hinv. rewrite map_size_disj_union; [lia|].
    apply map_disjoint_spec. intros name p q Hp Hq.
    assert (dict_mem name BUILTIN_PROMPTS = true) as Hb.
    { unfold dict_mem. apply bool_decide_eq_true. by exists q. }
    by rewrite (Hinv custom name Hload Hb) in Hp.
Qed.

(** X24.  [ea_list_prompts] always lists: when the custom file loads, the
    answer is a listing that starts with the two headings, so the answer
    for an empty library is never given. *)
Theorem list_prompts_always_lists
    (params : ListPromptsInput.t) (storage : file custom_prompts)
    (custom : custom_prompts) :
  load_custom_prompts storage = Return custom ->
  exists body,
    ea_list_prompts params storage
    = Return ("# Available Prompts" +:+ nl +:+ nl
              +:+ "## Built-in Prompts" +:+ nl +:+ nl +:+ body).
Proof.
  intros Hload. unfold ea_list_prompts, get_all_prompts. rewrite Hload.
  cbn [mbind outcome_bind].
  assert (custom ∪ BUILTIN_PROMPTS <> ∅) as Hne.
  { intros Hempty.
    assert ((custom ∪ BUILTIN_PROMPTS) !! "debug" = None) as Hnone
      by (by rewrite Hempty).
    apply lookup_union_None in Hnone as [_ Hnone]. done. }
  rewrite bool_decide_eq_false_2 by done.
  cbv zeta.
  match goal with
  | |- context [join nl ([?a; ?b] ++ ?rest)] =>
      assert (exists y l, rest = y :: l) as (y & l & ->)
  end.
  { match goal with
    | |- exists y l, ?bp ++ ?cp ++ [?t] = _ =>
        destruct bp as [|y l]; [destruct cp as [|y l]|]; by eexists _, _
    end. }
  exists (String.concat nl (y :: l)). reflexivity.
Qed.

Lemma sorted_prompts_perm prompts :
  sorted_prompts prompts ≡ₚ map_to_list prompts.
Proof. apply sort_perm. Qed.

(** X25.  The listing order: [sorted(d.items())] gives the bindings of the
    dictionary, each once, by strictly rising name. *)
Theorem sorted_prompts_by_name (prompts : gmap string Prompt.t) :
  StronglySorted (fun a b : string * Prompt.t => String.ltb a.1 b.1 = true)
    (sorted_prompts prompts) /\
  (forall name p,
     In (name, p) (sorted_prompts prompts) <-> prompts !! name = Some p) /\
  length (sorted_prompts prompts) = size prompts.
Proof.
  split; [|split].
  - assert (NoDup (map fst (sorted_prompts prompts))) as Hnodup.
    { rewrite sorted_prompts_perm. apply NoDup_fst_map_to_list. }
    pose proof (sort_sorted String.ltb (fun np : string * Prompt.t => np.1)
                  false str_ltb_asym str_ltb_negtrans (map_to_list prompts))
      as Hsorted.
    fold (sorted_prompts prompts) in Hsorted.
    induction Hsorted as [|np l Hl IH Hnp]; [constructor|].
    cbn [map] in Hnodup. apply NoDup_cons in Hnodup as [Hnotin Hnodup].
    constructor; [by apply IH|].
    apply Forall_forall. intros np' Hin.
    rewrite Forall_forall in Hnp. specialize (Hnp np' Hin).
    unfold in_order, precedes, stays_before in Hnp.
    apply str_ltb_of_leb_ne.
    + rewrite str_ltb_leb in Hnp. by apply negb_false_iff in Hnp.
    + intros Heq. apply Hnotin. rewrite Heq.
      apply list_elem_of_In, in_map. by apply list_elem_of_In.
  - intros name p. rewrite <- list_elem_of_In, sorted_prompts_perm.
    apply elem_of_map_to_list.
  - unfold sorted_prompts. rewrite sort_length. apply length_map_to_list.
Qed.
End PromptListing.

Lemma all_prompts_builtin_and_custom_witness :
  let storage := Some (Py.Document PromptsSpec.Scenario.custom) in
  Prompts.load_custom_prompts storage
  = Py.Return PromptsSpec.Scenario.custom /\
  exists all_prompts : Prompts.custom_prompts,
    Prompts.get_all_prompts storage = Py.Return all_prompts /\
    all_prompts !! "summarize"
    = Some (Prompts.new_prompt PromptsSpec.Scenario.now
              PromptsSpec.Scenario.first) /\
    all_prompts !! "debug" = Some Prompts.builtin_debug.
Proof.
  intros storage.
  assert (Prompts.load_custom_prompts storage
          = Py.Return PromptsSpec.Scenario.custom) as H by reflexivity.
  split; [exact H|].
  destruct (all_prompts_builtin_and_custom storage _ H)
    as (all_prompts & Hall & _ & Hcustom & Hbuiltin & _).
  exists all_prompts. split; [exact Hall|]. split.
  - apply Hcustom. reflexivity.
  - rewrite Hbuiltin; reflexivity.
Defined.

Lemma list_prompts_always_lists_witness :
  let storage : Py.file Prompts.custom_prompts := None in
  Prompts.load_custom_prompts storage = Py.Return ∅ /\
  exists body,
    Prompts.ea_list_prompts
      {| Prompts.ListPromptsInput.include_templates := false |} storage
    = Py.Return ("# Available Prompts" +:+ Py.nl +:+ Py.nl
                 +:+ "## Built-in Prompts" +:+ Py.nl +:+ Py.nl +:+ body).
Proof.
  intros storage.
  assert (Prompts.load_custom_prompts storage = Py.Return ∅) as H
    by reflexivity.
  split; [exact H|].
  exact (list_prompts_always_lists
           {| Prompts.ListPromptsInput.include_templates := false |}
           storage ∅ H).
Defined.

Section PromptRemoval.
Import Py Prompts PromptsSpec.

Lemma dict_mem_true {V} name (d : gmap string V) :
  dict_mem name d = true <-> is_Some (d !! name).
Proof. unfold dict_mem. apply bool_decide_eq_true. Qed.

Lemma dict_mem_false {V} name (d : gmap string V) :
  dict_mem name d = false <-> d !! name = None.
Proof.
  unfold dict_mem. rewrite bool_decide_eq_false. symmetry.
  apply eq_None_not_Some.
Qed.

(** X26.  Removing a custom prompt right after adding it, under a name that
    was not bound before, gives back the custom prompts as they were. *)
Theorem add_then_remove_prompt
    (now : datetime) (params : AddPromptInput.t)
    (storage : file custom_prompts) (custom : custom_prompts) :
  load_custom_prompts storage = Return custom ->
  dict_mem (AddPromptInput.name params) BUILTIN_PROMPTS = false ->
  custom !! AddPromptInput.name params = None ->
  ea_remove_prompt {| RemovePromptInput.name := AddPromptInput.name params;
                      RemovePromptInput.confirm := true |}
    (ea_add_prompt now params storage).2
  = (Return ("Removed custom prompt: " +:+ AddPromptInput.name params),
     save_custom_prompts custom).
Proof.
  intros Hload Hbuiltin Hnew. unfold ea_add_prompt.
  rewrite Hbuiltin, Hload. cbn [snd]. unfold ea_remove_prompt.
  cbn [RemovePromptInput.confirm RemovePromptInput.name negb].
  rewrite Hbuiltin, load_saved_prompts.
  assert (dict_mem (AddPromptInput.name params)
            (<[AddPromptInput.name params := new_prompt now params]> custom)
          = true) as ->.
  { apply dict_mem_true. rewrite lookup_insert_eq. by eexists. }
  cbn [negb]. by rewrite delete_insert_id.
Qed.

(** X27.  [ea_remove_prompt] writes only when it removes.  Without
    [confirm] it asks for it, whatever the name; with [confirm], a name
    that is neither built-in nor custom is reported as not found, and in
    both cases the file is left as it was; a custom name is deleted, and
    only that name.  Removing the same name again then finds nothing. *)
Theorem remove_prompt_cases (name : string) (storage : file custom_prompts) :
  let remove := {| RemovePromptInput.name := name;
                   RemovePromptInput.confirm := true |} in
  ea_remove_prompt {| RemovePromptInput.name := name;
                      RemovePromptInput.confirm := false |} storage
  = (Return "Set confirm=True to delete. This cannot be undone.", storage) /\
  (forall custom,
     load_custom_prompts storage = Return custom ->
     dict_mem name BUILTIN_PROMPTS = false ->
     custom !! name = None ->
     ea_remove_prompt remove storage
     = (Return ("Custom prompt not found: " +:+ name
                +:+ ". Use ea_list_prompts to see available prompts."),
        storage)) /\
  (forall custom p,
     load_custom_prompts storage = Return custom ->
     dict_mem name BUILTIN_PROMPTS = false ->
     custom !! name = Some p ->
     ea_remove_prompt remove storage
     = (Return ("Removed custom prompt: " +:+ name),
        save_custom_prompts (delete name custom)) /\
     (forall other, other <> name ->
                    delete name custom !! other = custom !! other) /\
     ea_remove_prompt remove (ea_remove_prompt remove storage).2
     = (Return ("Custom prompt not found: " +:+ name
                +:+ ". Use ea_list_prompts to see available prompts."),
        (ea_remove_prompt remove storage).2)).
Proof.
  intros remove.
  assert (forall storage custom,
            load_custom_prompts storage = Return custom ->
            dict_mem name BUILTIN_PROMPTS = false ->
            custom !! name = None ->
            ea_remove_prompt remove storage
            = (Return ("Custom prompt not found: " +:+ name
                       +:+ ". Use ea_list_prompts to see available prompts."),
               storage)) as Hunknown.
  { intros storage' custom Hload Hbuiltin Hnone. unfold ea_remove_prompt.
    cbn [remove RemovePromptInput.confirm RemovePromptInput.name negb].
    rewrite Hbuiltin, Hload.
    by rewrite (proj2 (dict_mem_false name custom) Hnone). }
  split; [done|]. split; [by apply Hunknown|].
  intros custom p Hload Hbuiltin Hsome.
  assert (ea_remove_prompt remove storage
          = (Return ("Removed custom prompt: " +:+ name),
             save_custom_prompts (delete name custom))) as Hcall.
  { unfold ea_remove_prompt.
    cbn [remove RemovePromptInput.confirm RemovePromptInput.name negb].
    rewrite Hbuiltin, Hload.
    by rewrite (proj2 (dict_mem_true name custom) (ex_intro _ p Hsome)). }
  split; [exact Hcall|]. split.
  - intros other Hne. by apply lookup_delete_ne.
  - rewrite Hcall. cbn [snd].
    apply (Hunknown _ (delete name custom)); [done|done|].
    apply lookup_delete_eq.
Qed.
End PromptRemoval.

Lemma add_then_remove_prompt_witness :
  let storage : Py.file Prompts.custom_prompts := None in
  (Prompts.load_custom_prompts storage = Py.Return ∅ /\
   Prompts.dict_mem "summarize" Prompts.BUILTIN_PROMPTS = false /\
   (∅ : Prompts.custom_prompts) !! "summarize" = None) /\
  (Prompts.ea_remove_prompt
     {| Prompts.RemovePromptInput.name := "summarize";
        Prompts.RemovePromptInput.confirm := true |}
     (Prompts.ea_add_prompt PromptsSpec.Scenario.now
        PromptsSpec.Scenario.first storage).2).2
  = Prompts.save_custom_prompts ∅.
Proof.
  intros storage.
  assert (Prompts.load_custom_prompts storage = Py.Return ∅) as H1
    by reflexivity.
  assert (Prompts.dict_mem "summarize" Prompts.BUILTIN_PROMPTS = false) as H2
    by reflexivity.
  assert ((∅ : Prompts.custom_prompts) !! "summarize" = None) as H3
    by reflexivity.
  split; [done|].
  pose proof (add_then_remove_prompt PromptsSpec.Scenario.now
                PromptsSpec.Scenario.first storage ∅ H1 H2 H3) as Hcall.
  cbn [Prompts.AddPromptInput.name PromptsSpec.Scenario.first] in Hcall.
  by rewrite Hcall.
Defined.

Lemma remove_prompt_cases_witness :
  let storage := Some (Py.Document PromptsSpec.Scenario.custom) in
  (Prompts.ea_remove_prompt
     {| Prompts.RemovePromptInput.name := "summarize";
        Prompts.RemovePromptInput.confirm := false |} storage).2 = storage /\
  (Prompts.ea_remove_prompt
     {| Prompts.RemovePromptInput.name := "summarize";
        Prompts.RemovePromptInput.confirm := true |} storage).2
  = Prompts.save_custom_prompts (delete "summarize" PromptsSpec.Scenario.custom).
Proof.
  intros storage.
  destruct (remove_prompt_cases "summarize" storage)
    as (Hno & _ & Hyes).
  split; [by rewrite Hno|].
  destruct (Hyes PromptsSpec.Scenario.custom
              (Prompts.new_prompt PromptsSpec.Scenario.now
                 PromptsSpec.Scenario.first))
    as (Hcall & _); [reflexivity|reflexivity|reflexivity|].
  by rewrite Hcall.
Defined.

(** ** Further properties: what recall and list show *)

Section MemoryShown.
Import Py Memory MemorySpec MemoryMore.

(** X28.  A recall with limit [n] shows the first [n] of the sorted
    matches, or all of them when there are fewer; a larger limit shows the
    same memories and then more. *)
Theorem recall_limit_shows_first
    (query : string) (tags : option string) (n m : Z)
    (memories : list Mem.t) :
  0 <= n <= m ->
  let sorted := recall_sorted (recall_call query tags None) memories in
  let shown := recall_results (recall_call query tags (Some n)) memories in
  shown = take (Z.to_nat n) sorted /\
  Z.of_nat (length shown) = Z.min n (Z.of_nat (length sorted)) /\
  shown `prefix_of` recall_results (recall_call query tags (Some m)) memories.
Proof.
  intros Hnm sorted shown.
  assert (forall k, 0 <= k ->
            recall_results (recall_call query tags (Some k)) memories
            = take (Z.to_nat k) sorted) as Htake.
  { intros k Hk. unfold recall_results.
    cbn [recall_call RecallInput.limit]. by rewrite slice_to. }
  unfold shown. rewrite !Htake by lia. split; [done|]. split.
  - rewrite length_take. lia.
  - replace (Z.to_nat n) with (Z.to_nat n `min` Z.to_nat m)%nat by lia.
    rewrite <- take_take. apply prefix_take.
Qed.

Lemma replace_char_chars a b s :
  a <> b -> ~ In a (list_ascii_of_string (replace_char a b s)).
Proof.
  intros Hab. unfold replace_char. rewrite str_map_chars.
  intros (c & Hc & _)%in_map_iff.
  destruct (Ascii.eqb_spec c a) as [Heq|Hne]; congruence.
Qed.

Lemma replace_char_keeps_out a b x s :
  x <> b -> ~ In x (list_ascii_of_string s) ->
  ~ In x (list_ascii_of_string (replace_char a b s)).
Proof.
  intros Hxb Hout. unfold replace_char. rewrite str_map_chars.
  intros (c & Hc & Hin)%in_map_iff.
  destruct (Ascii.eqb c a); congruence.
Qed.

Lemma str_take_length n s : (String.length (str_take n s) <= n)%nat.
Proof.
  unfold str_take. revert s. induction n as [|n IH]; intros [|c s]; cbn;
    try lia.
  specialize (IH s). lia.
Qed.

(** X29.  The preview cell of a row of [ea_list] cannot break the table:
    it holds no [|] and no newline, and at most 50 characters before the
    ellipsis. *)
Theorem list_row_preview_clean (mem : Mem.t) :
  let preview := row_preview mem in
  ~ In "|"%char (list_ascii_of_string preview) /\
  ~ In "010"%char (list_ascii_of_string preview) /\
  (String.length preview <= 50)%nat /\
  list_row mem
  = "| " +:+ Mem.id mem +:+ " | "
    +:+ (if 50 <? len (Mem.content mem) then preview +:+ "..." else preview)
    +:+ " | " +:+ str_or (join ", " (take 3 (Mem.tags mem))) "-" +:+ " | "
    +:+ str (Mem.importance mem) +:+ " | "
    +:+ str_take 10 (Mem.created_at mem) +:+ " |".
Proof.
  intros preview. unfold preview, row_preview.
  split; [by apply replace_char_chars|]. split; [|split; [|done]].
  - apply replace_char_keeps_out; [done|]. by apply replace_char_chars.
  - unfold replace_char. rewrite !str_map_length. apply str_take_length.
Qed.
End MemoryShown.

Lemma recall_limit_shows_first_witness :
  let memories := Memory.Store.memories MemorySpec.RecallScenario.data in
  0 <= 1 <= 2 /\
  map Memory.Mem.id
    (Memory.recall_results (MemoryMore.recall_call "note" None (Some 1))
       memories)
  = ["mem_0001"] /\
  Memory.recall_results (MemoryMore.recall_call "note" None (Some 1)) memories
  `prefix_of`
  Memory.recall_results (MemoryMore.recall_call "note" None (Some 2)) memories.
Proof.
  intros memories.
  assert (0 <= 1 <= 2) as H by lia.
  split; [exact H|].
  destruct (recall_limit_shows_first "note" None 1 2 memories H)
    as (Hshown & _ & Hprefix).
  split; [by rewrite Hshown|exact Hprefix].
Defined.
